(** * BanShare: a shallow embedding of the ban-sharing core

    The development follows the TypeScript sources of the bot:
    - [src/commands/shareban.ts]       evidence sniffing, the share-ban flow;
    - [src/commands/unshareban.ts]     the revocation flow;
    - [src/database/models/*.ts]       the record store (SQLite tables);
    - [src/lib/utils.ts]               audit logging and its notifications;
    - [src/commands/view-banshare.ts]  the access to the evidence of a ban;
    - the collection-invite / collection-join / collection-delete commands.

    Conventions of the embedding.
    - Identifiers (UUIDs, Discord snowflakes) are [string]s.
    - ISO-8601 UTC instants ([new Date().toISOString()]) are modelled by the
      instant they denote, in milliseconds since the epoch ([Z]); the
      fixed-width ISO text orders as the instants do, which is all SQL's
      [ORDER BY] and [expiresAt > ?] use.
    - The database booleans are kept as the integers 0 and 1 of the rows, with
      [toDbBool] / [fromDbBool] as in [shared.ts].
    - JSON text columns are modelled by the value they encode.
    - A table is the list of its rows in insertion order; the constraints of
      [initDb] that matter (primary keys, the unique index of [servers], the
      foreign keys to [collections], enforced since [connectDb] sets
      [foreign_keys = ON]) are checked by the inserts, updates and deletes.
    - The chat platform is a [Client] of oracles that say which calls
      resolve; the bans, unbans, channel messages and DMs the bot attempts
      are recorded in a trace.
    - A handler returns the answer it gives to the interaction; the
      building of embeds is part of the answer.  The calls that carry the
      answers ([reply], [editReply], [update], [deferReply], [deferUpdate])
      are requests to the platform.  In the handlers where such a call is
      awaited between a write and a [catch] that gives another answer, or
      just before the write (inviting a server, saving a new group,
      confirming a deletion, confirming an edit, the access to evidence), a
      [Responder] oracle says whether the platform accepts the call, and a
      rejected call throws as it does in the source.  An answer that ends
      its path, and the answers of the other handlers, are the value
      returned: the call that carries them is taken to go through.
    - A JavaScript [Set] of strings is the list of its elements in insertion
      order. *)

From Stdlib Require Import String ZArith Bool Lia Arith List Permutation Sorted DecimalString.
Import ListNotations.

Local Open Scope Z_scope.
Local Open Scope list_scope.

Set Implicit Arguments.

(* ================================================================== *)
(** * Evidence validator ([shareban.ts]) *)
(* ================================================================== *)

(** A [Buffer] is a sequence of octets. *)
Definition Buffer := list Z.

(** [ALLOWED_MAGIC_BYTES], in the key order of the object literal. *)
Definition ALLOWED_MAGIC_BYTES : list (string * list (list Z)) :=
  [ ("png"%string,  [[0x89; 0x50; 0x4e; 0x47]]);
    ("jpg"%string,  [[0xff; 0xd8; 0xff; 0xe0];
                     [0xff; 0xd8; 0xff; 0xe1];
                     [0xff; 0xd8; 0xff; 0xe2];
                     [0xff; 0xd8; 0xff; 0xdb]]);
    ("gif"%string,  [[0x47; 0x49; 0x46; 0x38; 0x37; 0x61];
                     [0x47; 0x49; 0x46; 0x38; 0x39; 0x61]]);
    ("webp"%string, [[0x52; 0x49; 0x46; 0x46]]);
    ("bmp"%string,  [[0x42; 0x4d]]);
    ("pdf"%string,  [[0x25; 0x50; 0x44; 0x46]]);
    ("mp4"%string,  [[0x00; 0x00; 0x00; 0x18; 0x66; 0x74; 0x79; 0x70]]);
    ("webm"%string, [[0x1a; 0x45; 0xdf; 0xa3]]);
    ("txt"%string,  [[0xef; 0xbb; 0xbf]]) ].

(** [BLOCKED_MAGIC_BYTES]: Windows PE, ELF, Mach-O, Mach-O 64, ZIP. *)
Definition BLOCKED_MAGIC_BYTES : list (list Z) :=
  [ [0x4d; 0x5a];
    [0x7f; 0x45; 0x4c; 0x46];
    [0xca; 0xfe; 0xba; 0xbe];
    [0xcf; 0xfa; 0xed; 0xfe];
    [0x50; 0x4b; 0x03; 0x04] ].

(** [sig.every((byte, index) => buffer[index] === byte)], with the index
    running from [index]. An index past the end of the buffer reads
    [undefined], which equals no byte. *)
Fixpoint every_at (buffer : Buffer) (index : nat) (sig : list Z) : bool :=
  match sig with
  | [] => true
  | byte :: sig' =>
      match nth_error buffer index with
      | Some b => (b =? byte) && every_at buffer (S index) sig'
      | None => false
      end
  end.

Definition checkMagicBytes (buffer : Buffer) (signatures : list (list Z)) : bool :=
  existsb (fun sig =>
             if (length buffer <? length sig)%nat then false
             else every_at buffer 0 sig)
          signatures.

Definition isBlockedFile (buffer : Buffer) : bool :=
  existsb (fun sig => checkMagicBytes buffer [sig]) BLOCKED_MAGIC_BYTES.

Definition isPrintable (byte : Z) : bool :=
  ((0x20 <=? byte) && (byte <=? 0x7e))
  || (byte =? 0x0a) || (byte =? 0x0d) || (byte =? 0x09).

Definition isAllowedFile (buffer : Buffer) : bool :=
  if isBlockedFile buffer then false
  else if existsb (fun entry => checkMagicBytes buffer (snd entry)) ALLOWED_MAGIC_BYTES
       then true
       else if forallb isPrintable (firstn 100 buffer) then true
            else false.

(** The buffer starts with the signature. *)
Definition has_prefix (sig : list Z) (buffer : Buffer) : Prop :=
  exists rest, buffer = sig ++ rest.

(* ================================================================== *)
(** * The record store: rows of the SQLite tables ([main.ts], models) *)
(* ================================================================== *)

Definition Timestamp := Z.

(** [shared.ts] *)
Definition toDbBool (value : bool) : Z := if value then 1 else 0.
Definition fromDbBool (value : Z) : bool := value =? 1.

(** A JSON value, for the free-form [details] payload of audit entries. *)
#[warnings="-register-all"] Inductive Json :=
| JNull
| JBool (b : bool)
| JNum (n : Z)
| JStr (s : string)
| JArr (items : list Json)
| JObj (fields : list (string * Json)).

Inductive OnServerRemovePolicy := retain | lift | archive.

Record CollectionRow := mkCollectionRow {
  cr_id : string;
  cr_mainGuildId : string;
  cr_name : string;
  cr_description : option string;
  cr_createdAt : Timestamp;
  cr_createdBy : string;
  cr_loggingEnabledAtCollectionLevel : Z;
  cr_onServerRemove : OnServerRemovePolicy;
  cr_dmOnBan : Z;
  cr_analyticsEnabled : Z;
  cr_maxLinkedServers : Z
}.

Record ServerRow := mkServerRow {
  sr_id : string;
  sr_guildId : string;
  sr_collectionId : string;
  sr_addedAt : Timestamp;
  sr_addedBy : string;
  sr_loggingChannelId : option string;
  sr_syncOnJoin : Z;
  sr_enabled : Z
}.

Inductive EvidenceType := ev_image | ev_link | ev_text.
Inductive EvidenceStorage := st_s3 | st_gridfs | st_external.

Record EvidenceEntry := mkEvidenceEntry {
  ee_id : string;
  ee_type : EvidenceType;
  ee_storage : EvidenceStorage;
  ee_ref : string;
  ee_notes : option string;
  ee_sizeBytes : Z
}.

Inductive AppliedServerResult :=
| r_success | r_failed | r_skipped | r_no_perm | r_already_banned.

Record AppliedServerRunEntry := mkRunEntry {
  re_guildId : string;
  re_runId : string;
  re_appliedAt : option Timestamp;
  re_result : AppliedServerResult;
  re_error : option string;
  re_retryCount : Z
}.

Record BanMeta := mkBanMeta {
  bm_lastRunId : option string;
  bm_runs : option Z
}.

Record BanRow := mkBanRow {
  br_id : string;
  br_collectionId : string;
  br_userId : string;
  br_moderatorId : string;
  br_moderatorGuildId : string;
  br_timestamp : Timestamp;
  br_expiresAt : option Timestamp;
  br_reason : option string;
  br_userFacingReason : option string;
  br_privatiseReason : Z;
  br_moderatorsInvolvedJson : list string;
  br_evidenceJson : list EvidenceEntry;
  br_active : Z;
  br_appliedServersRecentJson : list AppliedServerRunEntry;
  br_appliedServersHistoryJson : list AppliedServerRunEntry;
  br_metaJson : BanMeta
}.

Inductive ModeratorType := mt_user | mt_role.

Record ModeratorRow := mkModeratorRow {
  mr_id : string;
  mr_collectionId : string;
  mr_type : ModeratorType;
  mr_value : string;
  mr_grantedBy : string;
  mr_grantedAt : Timestamp
}.

(** [AuditLogAction]: the closed vocabulary of [auditLog.ts]. *)
Inductive AuditLogAction :=
| collection_create | collection_create_failed
| server_add | server_add_failed
| server_remove | server_remove_failed
| moderator_add | moderator_add_failed
| moderator_remove | moderator_remove_failed
| ban_create | ban_create_failed
| ban_revoke | ban_revoke_failed
| ban_sync | ban_sync_failed
| ban_edit | ban_edit_failed
| ban_lookup | ban_view
| setting_update | setting_update_failed
| invite_create | invite_create_failed
| invite_accept | invite_accept_failed
| collection_delete | collection_delete_failed
| evidence_access.

Record AuditLogRow := mkAuditLogRow {
  ar_id : string;
  ar_collectionId : string;
  ar_action : AuditLogAction;
  ar_performedBy : string;
  ar_performedAt : Timestamp;
  ar_detailsJson : Json
}.

Inductive InviteStatus := pending | accepted | expired | cancelled.

Record InviteRow := mkInviteRow {
  ir_id : string;
  ir_collectionId : string;
  ir_targetGuildId : string;
  ir_invitedBy : string;
  ir_invitedAt : Timestamp;
  ir_expiresAt : Timestamp;
  ir_status : InviteStatus;
  ir_respondedAt : option Timestamp
}.

(** The database: the six tables of [initDb]. *)
Record Db := mkDb {
  collections : list CollectionRow;
  servers : list ServerRow;
  bans : list BanRow;
  moderators : list ModeratorRow;
  auditLogs : list AuditLogRow;
  invites : list InviteRow
}.

(* ================================================================== *)
(** * The chat platform, as seen by the bot *)
(* ================================================================== *)

Inductive ChannelType := GuildText | GuildAnnouncement | GuildVoice | GuildCategory.

Record Channel := mkChannel {
  ch_id : string;
  ch_name : string;
  ch_type : ChannelType;
  ch_send_ok : bool            (* does [channel.send] resolve? *)
}.

Record Role := mkRole {
  ro_id : string;
  ro_name : string;
  ro_position : Z;
  ro_administrator : bool
}.

Record Member := mkMember {
  me_id : string;
  me_bot : bool;
  me_roles : list string;
  me_dm_ok : bool              (* does [member.send] resolve? *)
}.

Record Guild := mkGuild {
  g_id : string;
  g_name : string;
  g_owner : option Member;     (* [fetchOwner]; [None] when it rejects *)
  g_channels : list Channel;
  g_roles : list Role;
  g_members : list Member;
  g_ban : string -> option string;    (* [members.ban]: [Some msg] when it rejects *)
  g_unban : string -> option string   (* [members.unban]: likewise *)
}.

Record Client := mkClient {
  isReady : bool;
  guilds_fetch : string -> option Guild;   (* [None] when the fetch rejects *)
  user_dm_ok : string -> bool              (* does [user.send] resolve? *)
}.

(** What the bot did to the platform, in order. *)
Inductive Event :=
| EvBan (guildId userId : string) (ok : bool)
| EvUnban (guildId userId : string) (ok : bool)
| EvChannelSend (guildId channelId : string) (ok : bool)
| EvDm (userId : string) (ok : bool).

(* ================================================================== *)
(** * The world and the monad of effects *)
(* ================================================================== *)

Inductive Exn :=
| RecordNotFoundError (message : string)
| SqliteError (code : string)
| Error (message : string).

Record World := mkWorld {
  db : Db;
  clock : Timestamp;           (* [Date.now()] *)
  uuids : nat -> string;       (* the answers of [randomUUID] *)
  drawn : nat;                 (* how many were drawn *)
  client : Client;
  trace : list Event
}.

Inductive Completion (A : Type) :=
| Normal (a : A)
| Thrown (e : Exn).
Arguments Normal {A} a.
Arguments Thrown {A} e.

Definition M (A : Type) := World -> Completion A * World.

Definition ret {A} (a : A) : M A := fun w => (Normal a, w).
Definition throw {A} (e : Exn) : M A := fun w => (Thrown e, w).
Definition bind {A B} (m : M A) (k : A -> M B) : M B :=
  fun w => match m w with
           | (Normal a, w') => k a w'
           | (Thrown e, w') => (Thrown e, w')
           end.
(** [try { m } catch (e) { h e }] *)
Definition try_catch {A} (m : M A) (h : Exn -> M A) : M A :=
  fun w => match m w with
           | (Normal a, w') => (Normal a, w')
           | (Thrown e, w') => h e w'
           end.

Notation "x <- c1 ;; c2" := (bind c1 (fun x => c2))
  (at level 61, c1 at next level, right associativity).
Notation "c1 ;;; c2" := (bind c1 (fun _ => c2))
  (at level 61, right associativity).

Definition getDb : M Db := fun w => (Normal (db w), w).
Definition putDb (d : Db) : M unit :=
  fun w => (Normal tt, mkWorld d (clock w) (uuids w) (drawn w) (client w) (trace w)).
Definition getClient : M Client := fun w => (Normal (client w), w).
Definition emit (e : Event) : M unit :=
  fun w => (Normal tt, mkWorld (db w) (clock w) (uuids w) (drawn w) (client w) (trace w ++ [e])).

(** [db.transaction(fn)()]: a throw inside rolls the database back. *)
Definition transaction {A} (m : M A) : M A :=
  fun w => match m w with
           | (Normal a, w') => (Normal a, w')
           | (Thrown e, w') =>
               (Thrown e, mkWorld (db w) (clock w') (uuids w') (drawn w') (client w') (trace w'))
           end.

(** [shared.ts] *)
Definition newId : M string :=
  fun w => (Normal (uuids w (drawn w)),
            mkWorld (db w) (clock w) (uuids w) (S (drawn w)) (client w) (trace w)).
Definition nowIso : M Timestamp := fun w => (Normal (clock w), w).

(** [for (const x of xs) { ... }] with the locals it updates threaded
    through as [s]. *)
Fixpoint fold_each {A S} (xs : list A) (body : S -> A -> M S) (s : S) : M S :=
  match xs with
  | [] => ret s
  | x :: xs' => s' <- body s x ;; fold_each xs' body s'
  end.

(* ------------------------------------------------------------------ *)
(** ** SQL helpers *)

(** [ORDER BY key DESC]: rows with equal keys keep their table order (SQL
    fixes no order among them). *)
Fixpoint insert_desc {A} (key : A -> Z) (x : A) (l : list A) : list A :=
  match l with
  | [] => [x]
  | y :: l' => if key y <=? key x then x :: l else y :: insert_desc key x l'
  end.

Definition order_by_desc {A} (key : A -> Z) (rows : list A) : list A :=
  fold_right (insert_desc key) [] rows.

(** [LIMIT n] *)
Definition limit {A} (n : nat) (rows : list A) : list A := firstn n rows.

Definition has_collection (d : Db) (id : string) : bool :=
  existsb (fun c => String.eqb (cr_id c) id) (collections d).

(** A JavaScript number as [parseInt] can return it: an integer or [NaN]. *)
Inductive JsNumber := Num (z : Z) | NaN.

Definition isFinite (n : JsNumber) : bool :=
  match n with Num _ => true | NaN => false end.

(** [n <= 0]; a comparison with [NaN] is false. *)
Definition lessEqZero (n : JsNumber) : bool :=
  match n with Num z => z <=? 0 | NaN => false end.

(* ================================================================== *)
(** * Models ([src/database/models]) *)
(* ================================================================== *)

(** ** [collection.ts] *)
Module Collection.

Record t := mk {
  _id : string;
  _mainGuildId : string;
  _name : string;
  _description : option string;
  _createdAt : Timestamp;
  _createdBy : string;
  _loggingEnabledAtCollectionLevel : bool;
  _onServerRemove : OnServerRemovePolicy;
  _dmOnBan : bool;
  _analyticsEnabled : bool;
  _maxLinkedServers : Z
}.

Definition applyRow (row : CollectionRow) : t :=
  mk (cr_id row) (cr_mainGuildId row) (cr_name row) (cr_description row)
     (cr_createdAt row) (cr_createdBy row)
     (fromDbBool (cr_loggingEnabledAtCollectionLevel row))
     (cr_onServerRemove row)
     (fromDbBool (cr_dmOnBan row))
     (fromDbBool (cr_analyticsEnabled row))
     (cr_maxLinkedServers row).

(** [new Collection(id)] *)
Definition getById (id : string) : M t :=
  d <- getDb ;;
  match find (fun row => String.eqb (cr_id row) id) (collections d) with
  | Some row => ret (applyRow row)
  | None => throw (RecordNotFoundError (String.append "Collection not found: " id))
  end.

Definition getByMainGuildId (mainGuildId : string) : M t :=
  d <- getDb ;;
  match find (fun row => String.eqb (cr_mainGuildId row) mainGuildId) (collections d) with
  | Some row => getById (cr_id row)
  | None => throw (RecordNotFoundError
                     (String.append "Collection not found for mainGuildId: " mainGuildId))
  end.

(** Does a row of a child table still reference the collection?  Every
    child table declares [FOREIGN KEY (collectionId) REFERENCES
    collections(_id)], and [connectDb] turns [foreign_keys] on. *)
Definition referenced (d : Db) (id : string) : bool :=
  existsb (fun r => String.eqb (sr_collectionId r) id) (servers d)
  || existsb (fun r => String.eqb (br_collectionId r) id) (bans d)
  || existsb (fun r => String.eqb (mr_collectionId r) id) (moderators d)
  || existsb (fun r => String.eqb (ar_collectionId r) id) (auditLogs d)
  || existsb (fun r => String.eqb (ir_collectionId r) id) (invites d).

(** [DELETE FROM collections WHERE _id = ?], returning [changes]. *)
Definition delete_row (id : string) : M nat :=
  d <- getDb ;;
  let victims := filter (fun row => String.eqb (cr_id row) id) (collections d) in
  match victims with
  | [] => ret 0%nat
  | _ :: _ =>
      if referenced d id
      then throw (SqliteError "SQLITE_CONSTRAINT_FOREIGNKEY")
      else
        putDb (mkDb (filter (fun row => negb (String.eqb (cr_id row) id)) (collections d))
                    (servers d) (bans d) (moderators d) (auditLogs d) (invites d)) ;;;
        ret (length victims)
  end.

Definition remove (this : t) : M unit :=
  transaction (
    d <- getDb ;;
    putDb (mkDb (collections d) (servers d) (bans d) (moderators d)
                (filter (fun r => negb (String.eqb (ar_collectionId r) (_id this))) (auditLogs d))
                (invites d)) ;;;
    d <- getDb ;;
    putDb (mkDb (collections d) (servers d) (bans d)
                (filter (fun r => negb (String.eqb (mr_collectionId r) (_id this))) (moderators d))
                (auditLogs d) (invites d)) ;;;
    d <- getDb ;;
    putDb (mkDb (collections d) (servers d)
                (filter (fun r => negb (String.eqb (br_collectionId r) (_id this))) (bans d))
                (moderators d) (auditLogs d) (invites d)) ;;;
    d <- getDb ;;
    putDb (mkDb (collections d)
                (filter (fun r => negb (String.eqb (sr_collectionId r) (_id this))) (servers d))
                (bans d) (moderators d) (auditLogs d) (invites d)) ;;;
    changes <- delete_row (_id this) ;;
    if (changes =? 0)%nat
    then throw (RecordNotFoundError (String.append "Collection not found: " (_id this)))
    else ret tt).


Record CollectionCreateInput := mkInput {
  mainGuildId : string;
  name : string;
  description : option string;
  createdBy : string;
  loggingEnabledAtCollectionLevel : option bool;
  onServerRemove : option OnServerRemovePolicy;
  dmOnBan : option bool;
  analyticsEnabled : option bool;
  maxLinkedServers : option JsNumber
}.

Definition orElse {A} (o : option A) (dflt : A) : A :=
  match o with Some a => a | None => dflt end.

(** [INSERT INTO collections]: primary key and [mainGuildId ... UNIQUE]. *)
Definition insert_row (row : CollectionRow) : M unit :=
  d <- getDb ;;
  if existsb (fun r => String.eqb (cr_id r) (cr_id row)) (collections d)
  then throw (SqliteError "SQLITE_CONSTRAINT_PRIMARYKEY")
  else if existsb (fun r => String.eqb (cr_mainGuildId r) (cr_mainGuildId row)) (collections d)
  then throw (SqliteError "SQLITE_CONSTRAINT_UNIQUE")
  else putDb (mkDb (collections d ++ [row]) (servers d) (bans d)
                   (moderators d) (auditLogs d) (invites d)).

Definition create (input : CollectionCreateInput) : M t :=
  id <- newId ;;
  createdAt <- nowIso ;;
  let maxLinkedServers := orElse (maxLinkedServers input) (Num 30) in
  if negb (isFinite maxLinkedServers) || lessEqZero maxLinkedServers
  then throw (Error "maxLinkedServers must be a positive number")
  else
    insert_row
      (mkCollectionRow id (mainGuildId input) (name input) (description input)
                       createdAt (createdBy input)
                       (toDbBool (orElse (loggingEnabledAtCollectionLevel input) true))
                       (orElse (onServerRemove input) retain)
                       (toDbBool (orElse (dmOnBan input) false))
                       (toDbBool (orElse (analyticsEnabled input) false))
                       (match maxLinkedServers with Num z => z | NaN => 0 end)) ;;;
    getById id.

(** [SELECT * FROM collections ORDER BY createdAt DESC LIMIT 500] *)
Definition listAll : M (list t) :=
  d <- getDb ;;
  ret (map applyRow (limit 500 (order_by_desc cr_createdAt (collections d)))).

(** The setter of [maxLinkedServers]; it returns the mutated object. *)
Definition set_maxLinkedServers (this : t) (value : JsNumber) : M t :=
  if negb (isFinite value) || lessEqZero value
  then throw (Error "maxLinkedServers must be a positive number")
  else ret (mk (_id this) (_mainGuildId this) (_name this) (_description this)
               (_createdAt this) (_createdBy this)
               (_loggingEnabledAtCollectionLevel this) (_onServerRemove this)
               (_dmOnBan this) (_analyticsEnabled this)
               (match value with Num z => z | NaN => 0 end)).

Definition updated_row (this : t) (old : CollectionRow) : CollectionRow :=
  mkCollectionRow (cr_id old) (_mainGuildId this) (_name this) (_description this)
                  (cr_createdAt old) (cr_createdBy old)
                  (toDbBool (_loggingEnabledAtCollectionLevel this))
                  (_onServerRemove this)
                  (toDbBool (_dmOnBan this))
                  (toDbBool (_analyticsEnabled this))
                  (_maxLinkedServers this).

(** [UPDATE collections SET ... WHERE _id = ?]: the row written must keep
    [mainGuildId] unique among the other rows and satisfy
    [CHECK (maxLinkedServers > 0)]. *)
Definition save (this : t) : M unit :=
  d <- getDb ;;
  let hit := fun row => String.eqb (cr_id row) (_id this) in
  let changes := length (filter hit (collections d)) in
  if (changes =? 0)%nat
  then throw (RecordNotFoundError (String.append "Collection not found: " (_id this)))
  else if _maxLinkedServers this <=? 0
  then throw (SqliteError "SQLITE_CONSTRAINT_CHECK")
  else if existsb (fun r => negb (hit r)
                            && String.eqb (cr_mainGuildId r) (_mainGuildId this))
                  (collections d)
  then throw (SqliteError "SQLITE_CONSTRAINT_UNIQUE")
  else putDb (mkDb (map (fun row => if hit row then updated_row this row else row)
                        (collections d))
                   (servers d) (bans d) (moderators d) (auditLogs d) (invites d)).

End Collection.

(** ** [server.ts] *)
Module Server.

Record t := mk {
  _id : string;
  _guildId : string;
  _collectionId : string;
  _addedAt : Timestamp;
  _addedBy : string;
  _loggingChannelId : option string;
  _syncOnJoin : bool;
  _enabled : bool
}.

Record ServerAddInput := mkInput {
  guildId : string;
  collectionId : string;
  addedBy : string;
  loggingChannelId : option string;
  syncOnJoin : option bool;
  enabled : option bool
}.

Definition applyRow (row : ServerRow) : t :=
  mk (sr_id row) (sr_guildId row) (sr_collectionId row) (sr_addedAt row)
     (sr_addedBy row) (sr_loggingChannelId row)
     (fromDbBool (sr_syncOnJoin row)) (fromDbBool (sr_enabled row)).

Definition getById (id : string) : M t :=
  d <- getDb ;;
  match find (fun row => String.eqb (sr_id row) id) (servers d) with
  | Some row => ret (applyRow row)
  | None => throw (RecordNotFoundError (String.append "Server not found: " id))
  end.

(** [INSERT INTO servers]: primary key, the unique index on
    [(collectionId, guildId)] and the foreign key are enforced. *)
Definition insert_row (row : ServerRow) : M unit :=
  d <- getDb ;;
  if existsb (fun r => String.eqb (sr_id r) (sr_id row)) (servers d)
  then throw (SqliteError "SQLITE_CONSTRAINT_PRIMARYKEY")
  else if existsb (fun r => String.eqb (sr_collectionId r) (sr_collectionId row)
                            && String.eqb (sr_guildId r) (sr_guildId row)) (servers d)
  then throw (SqliteError "SQLITE_CONSTRAINT_UNIQUE")
  else if negb (has_collection d (sr_collectionId row))
  then throw (SqliteError "SQLITE_CONSTRAINT_FOREIGNKEY")
  else putDb (mkDb (collections d) (servers d ++ [row]) (bans d)
                   (moderators d) (auditLogs d) (invites d)).

Definition add (input : ServerAddInput) : M t :=
  id <- newId ;;
  now <- nowIso ;;
  insert_row (mkServerRow id (guildId input) (collectionId input) now (addedBy input)
                          (loggingChannelId input)
                          (toDbBool (match syncOnJoin input with Some b => b | None => true end))
                          (toDbBool (match enabled input with Some b => b | None => true end))) ;;;
  getById id.

(** [SELECT * FROM servers WHERE collectionId = ? ORDER BY addedAt DESC] *)
Definition listByCollection (collectionId : string) : M (list t) :=
  d <- getDb ;;
  ret (map applyRow
           (order_by_desc sr_addedAt
              (filter (fun row => String.eqb (sr_collectionId row) collectionId) (servers d)))).

(** [SELECT _id FROM servers WHERE guildId = ? AND enabled = 1] *)
Definition getByGuildId (guildId : string) : M t :=
  d <- getDb ;;
  match find (fun row => String.eqb (sr_guildId row) guildId && (sr_enabled row =? 1))
             (servers d) with
  | Some row => getById (sr_id row)
  | None => throw (RecordNotFoundError (String.append "Server not found for guildId=" guildId))
  end.


Definition getByCollectionAndGuild (collectionId guildId : string) : M t :=
  d <- getDb ;;
  match find (fun row => String.eqb (sr_collectionId row) collectionId
                         && String.eqb (sr_guildId row) guildId) (servers d) with
  | Some row => getById (sr_id row)
  | None => throw (RecordNotFoundError
                     (String.append "Server not found for collectionId="
                        (String.append collectionId (String.append " guildId=" guildId))))
  end.

Definition updated_row (this : t) (old : ServerRow) : ServerRow :=
  mkServerRow (sr_id old) (_guildId this) (_collectionId this) (sr_addedAt old)
              (sr_addedBy old) (_loggingChannelId this)
              (toDbBool (_syncOnJoin this)) (toDbBool (_enabled this)).

(** [UPDATE servers SET ... WHERE _id = ?]: the row written must keep
    [(collectionId, guildId)] unique among the other rows and name a group. *)
Definition save (this : t) : M unit :=
  d <- getDb ;;
  let hit := fun row => String.eqb (sr_id row) (_id this) in
  let changes := length (filter hit (servers d)) in
  if (changes =? 0)%nat
  then throw (RecordNotFoundError (String.append "Server not found: " (_id this)))
  else if existsb (fun r => negb (hit r)
                            && String.eqb (sr_collectionId r) (_collectionId this)
                            && String.eqb (sr_guildId r) (_guildId this)) (servers d)
  then throw (SqliteError "SQLITE_CONSTRAINT_UNIQUE")
  else if negb (has_collection d (_collectionId this))
  then throw (SqliteError "SQLITE_CONSTRAINT_FOREIGNKEY")
  else putDb (mkDb (collections d)
                   (map (fun row => if hit row then updated_row this row else row) (servers d))
                   (bans d) (moderators d) (auditLogs d) (invites d)).

(** [remove]: a soft delete; it returns the mutated object. *)
Definition remove (this : t) : M t :=
  let this' := mk (_id this) (_guildId this) (_collectionId this) (_addedAt this)
                  (_addedBy this) (_loggingChannelId this) (_syncOnJoin this) false in
  save this' ;;; ret this'.

End Server.

(** ** [moderator.ts] *)
Module Moderator.

Record t := mk {
  _id : string;
  _collectionId : string;
  _type : ModeratorType;
  _value : string;
  _grantedBy : string;
  _grantedAt : Timestamp
}.

Definition applyRow (row : ModeratorRow) : t :=
  mk (mr_id row) (mr_collectionId row) (mr_type row) (mr_value row)
     (mr_grantedBy row) (mr_grantedAt row).

(** [... WHERE collectionId = ? ORDER BY grantedAt DESC LIMIT 200] *)
Definition listByCollection (collectionId : string) : M (list t) :=
  d <- getDb ;;
  ret (map applyRow
           (limit 200
              (order_by_desc mr_grantedAt
                 (filter (fun row => String.eqb (mr_collectionId row) collectionId)
                         (moderators d))))).


Record ModeratorGrantInput := mkInput {
  collectionId : string;
  type : ModeratorType;
  value : string;
  grantedBy : string
}.

Definition type_eqb (a b : ModeratorType) : bool :=
  match a, b with
  | mt_user, mt_user | mt_role, mt_role => true
  | _, _ => false
  end.

Definition getById (id : string) : M t :=
  d <- getDb ;;
  match find (fun row => String.eqb (mr_id row) id) (moderators d) with
  | Some row => ret (applyRow row)
  | None => throw (RecordNotFoundError (String.append "Moderator not found: " id))
  end.

(** [INSERT INTO moderators]: primary key, the unique index on
    [(collectionId, type, value)] and the foreign key. *)
Definition insert_row (row : ModeratorRow) : M unit :=
  d <- getDb ;;
  if existsb (fun r => String.eqb (mr_id r) (mr_id row)) (moderators d)
  then throw (SqliteError "SQLITE_CONSTRAINT_PRIMARYKEY")
  else if existsb (fun r => String.eqb (mr_collectionId r) (mr_collectionId row)
                            && type_eqb (mr_type r) (mr_type row)
                            && String.eqb (mr_value r) (mr_value row)) (moderators d)
  then throw (SqliteError "SQLITE_CONSTRAINT_UNIQUE")
  else if negb (has_collection d (mr_collectionId row))
  then throw (SqliteError "SQLITE_CONSTRAINT_FOREIGNKEY")
  else putDb (mkDb (collections d) (servers d) (bans d) (moderators d ++ [row])
                   (auditLogs d) (invites d)).

Definition grant (input : ModeratorGrantInput) : M t :=
  id <- newId ;;
  now <- nowIso ;;
  insert_row (mkModeratorRow id (collectionId input) (type input) (value input)
                             (grantedBy input) now) ;;;
  getById id.

Definition getByCollectionTypeValue (collectionId : string) (type : ModeratorType)
           (value : string) : M t :=
  d <- getDb ;;
  match find (fun row => String.eqb (mr_collectionId row) collectionId
                         && type_eqb (mr_type row) type
                         && String.eqb (mr_value row) value) (moderators d) with
  | Some row => getById (mr_id row)
  | None => throw (RecordNotFoundError
                     (String.append "Moderator not found for collectionId="
                        (String.append collectionId
                           (String.append " type="
                              (String.append (match type with
                                              | mt_user => "user"
                                              | mt_role => "role"
                                              end)
                                 (String.append " value=" value))))))
  end.

(** [DELETE FROM moderators WHERE _id = ?] *)
Definition remove (this : t) : M unit :=
  d <- getDb ;;
  let hit := fun row => String.eqb (mr_id row) (_id this) in
  let changes := length (filter hit (moderators d)) in
  putDb (mkDb (collections d) (servers d) (bans d)
              (filter (fun row => negb (hit row)) (moderators d))
              (auditLogs d) (invites d)) ;;;
  if (changes =? 0)%nat
  then throw (RecordNotFoundError (String.append "Moderator not found: " (_id this)))
  else ret tt.

End Moderator.

(** ** [ban.ts] *)
Module Ban.

Record t := mk {
  _id : string;
  _collectionId : string;
  _userId : string;
  _moderatorId : string;
  _moderatorGuildId : string;
  _timestamp : Timestamp;
  _expiresAt : option Timestamp;
  _reason : option string;
  _userFacingReason : option string;
  _privatiseReason : bool;
  _moderatorsInvolved : list string;
  _evidence : list EvidenceEntry;
  _active : bool;
  _appliedServersRecent : list AppliedServerRunEntry;
  _appliedServersHistory : list AppliedServerRunEntry;
  _meta : BanMeta
}.

(** [BanCreateInput]; an optional ([?:]) or nullable field is an [option],
    since [??] treats [undefined] and [null] alike. *)
Record BanCreateInput := mkInput {
  collectionId : string;
  userId : string;
  moderatorId : string;
  moderatorGuildId : string;
  expiresAt : option Timestamp;
  reason : option string;
  userFacingReason : option string;
  privatiseReason : option bool;
  moderatorsInvolved : option (list string);
  evidence : option (list EvidenceEntry);
  active : option bool;
  appliedServersRecent : option (list AppliedServerRunEntry);
  appliedServersHistory : option (list AppliedServerRunEntry);
  meta : option BanMeta
}.

Definition applyRow (row : BanRow) : t :=
  mk (br_id row) (br_collectionId row) (br_userId row) (br_moderatorId row)
     (br_moderatorGuildId row) (br_timestamp row) (br_expiresAt row)
     (br_reason row) (br_userFacingReason row)
     (fromDbBool (br_privatiseReason row))
     (br_moderatorsInvolvedJson row) (br_evidenceJson row)
     (fromDbBool (br_active row))
     (br_appliedServersRecentJson row) (br_appliedServersHistoryJson row)
     (br_metaJson row).

(** [new Ban(id)] *)
Definition getById (id : string) : M t :=
  d <- getDb ;;
  match find (fun row => String.eqb (br_id row) id) (bans d) with
  | Some row => ret (applyRow row)
  | None => throw (RecordNotFoundError (String.append "Ban not found: " id))
  end.

Definition insert_row (row : BanRow) : M unit :=
  d <- getDb ;;
  if existsb (fun r => String.eqb (br_id r) (br_id row)) (bans d)
  then throw (SqliteError "SQLITE_CONSTRAINT_PRIMARYKEY")
  else if negb (has_collection d (br_collectionId row))
  then throw (SqliteError "SQLITE_CONSTRAINT_FOREIGNKEY")
  else putDb (mkDb (collections d) (servers d) (bans d ++ [row])
                   (moderators d) (auditLogs d) (invites d)).

Definition orElse {A} (o : option A) (dflt : A) : A :=
  match o with Some a => a | None => dflt end.

Definition create (input : BanCreateInput) : M t :=
  id <- newId ;;
  timestamp <- nowIso ;;
  let evidence := orElse (evidence input) [] in
  if (5 <? length evidence)%nat then throw (Error "evidence max 5 entries")
  else
    insert_row
      (mkBanRow id (collectionId input) (userId input) (moderatorId input)
                (moderatorGuildId input) timestamp (expiresAt input) (reason input)
                (match userFacingReason input with
                 | Some r => Some r
                 | None => reason input
                 end)
                (toDbBool (orElse (privatiseReason input) true))
                (orElse (moderatorsInvolved input) [])
                evidence
                (toDbBool (orElse (active input) true))
                (orElse (appliedServersRecent input) [])
                (orElse (appliedServersHistory input) [])
                (orElse (meta input) (mkBanMeta None (Some 1)))) ;;;
    getById id.

(** [listByCollection(collectionId, onlyActive = false)], [limit = 1000]:
    [... WHERE collectionId = ? (AND active = 1) ORDER BY timestamp DESC LIMIT ?] *)
Definition listByCollection (collectionId : string) (onlyActive : bool) : M (list t) :=
  d <- getDb ;;
  let limit_ := 1000%nat in
  if onlyActive then
    ret (map applyRow
             (limit limit_
                (order_by_desc br_timestamp
                   (filter (fun row => String.eqb (br_collectionId row) collectionId
                                       && (br_active row =? 1)) (bans d)))))
  else
    ret (map applyRow
             (limit limit_
                (order_by_desc br_timestamp
                   (filter (fun row => String.eqb (br_collectionId row) collectionId)
                           (bans d))))).

(** The row that [save] writes over the one with the same [_id]; the
    [timestamp] column is not in the [SET] list. *)
Definition updated_row (this : t) (old : BanRow) : BanRow :=
  mkBanRow (br_id old) (_collectionId this) (_userId this) (_moderatorId this)
           (_moderatorGuildId this) (br_timestamp old) (_expiresAt this)
           (_reason this) (_userFacingReason this)
           (toDbBool (_privatiseReason this))
           (_moderatorsInvolved this) (_evidence this)
           (toDbBool (_active this))
           (_appliedServersRecent this) (_appliedServersHistory this) (_meta this).

(** [UPDATE bans SET ... WHERE _id = ?]: when no row has the id, nothing is
    checked or written and [changes] is 0; otherwise the [collectionId]
    written must name a group. *)
Definition save (this : t) : M unit :=
  d <- getDb ;;
  let hit := fun row => String.eqb (br_id row) (_id this) in
  let changes := length (filter hit (bans d)) in
  if (changes =? 0)%nat
  then throw (RecordNotFoundError (String.append "Ban not found: " (_id this)))
  else if negb (has_collection d (_collectionId this))
  then throw (SqliteError "SQLITE_CONSTRAINT_FOREIGNKEY")
  else putDb (mkDb (collections d) (servers d)
                   (map (fun row => if hit row then updated_row this row else row) (bans d))
                   (moderators d) (auditLogs d) (invites d)).

(** [ban.active = value] *)
Definition set_active (this : t) (value : bool) : t :=
  mk (_id this) (_collectionId this) (_userId this) (_moderatorId this)
     (_moderatorGuildId this) (_timestamp this) (_expiresAt this) (_reason this)
     (_userFacingReason this) (_privatiseReason this) (_moderatorsInvolved this)
     (_evidence this) value (_appliedServersRecent this)
     (_appliedServersHistory this) (_meta this).

(** [revoke] and [remove] return the mutated object. *)
Definition revoke (this : t) : M t :=
  let this' := set_active this false in
  save this' ;;; ret this'.

Definition remove (this : t) : M t := revoke this.


(** [findByUserId(userId, onlyActive = false)], [limit = 500]; it looks in
    every group. *)
Definition findByUserId (userId : string) (onlyActive : bool) : M (list t) :=
  d <- getDb ;;
  let limit_ := 500%nat in
  if onlyActive then
    ret (map applyRow
             (limit limit_
                (order_by_desc br_timestamp
                   (filter (fun row => String.eqb (br_userId row) userId
                                       && (br_active row =? 1)) (bans d)))))
  else
    ret (map applyRow
             (limit limit_
                (order_by_desc br_timestamp
                   (filter (fun row => String.eqb (br_userId row) userId) (bans d))))).

(** [ban.evidence = value] *)
Definition set_evidence (this : t) (value : list EvidenceEntry) : M t :=
  if (5 <? length value)%nat then throw (Error "evidence max 5 entries")
  else ret (mk (_id this) (_collectionId this) (_userId this) (_moderatorId this)
               (_moderatorGuildId this) (_timestamp this) (_expiresAt this) (_reason this)
               (_userFacingReason this) (_privatiseReason this) (_moderatorsInvolved this)
               value (_active this) (_appliedServersRecent this)
               (_appliedServersHistory this) (_meta this)).

(** [ban.reason = value], [ban.privatiseReason = value],
    [ban.moderatorsInvolved = value] *)
Definition set_reason (this : t) (value : option string) : t :=
  mk (_id this) (_collectionId this) (_userId this) (_moderatorId this)
     (_moderatorGuildId this) (_timestamp this) (_expiresAt this) value
     (_userFacingReason this) (_privatiseReason this) (_moderatorsInvolved this)
     (_evidence this) (_active this) (_appliedServersRecent this)
     (_appliedServersHistory this) (_meta this).

Definition set_privatiseReason (this : t) (value : bool) : t :=
  mk (_id this) (_collectionId this) (_userId this) (_moderatorId this)
     (_moderatorGuildId this) (_timestamp this) (_expiresAt this) (_reason this)
     (_userFacingReason this) value (_moderatorsInvolved this)
     (_evidence this) (_active this) (_appliedServersRecent this)
     (_appliedServersHistory this) (_meta this).

Definition set_moderatorsInvolved (this : t) (value : list string) : t :=
  mk (_id this) (_collectionId this) (_userId this) (_moderatorId this)
     (_moderatorGuildId this) (_timestamp this) (_expiresAt this) (_reason this)
     (_userFacingReason this) (_privatiseReason this) value
     (_evidence this) (_active this) (_appliedServersRecent this)
     (_appliedServersHistory this) (_meta this).

End Ban.

(** ** [auditLog.ts] *)
Module AuditLog.

Record t := mk {
  _id : string;
  _collectionId : string;
  _action : AuditLogAction;
  _performedBy : string;
  _performedAt : Timestamp;
  _details : Json
}.

Record AuditLogCreateInput := mkInput {
  collectionId : string;
  action : AuditLogAction;
  performedBy : string;
  details : option Json
}.

Definition applyRow (row : AuditLogRow) : t :=
  mk (ar_id row) (ar_collectionId row) (ar_action row) (ar_performedBy row)
     (ar_performedAt row) (ar_detailsJson row).

Definition getById (id : string) : M t :=
  d <- getDb ;;
  match find (fun row => String.eqb (ar_id row) id) (auditLogs d) with
  | Some row => ret (applyRow row)
  | None => throw (RecordNotFoundError (String.append "AuditLog not found: " id))
  end.

Definition insert_row (row : AuditLogRow) : M unit :=
  d <- getDb ;;
  if existsb (fun r => String.eqb (ar_id r) (ar_id row)) (auditLogs d)
  then throw (SqliteError "SQLITE_CONSTRAINT_PRIMARYKEY")
  else if negb (has_collection d (ar_collectionId row))
  then throw (SqliteError "SQLITE_CONSTRAINT_FOREIGNKEY")
  else putDb (mkDb (collections d) (servers d) (bans d) (moderators d)
                   (auditLogs d ++ [row]) (invites d)).

Definition create (input : AuditLogCreateInput) : M t :=
  id <- newId ;;
  now <- nowIso ;;
  insert_row (mkAuditLogRow id (collectionId input) (action input) (performedBy input) now
                            (match details input with Some j => j | None => JObj [] end)) ;;;
  getById id.


(** [listByCollection(collectionId, limit = 100)]: the limit is capped at
    500; a negative [LIMIT] puts no bound on the rows returned. *)
Definition listByCollection (collectionId : string) (limit_ : Z) : M (list t) :=
  d <- getDb ;;
  let cappedLimit := Z.min limit_ 500 in
  let rows := order_by_desc ar_performedAt
                (filter (fun row => String.eqb (ar_collectionId row) collectionId)
                        (auditLogs d)) in
  ret (map applyRow (if cappedLimit <? 0 then rows else limit (Z.to_nat cappedLimit) rows)).

(** [DELETE FROM auditLogs WHERE _id = ?] *)
Definition remove (this : t) : M unit :=
  d <- getDb ;;
  let hit := fun row => String.eqb (ar_id row) (_id this) in
  let changes := length (filter hit (auditLogs d)) in
  putDb (mkDb (collections d) (servers d) (bans d) (moderators d)
              (filter (fun row => negb (hit row)) (auditLogs d)) (invites d)) ;;;
  if (changes =? 0)%nat
  then throw (RecordNotFoundError (String.append "AuditLog not found: " (_id this)))
  else ret tt.

End AuditLog.

(** ** [invite.ts] *)
Module Invite.

Record t := mk {
  _id : string;
  _collectionId : string;
  _targetGuildId : string;
  _invitedBy : string;
  _invitedAt : Timestamp;
  _expiresAt : Timestamp;
  _status : InviteStatus;
  _respondedAt : option Timestamp
}.

Record InviteCreateInput := mkInput {
  collectionId : string;
  targetGuildId : string;
  invitedBy : string
}.

Definition applyRow (row : InviteRow) : t :=
  mk (ir_id row) (ir_collectionId row) (ir_targetGuildId row) (ir_invitedBy row)
     (ir_invitedAt row) (ir_expiresAt row) (ir_status row) (ir_respondedAt row).

Definition getById (id : string) : M t :=
  d <- getDb ;;
  match find (fun row => String.eqb (ir_id row) id) (invites d) with
  | Some row => ret (applyRow row)
  | None => throw (RecordNotFoundError (String.append "Invite not found: " id))
  end.

Definition insert_row (row : InviteRow) : M unit :=
  d <- getDb ;;
  if existsb (fun r => String.eqb (ir_id r) (ir_id row)) (invites d)
  then throw (SqliteError "SQLITE_CONSTRAINT_PRIMARYKEY")
  else if negb (has_collection d (ir_collectionId row))
  then throw (SqliteError "SQLITE_CONSTRAINT_FOREIGNKEY")
  else putDb (mkDb (collections d) (servers d) (bans d) (moderators d)
                   (auditLogs d) (invites d ++ [row])).

(** 48 hours from now *)
Definition create (input : InviteCreateInput) : M t :=
  id <- newId ;;
  now <- nowIso ;;
  dateNow <- nowIso ;;
  let expiresAt := dateNow + 48 * 60 * 60 * 1000 in
  insert_row (mkInviteRow id (collectionId input) (targetGuildId input) (invitedBy input)
                          now expiresAt pending None) ;;;
  getById id.

Definition status_eqb (a b : InviteStatus) : bool :=
  match a, b with
  | pending, pending | accepted, accepted | expired, expired | cancelled, cancelled => true
  | _, _ => false
  end.

(** [SELECT COUNT( * ) ... WHERE collectionId = ? AND targetGuildId = ?
    AND status = 'pending' AND expiresAt > ?] *)
Definition hasPendingInvite (collectionId targetGuildId : string) : M bool :=
  now <- nowIso ;;
  d <- getDb ;;
  let count :=
    length (filter (fun row => String.eqb (ir_collectionId row) collectionId
                               && String.eqb (ir_targetGuildId row) targetGuildId
                               && status_eqb (ir_status row) pending
                               && (now <? ir_expiresAt row))
                   (invites d)) in
  ret (0 <? count)%nat.

(** [new Date(this._expiresAt) < new Date()] *)
Definition isExpired (this : t) : M bool :=
  now <- nowIso ;;
  ret (_expiresAt this <? now).

(** [reload] returns the refreshed object. *)
Definition reload (this : t) : M t :=
  d <- getDb ;;
  match find (fun row => String.eqb (ir_id row) (_id this)) (invites d) with
  | Some row => ret (applyRow row)
  | None => throw (RecordNotFoundError (String.append "Invite not found: " (_id this)))
  end.

(** [UPDATE invites SET status = ?, respondedAt = ? WHERE _id = ?] *)
Definition save (this : t) : M unit :=
  d <- getDb ;;
  let hit := fun row => String.eqb (ir_id row) (_id this) in
  let changes := length (filter hit (invites d)) in
  putDb (mkDb (collections d) (servers d) (bans d) (moderators d) (auditLogs d)
              (map (fun row =>
                      if hit row
                      then mkInviteRow (ir_id row) (ir_collectionId row) (ir_targetGuildId row)
                                       (ir_invitedBy row) (ir_invitedAt row) (ir_expiresAt row)
                                       (_status this) (_respondedAt this)
                      else row) (invites d))) ;;;
  if (changes =? 0)%nat
  then throw (RecordNotFoundError (String.append "Invite not found: " (_id this)))
  else ret tt.

Definition accept (this : t) : M t :=
  now <- nowIso ;;
  let this' := mk (_id this) (_collectionId this) (_targetGuildId this) (_invitedBy this)
                  (_invitedAt this) (_expiresAt this) accepted (Some now) in
  save this' ;;; ret this'.


(** [... WHERE targetGuildId = ? AND status = 'pending' AND expiresAt > ?
    ORDER BY invitedAt DESC] *)
Definition listPendingForGuild (targetGuildId : string) : M (list t) :=
  now <- nowIso ;;
  d <- getDb ;;
  ret (map applyRow
           (order_by_desc ir_invitedAt
              (filter (fun row => String.eqb (ir_targetGuildId row) targetGuildId
                                  && status_eqb (ir_status row) pending
                                  && (now <? ir_expiresAt row))
                      (invites d)))).

(** The same query with [LIMIT 1]; [null] when there is no row. *)
Definition getPendingForGuild (targetGuildId : string) : M (option t) :=
  now <- nowIso ;;
  d <- getDb ;;
  ret (match limit 1
               (order_by_desc ir_invitedAt
                  (filter (fun row => String.eqb (ir_targetGuildId row) targetGuildId
                                      && status_eqb (ir_status row) pending
                                      && (now <? ir_expiresAt row))
                          (invites d))) with
       | row :: _ => Some (applyRow row)
       | [] => None
       end).

(** [... WHERE collectionId = ? ORDER BY invitedAt DESC LIMIT 500] *)
Definition listByCollection (collectionId : string) : M (list t) :=
  d <- getDb ;;
  ret (map applyRow
           (limit 500
              (order_by_desc ir_invitedAt
                 (filter (fun row => String.eqb (ir_collectionId row) collectionId)
                         (invites d))))).

Definition cancel (this : t) : M t :=
  now <- nowIso ;;
  let this' := mk (_id this) (_collectionId this) (_targetGuildId this) (_invitedBy this)
                  (_invitedAt this) (_expiresAt this) cancelled (Some now) in
  save this' ;;; ret this'.

Definition expire (this : t) : M t :=
  now <- nowIso ;;
  let this' := mk (_id this) (_collectionId this) (_targetGuildId this) (_invitedBy this)
                  (_invitedAt this) (_expiresAt this) expired (Some now) in
  save this' ;;; ret this'.

End Invite.

(* ================================================================== *)
(** * Platform primitives *)
(* ================================================================== *)

(** [client.guilds.fetch(id)] *)
Definition guilds_fetch_ (guildId : string) : M Guild :=
  c <- getClient ;;
  match guilds_fetch c guildId with
  | Some g => ret g
  | None => throw (Error "Unknown Guild")
  end.

(** [guild.channels.fetch(id)] *)
Definition channels_fetch (g : Guild) (channelId : string) : M Channel :=
  match find (fun ch => String.eqb (ch_id ch) channelId) (g_channels g) with
  | Some ch => ret ch
  | None => throw (Error "Unknown Channel")
  end.

(** [channel.send(...)] *)
Definition channel_send (g : Guild) (ch : Channel) : M unit :=
  emit (EvChannelSend (g_id g) (ch_id ch) (ch_send_ok ch)) ;;;
  if ch_send_ok ch then ret tt else throw (Error "Missing Access").

(** [member.send(...)] *)
Definition member_send (m : Member) : M unit :=
  emit (EvDm (me_id m) (me_dm_ok m)) ;;;
  if me_dm_ok m then ret tt else throw (Error "Cannot send messages to this user").

(** [user.send(...)] *)
Definition user_send (userId : string) : M unit :=
  c <- getClient ;;
  emit (EvDm userId (user_dm_ok c userId)) ;;;
  if user_dm_ok c userId then ret tt else throw (Error "Cannot send messages to this user").

(** [guild.fetchOwner()] *)
Definition fetchOwner (g : Guild) : M Member :=
  match g_owner g with
  | Some m => ret m
  | None => throw (Error "Unknown Member")
  end.

(** [guild.members.ban(userId, ...)] *)
Definition members_ban (g : Guild) (userId : string) : M unit :=
  match g_ban g userId with
  | None => emit (EvBan (g_id g) userId true)
  | Some msg => emit (EvBan (g_id g) userId false) ;;; throw (Error msg)
  end.

(** [guild.members.unban(userId, ...)] *)
Definition members_unban (g : Guild) (userId : string) : M unit :=
  match g_unban g userId with
  | None => emit (EvUnban (g_id g) userId true)
  | Some msg => emit (EvUnban (g_id g) userId false) ;;; throw (Error msg)
  end.

Definition isTextLike (ty : ChannelType) : bool :=
  match ty with
  | GuildText | GuildAnnouncement => true
  | _ => false
  end.

(** [err instanceof Error ? err.message : 'Unknown error'] *)
Definition message_of (e : Exn) : string :=
  match e with
  | RecordNotFoundError m => m
  | SqliteError m => m
  | Error m => m
  end.

(** JavaScript truthiness of a nullable string. *)
Definition truthy (s : option string) : option string :=
  match s with
  | Some EmptyString => None
  | other => other
  end.

(** [[...new Set(xs)]]: first occurrences, in order. *)
Fixpoint unique (seen : list string) (xs : list string) : list string :=
  match xs with
  | [] => []
  | x :: xs' =>
      if existsb (String.eqb x) seen then unique seen xs'
      else x :: unique (x :: seen) xs'
  end.

(* ================================================================== *)
(** * Audit logging and its notifications ([lib/utils.ts]) *)
(* ================================================================== *)

(** The admin fallback of [dmCollectionAdmins]: at most [maxAttempts] DMs,
    shared by all roles; the first DM that goes through ends the search. *)
Definition maxAttempts : nat := 10.

Fixpoint dm_members (ms : list Member) (attempts : nat) : M (nat * bool) :=
  match ms with
  | [] => ret (attempts, false)
  | m :: ms' =>
      if (maxAttempts <=? attempts)%nat then ret (attempts, false)
      else
        sent <- try_catch (member_send m ;;; ret true) (fun _ => ret false) ;;
        if sent then ret (S attempts, true) else dm_members ms' (S attempts)
  end.

Fixpoint dm_roles (members : list Member) (adminRoles : list Role) (attempts : nat) : M bool :=
  match adminRoles with
  | [] => ret false
  | adminRole :: rest =>
      if (maxAttempts <=? attempts)%nat then ret false
      else
        let adminMembers :=
          filter (fun m => existsb (String.eqb (ro_id adminRole)) (me_roles m)
                           && negb (me_bot m)) members in
        r <- dm_members adminMembers attempts ;;
        if snd r then ret true else dm_roles members rest (fst r)
  end.

Definition dmCollectionAdmins (guild : Guild) : M unit :=
  ownerDone <- try_catch (owner <- fetchOwner guild ;; member_send owner ;;; ret true)
                         (fun _ => ret false) ;;
  if ownerDone then ret tt
  else
    let members := limit 100 (g_members guild) in
    let adminRoles := order_by_desc ro_position (filter ro_administrator (g_roles guild)) in
    dm_roles members adminRoles 0 ;;; ret tt.

Definition sendToMainCollectionLog (collection : Collection.t) : M unit :=
  try_catch (
    mainGuild <- guilds_fetch_ (Collection._mainGuildId collection) ;;
    match find (fun ch => String.eqb (ch_name ch) "shareban-logs" && isTextLike (ch_type ch))
               (g_channels mainGuild) with
    | Some logChannel => channel_send mainGuild logChannel
    | None => dmCollectionAdmins mainGuild
    end)
    (fun _ => ret tt).

(** One round of the loop over the enabled servers: the flag
    [sentToServerChannel] is threaded through. *)
Definition notify_server (sentToServerChannel : bool) (server : Server.t) : M bool :=
  match truthy (Server._loggingChannelId server) with
  | Some loggingChannelId =>
      try_catch (
        guild <- guilds_fetch_ (Server._guildId server) ;;
        channel <- channels_fetch guild loggingChannelId ;;
        if isTextLike (ch_type channel)
        then channel_send guild channel ;;; ret true
        else ret sentToServerChannel)
        (fun _ => ret sentToServerChannel)
  | None => ret sentToServerChannel
  end.

Definition sendAuditLogNotifications (auditLog : AuditLog.t) : M unit :=
  c <- getClient ;;
  if negb (isReady c) then ret tt
  else
    found <- try_catch (collection <- Collection.getById (AuditLog._collectionId auditLog) ;;
                        ret (Some collection))
                       (fun error => match error with
                                     | RecordNotFoundError _ => ret None
                                     | _ => throw error
                                     end) ;;
    match found with
    | None => ret tt
    | Some collection =>
        if negb (Collection._loggingEnabledAtCollectionLevel collection) then ret tt
        else
          all <- Server.listByCollection (Collection._id collection) ;;
          let servers := filter Server._enabled all in
          sentToServerChannel <- fold_each servers notify_server false ;;
          if negb sentToServerChannel then sendToMainCollectionLog collection
          else ret tt
    end.

(** [promise.catch(...)] on a promise nobody awaits: a rejection is logged
    and dropped.  The task is run where it is started; what it does after
    its first [await] only reads the database and talks to the platform.
    It therefore sees the members of the moment it is started, where the
    source reads them once the caller has reached its next [await]. *)
Definition detached (task : M unit) : M unit :=
  try_catch task (fun _ => ret tt).

Definition logAction (params : AuditLog.AuditLogCreateInput) : M (option AuditLog.t) :=
  try_catch (
    auditLog <- AuditLog.create params ;;
    detached (sendAuditLogNotifications auditLog) ;;;
    ret (Some auditLog))
    (fun _ => ret None).

(* ================================================================== *)
(** * Commands *)
(* ================================================================== *)

(** What a command reads off the interaction. *)
Record Interaction := mkInteraction {
  i_guildId : option string;       (* [interaction.guild?.id] *)
  i_guildOwnerId : string;         (* [interaction.guild.ownerId] *)
  i_userId : string;               (* [interaction.user.id] *)
  i_memberRoles : list string;     (* [member.roles.cache] *)
  i_administrator : bool           (* [member.permissions.has(Administrator)] *)
}.

(** What the platform does with the answers of one run of a handler.
    [interaction.reply], [editReply] and [update] carry an answer,
    [deferReply] and [deferUpdate] only acknowledge the interaction; each
    of these calls resolves or rejects (the interaction expired or was
    answered already, the platform refuses the payload). *)
Record Responder (R : Type) := mkResponder {
  delivers : R -> bool;        (* does the call that carries this answer resolve? *)
  acknowledges : bool          (* does [deferReply] / [deferUpdate] resolve? *)
}.

(** [await interaction.editReply(answer)] and the like: a rejected call
    throws. *)
Definition respond {R} (platform : Responder R) (answer : R) : M R :=
  if delivers platform answer then ret answer
  else throw (Error "Unknown interaction").

(** [await interaction.deferReply()], [await buttonInteraction.deferUpdate()] *)
Definition defer {R} (platform : Responder R) : M unit :=
  if acknowledges platform then ret tt
  else throw (Error "Unknown interaction").

(** ** [/shareban] ([shareban.ts]) *)
Module ShareBanCommand.

Record ServerInfo := mkServerInfo {
  si_guildId : string;
  isMainServer : bool
}.

Record EvidenceFile := mkEvidenceFile {
  ef_id : string;
  originalName : string;
  storedPath : string;
  mimeType : string;
  size : Z
}.

Record BanConfiguration := mkConfig {
  targetUser : string;                      (* the target's id *)
  collectionId : string;
  selectedServerGuildIds : list string;     (* a [Set], in insertion order *)
  reason : string;
  userFacingReason : string;
  privatiseReason : bool;
  moderatorsInvolved : list string;
  evidence : list EvidenceFile;
  dmUser : bool
}.

Definition buildServerInfoList (collection : Collection.t) : M (list ServerInfo) :=
  all <- Server.listByCollection (Collection._id collection) ;;
  let linkedServers := filter Server._enabled all in
  let mainServerInList :=
    existsb (fun s => String.eqb (Server._guildId s) (Collection._mainGuildId collection))
            linkedServers in
  ret ((if negb mainServerInList
        then [mkServerInfo (Collection._mainGuildId collection) true]
        else [])
       ++ map (fun server =>
                 mkServerInfo (Server._guildId server)
                              (String.eqb (Server._guildId server)
                                          (Collection._mainGuildId collection)))
              linkedServers).

Definition isUserModerator (interaction : Interaction) (collectionId : string) : M bool :=
  moderators <- Moderator.listByCollection collectionId ;;
  ret (existsb (fun mod_ =>
                  match Moderator._type mod_ with
                  | mt_user => String.eqb (Moderator._value mod_) (i_userId interaction)
                  | mt_role => existsb (String.eqb (Moderator._value mod_))
                                       (i_memberRoles interaction)
                  end) moderators).

Inductive Reply :=
| OnlyInServer
| NotPartOfCollection
| CollectionNotFound
| NotModeratorOrOwner
| NoEnabledServers
| AlreadyBanned (banId : string)
| ConfigurationMenu (allServers : list ServerInfo) (config : BanConfiguration).

(** [try { x = f() } catch { }] leaving [x] null. *)
Definition attempt {A} (m : M A) : M (option A) :=
  try_catch (a <- m ;; ret (Some a)) (fun _ => ret None).

Definition chatInputRun (interaction : Interaction) (targetUserId : string) : M Reply :=
  match i_guildId interaction with
  | None => ret OnlyInServer
  | Some guildId =>
      let executorId := i_userId interaction in
      asMain <- attempt (Collection.getByMainGuildId guildId) ;;
      resolved <-
        match asMain with
        | Some collection => ret (inr (Some collection))
        | None =>
            server <- attempt (Server.getByGuildId guildId) ;;
            match server with
            | None => ret (inl NotPartOfCollection)
            | Some server =>
                if negb (Server._enabled server) then ret (inl NotPartOfCollection)
                else
                  c <- attempt (Collection.getById (Server._collectionId server)) ;;
                  ret (inr c)
            end
        end ;;
      match resolved with
      | inl reply => ret reply
      | inr None => ret CollectionNotFound
      | inr (Some collection) =>
          isMod <- isUserModerator interaction (Collection._id collection) ;;
          let isOwner := String.eqb (Collection._mainGuildId collection) guildId
                         && String.eqb (i_guildOwnerId interaction) executorId in
          if negb isMod && negb isOwner then ret NotModeratorOrOwner
          else
            allServers <- buildServerInfoList collection ;;
            if (length allServers =? 0)%nat then ret NoEnabledServers
            else
              existingBans <- Ban.listByCollection (Collection._id collection) true ;;
              match find (fun b => String.eqb (Ban._userId b) targetUserId) existingBans with
              | Some existingBan => ret (AlreadyBanned (Ban._id existingBan))
              | None =>
                  let allServerGuildIds := map si_guildId allServers in
                  ret (ConfigurationMenu allServers
                         (mkConfig targetUserId (Collection._id collection)
                                   (unique [] allServerGuildIds)
                                   "" "" true [] [] true))
              end
      end
  end.




Definition jstrings (xs : list string) : Json := JArr (map JStr xs).



End ShareBanCommand.

(** ** [/unshareban] ([unshareban.ts]) *)
Module UnsharebanCommand.

Record ServerResult := mkServerResult {
  sr_guild : string;
  success : bool;
  error : option string
}.

Record CollectionResult := mkCollectionResult {
  collection : string;
  servers : list ServerResult
}.

(** The locals of [executeUnban] that outlive the loop. *)
Record Totals := mkTotals {
  results : list CollectionResult;
  totalUnbannedServers : nat;
  totalFailedServers : nat
}.

Record Unbanned := mkUnbanned {
  totals : Totals;
  dmSent : bool
}.

(** One round of the loop "unban from each". *)
Definition unban_in (targetUserId guildId : string) : M ServerResult :=
  try_catch (
    guild <- guilds_fetch_ guildId ;;
    members_unban guild targetUserId ;;;
    ret (mkServerResult guildId true None))
    (fun err => ret (mkServerResult guildId false (Some (message_of err)))).

Fixpoint unban_all (targetUserId : string) (guildIds : list string) : M (list ServerResult) :=
  match guildIds with
  | [] => ret []
  | guildId :: rest =>
      r <- unban_in targetUserId guildId ;;
      rs <- unban_all targetUserId rest ;;
      ret (r :: rs)
  end.

(** The guild ids one ban is lifted in: the main guild, then every server
    row of the collection, without repetition. *)
Definition uniqueGuildIds (c : Collection.t) (servers : list Server.t) : list string :=
  unique [] (Collection._mainGuildId c :: map Server._guildId servers).

(** The body of [for (const ban of bans) { try { ... } catch { } }].  The
    counters are bumped inside the inner loop, before [ban.save()] can
    throw, so they survive a throw of the second half. *)
Definition process_ban (targetUserId executorId : string) (acc : Totals) (ban : Ban.t)
  : M Totals :=
  try_catch (
    collection <- Collection.getById (Ban._collectionId ban) ;;
    servers <- Server.listByCollection (Collection._id collection) ;;
    serverResults <- unban_all targetUserId (uniqueGuildIds collection servers) ;;
    let counted :=
      mkTotals (results acc)
               (totalUnbannedServers acc + length (filter success serverResults))
               (totalFailedServers acc
                + length (filter (fun s => negb (success s)) serverResults)) in
    try_catch (
      Ban.save (Ban.set_active ban false) ;;;
      let successfulServerIds := map sr_guild (filter success serverResults) in
      let failedServerIds :=
        map sr_guild (filter (fun s => negb (success s)) serverResults) in
      logAction (AuditLog.mkInput (Collection._id collection) ban_revoke executorId
                   (Some (JObj [ ("banId"%string, JStr (Ban._id ban));
                                 ("userId"%string, JStr targetUserId);
                                 ("serverIds"%string,
                                  ShareBanCommand.jstrings successfulServerIds);
                                 ("serverCount"%string,
                                  JNum (Z.of_nat (length successfulServerIds))) ]))) ;;;
      (if (0 <? length failedServerIds)%nat
       then
         logAction (AuditLog.mkInput (Collection._id collection) ban_revoke_failed executorId
                      (Some (JObj [ ("banId"%string, JStr (Ban._id ban));
                                    ("userId"%string, JStr targetUserId);
                                    ("serverIds"%string,
                                     ShareBanCommand.jstrings failedServerIds);
                                    ("serverCount"%string,
                                     JNum (Z.of_nat (length failedServerIds)));
                                    ("errors"%string,
                                     JArr (map (fun s =>
                                                  JObj [ ("guildId"%string, JStr (sr_guild s));
                                                         ("error"%string,
                                                          match error s with
                                                          | Some m => JStr m
                                                          | None => JNull
                                                          end) ])
                                               (filter (fun s => negb (success s))
                                                       serverResults))) ]))) ;;;
         ret tt
       else ret tt) ;;;
      ret (mkTotals (results counted
                     ++ [mkCollectionResult (Collection._name collection) serverResults])
                    (totalUnbannedServers counted) (totalFailedServers counted)))
      (fun _ => ret counted))
    (fun _ => ret acc).

Definition executeUnban (targetUserId : string) (targetUser : option string)
           (bans : list Ban.t) (executorId : string) : M Unbanned :=
  totals <- fold_each bans (process_ban targetUserId executorId) (mkTotals [] 0 0) ;;
  dmSent <- match targetUser with
            | Some user => try_catch (user_send user ;;; ret true) (fun _ => ret false)
            | None => ret false
            end ;;
  ret (mkUnbanned totals dmSent).

(** The ids of the groups the guild owns or is an enabled member of. *)
Definition accessibleCollectionIds (guildId : string) : M (list string) :=
  owned <- try_catch (c <- Collection.getByMainGuildId guildId ;; ret [Collection._id c])
                     (fun _ => ret []) ;;
  try_catch (server <- Server.getByGuildId guildId ;;
             if Server._enabled server
                && negb (existsb (String.eqb (Server._collectionId server)) owned)
             then ret (owned ++ [Server._collectionId server])
             else ret owned)
            (fun _ => ret owned).

(** One round of the loop over the accessible groups. *)
Definition bans_of_group (guildId executorUserId : string) (accessibleBans : list Ban.t)
           (collectionId : string) : M (list Ban.t) :=
  try_catch (
    collection <- Collection.getById collectionId ;;
    let isOwner := String.eqb (Collection._mainGuildId collection) guildId in
    moderators <- Moderator.listByCollection collectionId ;;
    let isMod := existsb (fun m => Moderator.type_eqb (Moderator._type m) mt_user
                                   && String.eqb (Moderator._value m) executorUserId)
                         moderators in
    if isOwner || isMod
    then bans <- Ban.listByCollection collectionId true ;; ret (accessibleBans ++ bans)
    else ret accessibleBans)
    (fun _ => ret accessibleBans).

Definition getAccessibleActiveBans (guildId executorUserId : string) : M (list Ban.t) :=
  ids <- accessibleCollectionIds guildId ;;
  if (length ids =? 0)%nat then ret []
  else fold_each ids (bans_of_group guildId executorUserId) [].

End UnsharebanCommand.

(** ** [/collection-invite] *)
Module CollectionInviteCommand.

Inductive Reply :=
| OnlyInServer
| NeedOwnerOrAdministrator
| NoCollectionOwned
| InvalidServerId
| CannotInviteSelf
| DuplicatePending
| TargetNotFound
| InviteSent (invite : Invite.t)
| ErrorCreatingInvite.

Definition isDigit (c : Ascii.ascii) : bool :=
  let n := Ascii.nat_of_ascii c in ((48 <=? n) && (n <=? 57))%nat.

(** [/^\d{17,20}$/.test(s)] *)
Definition isSnowflake (s : string) : bool :=
  forallb isDigit (list_ascii_of_string s)
  && ((17 <=? String.length s) && (String.length s <=? 20))%nat.

(** The answers given before the [try] end their path.  After the checks
    the interaction is deferred; the invite is written first, then the owner
    of the target server is notified and the success answer awaited, all
    inside the [try], so that a rejected answer reaches the [catch] with the
    invite written and before the audit entry. *)
Definition chatInputRun (interaction : Interaction) (platform : Responder Reply)
           (targetGuildId : string) : M Reply :=
  match i_guildId interaction with
  | None => ret OnlyInServer
  | Some guildId =>
      let isGuildOwner := String.eqb (i_guildOwnerId interaction) (i_userId interaction) in
      let hasAdminPermission := i_administrator interaction in
      if negb isGuildOwner && negb hasAdminPermission then ret NeedOwnerOrAdministrator
      else
        owned <- try_catch (c <- Collection.getByMainGuildId guildId ;; ret (Some c))
                           (fun error => match error with
                                         | RecordNotFoundError _ => ret None
                                         | _ => throw error
                                         end) ;;
        match owned with
        | None => ret NoCollectionOwned
        | Some collection =>
            if negb (isSnowflake targetGuildId) then ret InvalidServerId
            else if String.eqb targetGuildId guildId then ret CannotInviteSelf
            else
              dup <- Invite.hasPendingInvite (Collection._id collection) targetGuildId ;;
              if dup then ret DuplicatePending
              else
                targetGuild <- try_catch (g <- guilds_fetch_ targetGuildId ;; ret (Some g))
                                         (fun _ => ret None) ;;
                match targetGuild with
                | None => ret TargetNotFound
                | Some targetGuild =>
                    try_catch (Server.getByGuildId targetGuildId ;;; ret tt)
                              (fun error => match error with
                                            | RecordNotFoundError _ => ret tt
                                            | _ => throw error
                                            end) ;;;
                    defer platform ;;;
                    try_catch (
                      invite <- Invite.create
                                  (Invite.mkInput (Collection._id collection) targetGuildId
                                                  (i_userId interaction)) ;;
                      targetOwner <- try_catch (o <- fetchOwner targetGuild ;; ret (Some o))
                                               (fun _ => ret None) ;;
                      match targetOwner with
                      | Some o => try_catch (member_send o) (fun _ => ret tt)
                      | None => ret tt
                      end ;;;
                      respond platform (InviteSent invite) ;;;
                      logAction (AuditLog.mkInput (Collection._id collection) invite_create
                                   (i_userId interaction)
                                   (Some (JObj [ ("inviteId"%string, JStr (Invite._id invite));
                                                 ("targetGuildId"%string, JStr targetGuildId);
                                                 ("expiresAt"%string,
                                                  JNum (Invite._expiresAt invite)) ]))) ;;;
                      ret (InviteSent invite))
                      (fun _ => ret ErrorCreatingInvite)
                end
        end
  end.

End CollectionInviteCommand.

(** ** [/collection-join] *)
Module CollectionJoinCommand.

Inductive Reply :=
| InviteNoLongerValid
| AlreadyJoined
| CollectionGone
| MaximumReached (maxLinkedServers : Z)
| Joined (server : Server.t).

(** [acceptInvite] up to its answer.  The direct messages that announce the
    join to the inviter and to the owner of the group
    ([sendJoinNotifications]) follow the answer and write nothing. *)
Definition acceptInvite (interaction : Interaction) (guildId : string)
           (invite : Invite.t) (syncOnJoin : bool) : M Reply :=
  invite <- Invite.reload invite ;;
  isExpired <- Invite.isExpired invite ;;
  if negb (Invite.status_eqb (Invite._status invite) pending) || isExpired
  then ret InviteNoLongerValid
  else
    already <- try_catch (Server.getByGuildId guildId ;;; ret true)
                         (fun error => match error with
                                       | RecordNotFoundError _ => ret false
                                       | _ => throw error
                                       end) ;;
    if already then ret AlreadyJoined
    else
      found <- try_catch (c <- Collection.getById (Invite._collectionId invite) ;;
                          ret (Some c))
                         (fun _ => ret None) ;;
      match found with
      | None => ret CollectionGone
      | Some collection =>
          currentServers <- Server.listByCollection (Collection._id collection) ;;
          if Collection._maxLinkedServers collection <=? Z.of_nat (length currentServers)
          then ret (MaximumReached (Collection._maxLinkedServers collection))
          else
            server <- Server.add (Server.mkInput guildId (Collection._id collection)
                                                 (i_userId interaction) None
                                                 (Some syncOnJoin) None) ;;
            invite <- Invite.accept invite ;;
            logAction (AuditLog.mkInput (Collection._id collection) server_add
                         (i_userId interaction)
                         (Some (JObj [ ("guildId"%string, JStr guildId);
                                       ("serverId"%string, JStr (Server._id server));
                                       ("syncOnJoin"%string, JBool syncOnJoin);
                                       ("inviteId"%string, JStr (Invite._id invite)) ]))) ;;;
            logAction (AuditLog.mkInput (Collection._id collection) invite_accept
                         (i_userId interaction)
                         (Some (JObj [ ("inviteId"%string, JStr (Invite._id invite));
                                       ("guildId"%string, JStr guildId) ]))) ;;;
            ret (Joined server)
      end.

End CollectionJoinCommand.

(** ** [/edit-shareban] ([shareban.ts], second part) *)
Module EditShareBanCommand.

Record EditBanConfiguration := mkConfig {
  ban : Ban.t;
  reason : string;
  privatiseReason : bool;
  moderatorsInvolved : list string;
  evidence : list EvidenceEntry
}.

Inductive Reply :=
| UpdatingRecord
| BanUpdated (ban : Ban.t)
| UpdateFailed.

(** The button is answered with the loading notice first.  The four setters
    run before the [try]; the setter of [evidence] can throw.  Inside the
    [try] the row is saved and the audit entry written before the result is
    shown: fetching the user for the text of the embed has its own [catch]
    and changes nothing, building the embed and [editReply] are the answer,
    whose rejection reaches the [catch] with the row written. *)
Definition handleConfirmEdit (originalInteraction : Interaction)
           (platform : Responder Reply) (config : EditBanConfiguration) : M Reply :=
  respond platform UpdatingRecord ;;;
  let b := Ban.set_moderatorsInvolved
             (Ban.set_privatiseReason (Ban.set_reason (ban config) (Some (reason config)))
                                      (privatiseReason config))
             (moderatorsInvolved config) in
  b <- Ban.set_evidence b (evidence config) ;;
  try_catch (
    Ban.save b ;;;
    logAction (AuditLog.mkInput (Ban._collectionId b) ban_edit (i_userId originalInteraction)
                 (Some (JObj [ ("banId"%string, JStr (Ban._id b));
                               ("userId"%string, JStr (Ban._userId b));
                               ("updatedFields"%string,
                                ShareBanCommand.jstrings
                                  ["reason"; "privatiseReason"; "moderatorsInvolved";
                                   "evidence"]%string);
                               ("moderatorCount"%string,
                                JNum (Z.of_nat (length (moderatorsInvolved config))));
                               ("evidenceCount"%string,
                                JNum (Z.of_nat (length (evidence config)))) ]))) ;;;
    respond platform (BanUpdated b))
    (fun _ => ret UpdateFailed).

End EditShareBanCommand.

(** ** [/collection-create] ([collection-create.ts]) *)
Module CollectionCreateCommand.

Record CollectionDraft := mkDraft {
  name : option string;
  description : option string
}.

Inductive Reply :=
| OnlyInServer
| NeedOwnerOrAdministrator
| AlreadyOwns (collection : Collection.t)
| AlreadyMember (collectionId : string)
| DraftMenu (draft : CollectionDraft).

Definition chatInputRun (interaction : Interaction) : M Reply :=
  match i_guildId interaction with
  | None => ret OnlyInServer
  | Some guildId =>
      let isGuildOwner := String.eqb (i_guildOwnerId interaction) (i_userId interaction) in
      let hasAdminPermission := i_administrator interaction in
      if negb isGuildOwner && negb hasAdminPermission then ret NeedOwnerOrAdministrator
      else
        owned <- try_catch (c <- Collection.getByMainGuildId guildId ;; ret (Some c))
                           (fun error => match error with
                                         | RecordNotFoundError _ => ret None
                                         | _ => throw error
                                         end) ;;
        match owned with
        | Some existingCollection => ret (AlreadyOwns existingCollection)
        | None =>
            member <- try_catch (s <- Server.getByGuildId guildId ;; ret (Some s))
                                (fun error => match error with
                                              | RecordNotFoundError _ => ret None
                                              | _ => throw error
                                              end) ;;
            match member with
            | Some existingServer => ret (AlreadyMember (Server._collectionId existingServer))
            | None => ret (DraftMenu (mkDraft None None))
            end
        end
  end.

Inductive SaveReply :=
| MustSetName
| Created (collection : Collection.t)
| FailedToCreate.

(** The branch [collection-create:save] of [handleButton].  The button is
    acknowledged and the success answer awaited inside the [try], after the
    group and its audit entry were written. *)
Definition save (originalInteraction : Interaction) (platform : Responder SaveReply)
           (guildId : string) (draft : CollectionDraft) : M SaveReply :=
  match truthy (name draft) with
  | None => ret MustSetName
  | Some draftName =>
      try_catch (
        collection <- Collection.create
                        (Collection.mkInput guildId draftName (description draft)
                                            (i_userId originalInteraction)
                                            None None None None None) ;;
        logAction (AuditLog.mkInput (Collection._id collection) collection_create
                     (i_userId originalInteraction)
                     (Some (JObj [ ("name"%string, JStr (Collection._name collection));
                                   ("description"%string,
                                    match Collection._description collection with
                                    | Some d => JStr d
                                    | None => JNull
                                    end);
                                   ("mainGuildId"%string,
                                    JStr (Collection._mainGuildId collection)) ]))) ;;;
        defer platform ;;;
        respond platform (Created collection))
        (fun _ => ret FailedToCreate)
  end.

End CollectionCreateCommand.

(** ** [/collection-delete] *)
Module CollectionDeleteCommand.

Inductive Reply :=
| OnlyInServer
| NeedOwnerOrAdministrator
| NoCollectionOwned
| ConfirmPrompt (collection : Collection.t) (serverCount : nat).

Definition chatInputRun (interaction : Interaction) : M Reply :=
  match i_guildId interaction with
  | None => ret OnlyInServer
  | Some guildId =>
      let isGuildOwner := String.eqb (i_guildOwnerId interaction) (i_userId interaction) in
      let hasAdminPermission := i_administrator interaction in
      if negb isGuildOwner && negb hasAdminPermission then ret NeedOwnerOrAdministrator
      else
        owned <- try_catch (c <- Collection.getByMainGuildId guildId ;; ret (Some c))
                           (fun error => match error with
                                         | RecordNotFoundError _ => ret None
                                         | _ => throw error
                                         end) ;;
        match owned with
        | None => ret NoCollectionOwned
        | Some collection =>
            all <- Server.listByCollection (Collection._id collection) ;;
            let linkedServers := filter Server._enabled all in
            ret (ConfirmPrompt collection (length linkedServers))
        end
  end.

Inductive ConfirmReply :=
| Deleted (collectionName collectionId : string)
| FailedToDelete.

(** The branch [collection-delete:confirm] of the collector.  The
    confirmation is awaited inside the [try], after the group was removed. *)
Definition confirm (interaction : Interaction) (platform : Responder ConfirmReply)
           (collection : Collection.t) (serverCount : nat) : M ConfirmReply :=
  try_catch (
    let collectionName := Collection._name collection in
    let collectionId := Collection._id collection in
    logAction (AuditLog.mkInput (Collection._id collection) collection_delete
                 (i_userId interaction)
                 (Some (JObj [ ("name"%string, JStr collectionName);
                               ("mainGuildId"%string,
                                JStr (Collection._mainGuildId collection));
                               ("serverCount"%string, JNum (Z.of_nat serverCount)) ]))) ;;;
    Collection.remove collection ;;;
    respond platform (Deleted collectionName collectionId))
    (fun _ => ret FailedToDelete).

End CollectionDeleteCommand.

(** ** [/view-banshare] ([view-banshare.ts]): access to the evidence *)
Module ViewBanShareCommand.

(** The evidence directory as the handler sees it through [path] and [fs];
    files are named by their reference inside [EVIDENCE_DIR]. *)
Record EvidenceDir := mkEvidenceDir {
  basename : string -> string;            (* [path.basename] *)
  within : string -> bool;                (* does the joined path resolve inside the directory? *)
  existsSync : string -> bool;            (* [fs.existsSync] *)
  readFileSync : string -> option Buffer  (* [fs.readFileSync]; [None] when it throws *)
}.

Inductive LoadError :=
| InvalidFileReference (id : string)
| InvalidFilePath (id : string)
| FailedToReadFile (id : string)
| FileNotFound (id : string)
| StorageNotSupported (ref : string) (storage : EvidenceStorage).

(** The locals [attachments] and [errors] of the loop over the evidence. *)
Record Loaded := mkLoaded {
  attachments : list (string * Buffer);
  errors : list LoadError
}.

Inductive Reply :=
| NoEvidence
| EvidenceAccess (total : nat) (attachments : list (string * Buffer))
                 (errors : list LoadError).

(** [s.includes(needle)] *)
Fixpoint includes (needle s : string) : bool :=
  String.prefix needle s
  || match s with
     | EmptyString => false
     | String _ rest => includes needle rest
     end.

(** One round of [for (const evidence of ban.evidence)]. *)
Definition load (dir : EvidenceDir) (acc : Loaded) (evidence : EvidenceEntry) : Loaded :=
  let short := String.substring 0 8 (ee_id evidence) in
  match ee_storage evidence with
  | st_external =>
      let safeRef := basename dir (ee_ref evidence) in
      if negb (String.eqb safeRef (ee_ref evidence)) || includes ".." (ee_ref evidence)
      then mkLoaded (attachments acc) (errors acc ++ [InvalidFileReference short])
      else if negb (within dir safeRef)
      then mkLoaded (attachments acc) (errors acc ++ [InvalidFilePath short])
      else if existsSync dir safeRef
      then match readFileSync dir safeRef with
           | Some fileBuffer => mkLoaded (attachments acc ++ [(safeRef, fileBuffer)]) (errors acc)
           | None => mkLoaded (attachments acc) (errors acc ++ [FailedToReadFile short])
           end
      else mkLoaded (attachments acc) (errors acc ++ [FileNotFound short])
  | storage =>
      mkLoaded (attachments acc) (errors acc ++ [StorageNotSupported (ee_ref evidence) storage])
  end.

(** The audit entry is written first, by [AuditLog.create] itself and
    outside any [try]; then the button is acknowledged and the files are
    loaded and shown. *)
Definition handleEvidenceAccess (buttonInteraction originalInteraction : Interaction)
           (platform : Responder Reply) (dir : EvidenceDir)
           (collection : Collection.t) (ban : Ban.t) : M Reply :=
  match i_guildId originalInteraction with
  | None => throw (Error "Cannot read properties of null (reading 'id')")
  | Some guildId =>
      AuditLog.create
        (AuditLog.mkInput (Collection._id collection) evidence_access
           (i_userId buttonInteraction)
           (Some (JObj [ ("banId"%string, JStr (Ban._id ban));
                         ("targetUserId"%string, JStr (Ban._userId ban));
                         ("evidenceCount"%string,
                          JNum (Z.of_nat (length (Ban._evidence ban))));
                         ("guildId"%string, JStr guildId) ]))) ;;;
      defer platform ;;;
      if (length (Ban._evidence ban) =? 0)%nat then ret NoEvidence
      else
        let loaded := fold_left (load dir) (Ban._evidence ban) (mkLoaded [] []) in
        ret (EvidenceAccess (length (Ban._evidence ban)) (attachments loaded) (errors loaded))
  end.

End ViewBanShareCommand.

(* ================================================================== *)
(** * Vocabulary of the properties *)
(* ================================================================== *)

(** A frame is a relation between the world before and after a run that
    composes; [preserves R m] says every run of [m] stays within [R]. *)
Class Frame (R : World -> World -> Prop) := {
  frame_refl : forall w, R w w;
  frame_trans : forall w1 w2 w3, R w1 w2 -> R w2 w3 -> R w1 w3
}.

Definition preserves {A} (R : World -> World -> Prop) (m : M A) : Prop :=
  forall w r w', m w = (r, w') -> R w w'.

(** Nothing but the trace changes. *)
Definition only_trace (w w' : World) : Prop :=
  db w' = db w /\ clock w' = clock w /\ uuids w' = uuids w
  /\ drawn w' = drawn w /\ client w' = client w.

(** Only the audit log, the trace and the count of drawn identifiers change. *)
Definition audit_frame (w w' : World) : Prop :=
  collections (db w') = collections (db w)
  /\ servers (db w') = servers (db w)
  /\ bans (db w') = bans (db w)
  /\ moderators (db w') = moderators (db w)
  /\ invites (db w') = invites (db w)
  /\ clock w' = clock w /\ uuids w' = uuids w /\ client w' = client w.

(** The trace is extended, never rewritten. *)
Definition trace_extends (w w' : World) : Prop :=
  exists events, trace w' = trace w ++ events.

(** Every row of the ban [id] is inactive. *)
Definition inactive (id : string) (d : Db) : Prop :=
  forall row, In row (bans d) -> br_id row = id -> br_active row = 0.

(** What a revocation may do to the world: groups and members stay, no ban
    row appears or disappears, and a revoked ban stays revoked. *)
Definition revoke_frame (w w' : World) : Prop :=
  collections (db w') = collections (db w)
  /\ servers (db w') = servers (db w)
  /\ map br_id (bans (db w')) = map br_id (bans (db w))
  /\ (forall id, inactive id (db w) -> inactive id (db w'))
  /\ client w' = client w.


(** The notification channel of a member, when it has one that resolves to a
    text or announcement channel of a guild the bot can fetch. *)
Definition member_channel (c : Client) (server : Server.t) : option (Guild * Channel) :=
  match truthy (Server._loggingChannelId server) with
  | None => None
  | Some channelId =>
      match guilds_fetch c (Server._guildId server) with
      | None => None
      | Some g =>
          match find (fun ch => String.eqb (ch_id ch) channelId) (g_channels g) with
          | None => None
          | Some ch => if isTextLike (ch_type ch) then Some (g, ch) else None
          end
      end
  end.

(** The delivery made at a member, and whether it went through. *)
Definition member_send_events (c : Client) (server : Server.t) : list Event :=
  match member_channel c server with
  | Some (g, ch) => [EvChannelSend (g_id g) (ch_id ch) (ch_send_ok ch)]
  | None => []
  end.

Definition member_delivered (c : Client) (server : Server.t) : bool :=
  match member_channel c server with
  | Some (_, ch) => ch_send_ok ch
  | None => false
  end.

(* ================================================================== *)
(** * Scenarios: concrete worlds the properties are exercised on *)
(* ================================================================== *)

Module Scenario.

(** The identifiers [randomUUID] hands out, one after the other. *)
Definition uuid_of (n : nat) : string :=
  String.append "uuid-" (NilZero.string_of_uint (Nat.to_uint n)).

(** Guild ids (snowflakes) of the servers S1 .. S4 and some users. *)
Definition S1 : string := "100000000000000001".
Definition S2 : string := "100000000000000002".
Definition S3 : string := "100000000000000003".
Definition S4 : string := "100000000000000004".
Definition owner : string := "200000000000000001".
Definition U1 : string := "300000000000000001".

(** Group "Alpha", owned by S1, capacity 2, logging on. *)
Definition alpha : CollectionRow :=
  mkCollectionRow "c-alpha" S1 "Alpha" None 1000 owner 1 retain 0 0 2.

Definition member (id guildId : string) (addedAt : Z) (channel : option string)
           (enabled : bool) : ServerRow :=
  mkServerRow id guildId "c-alpha" addedAt owner channel 0 (toDbBool enabled).

Definition ban_row (id userId : string) (timestamp : Z) (active : bool) : BanRow :=
  mkBanRow id "c-alpha" userId owner S1 timestamp None (Some "spam"%string)
           (Some "spam"%string) 1 [] [] (toDbBool active) [] [] (mkBanMeta None (Some 1)).

Definition invite_row (id target : string) (invitedAt : Z) (status : InviteStatus)
  : InviteRow :=
  mkInviteRow id "c-alpha" target owner invitedAt (invitedAt + 48 * 60 * 60 * 1000)
              status None.

(** A guild whose channels accept messages and whose bans go through. *)
Definition text_channel (id : string) : Channel := mkChannel id "logs" GuildText true.

Definition guild (id : string) (channels : list Channel) : Guild :=
  mkGuild id (String.append "guild-" id) None channels [] []
          (fun _ => None) (fun _ => None).

Definition client_of (guilds : list Guild) : Client :=
  mkClient true
           (fun id => find (fun g => String.eqb (g_id g) id) guilds)
           (fun _ => false).

Definition world (d : Db) (now : Z) (c : Client) : World :=
  mkWorld d now uuid_of 0 c [].

Definition owner_interaction : Interaction :=
  mkInteraction (Some S1) owner owner [] true.

(** *** An audit entry for a group that does not exist *)
Definition w_empty : World :=
  world (mkDb [] [] [] [] [] []) 5000 (client_of []).

Definition orphan_entry : AuditLog.AuditLogCreateInput :=
  AuditLog.mkInput "c-missing" ban_create owner None.

(** *** A group that once issued an invite *)
Definition d_invited : Db :=
  mkDb [alpha]
       [member "s-2" S2 2000 None true]
       [ban_row "b-1" U1 3000 true]
       [mkModeratorRow "m-1" "c-alpha" mt_user owner owner 1500]
       [mkAuditLogRow "a-1" "c-alpha" collection_create owner 1000 (JObj [])]
       [invite_row "i-1" S2 1800 accepted].

Definition w_invited : World := world d_invited 5000 (client_of []).

(** *** Two enabled members with working notification channels *)
Definition d_two_channels : Db :=
  mkDb [alpha]
       [member "s-2" S2 2000 (Some "ch-2"%string) true;
        member "s-3" S3 2100 (Some "ch-3"%string) true]
       [] [] [] [].

Definition w_two_channels : World :=
  world d_two_channels 5000
        (client_of [guild S2 [text_channel "ch-2"]; guild S3 [text_channel "ch-3"]]).

Definition entry_alpha : AuditLog.t :=
  AuditLog.mk "a-9" "c-alpha" ban_create owner 4000 (JObj []).

(** *** One enabled member (S2) and one that left (S3, soft-disabled) *)
Definition d_one_left : Db :=
  mkDb [alpha]
       [member "s-2" S2 2000 None true;
        member "s-3" S3 2100 None false]
       [ban_row "b-1" U1 3000 true]
       [] []
       [invite_row "i-4" S4 4000 pending].

Definition w_one_left : World :=
  world d_one_left 5000 (client_of [guild S1 []; guild S2 []; guild S3 []]).

Definition ban_U1 : Ban.t := Ban.applyRow (ban_row "b-1" U1 3000 true).

Definition invite_S4 : Invite.t := Invite.applyRow (invite_row "i-4" S4 4000 pending).

(** *** A ban shared with S1 and S2, where the call to S2 times out *)
Definition d_fresh : Db := mkDb [alpha] [member "s-2" S2 2000 None true] [] [] [] [].



(** *** A group with 1001 active bans, the oldest of them on U1 *)
Definition many_bans : list BanRow :=
  ban_row "b-old" U1 1 true
  :: map (fun n => ban_row (uuid_of n) (String.append "user-" (uuid_of n))
                           (Z.of_nat n + 1) true)
         (seq 1 1000).

Definition d_crowded : Db := mkDb [alpha] [] many_bans [] [] [].

Definition w_crowded : World := world d_crowded 5000 (client_of []).

End Scenario.

(* ================================================================== *)
(** * Further vocabulary and scenarios *)
(* ================================================================== *)

(** One of the allowlisted signatures. *)
Definition allowed_signature (sig : list Z) : Prop :=
  exists entry, In entry ALLOWED_MAGIC_BYTES /\ In sig (snd entry).

(** Rows come newest first by [key]. *)
Definition newest_first {A} (key : A -> Z) (l : list A) : Prop :=
  StronglySorted (fun a b => key b <= key a) l.

(** The invite row is open for the server at the given instant: pending,
    with its expiry instant strictly ahead, as the queries of [Invite] have
    it ([expiresAt > now]). *)
Definition open_invite_for (targetGuildId : string) (now : Timestamp) (row : InviteRow) : Prop :=
  ir_targetGuildId row = targetGuildId /\ ir_status row = pending /\ now < ir_expiresAt row.

(** The database without the group [id]: its row and the rows of the four
    dependent tables that [Collection.remove] clears; invites stay. *)
Definition without_group (id : string) (d : Db) : Db :=
  mkDb (filter (fun r => negb (String.eqb (cr_id r) id)) (collections d))
       (filter (fun r => negb (String.eqb (sr_collectionId r) id)) (servers d))
       (filter (fun r => negb (String.eqb (br_collectionId r) id)) (bans d))
       (filter (fun r => negb (String.eqb (mr_collectionId r) id)) (moderators d))
       (filter (fun r => negb (String.eqb (ar_collectionId r) id)) (auditLogs d))
       (invites d).

Definition with_db (d : Db) (w : World) : World :=
  mkWorld d (clock w) (uuids w) (drawn w) (client w) (trace w).

(** The invariants of the [collections] table: ids and owning servers are
    unique and every capacity is positive. *)
Definition groups_wellformed (d : Db) : Prop :=
  NoDup (map cr_id (collections d))
  /\ NoDup (map cr_mainGuildId (collections d))
  /\ Forall (fun r => 0 < cr_maxLinkedServers r) (collections d).

(** The world after one identifier was drawn. *)
Definition after_draw (w : World) : World :=
  mkWorld (db w) (clock w) (uuids w) (S (drawn w)) (client w) (trace w).

(** The row [Collection.create] writes for an accepted input. *)
Definition created_row (input : Collection.CollectionCreateInput) (w : World) : CollectionRow :=
  mkCollectionRow (uuids w (drawn w)) (Collection.mainGuildId input) (Collection.name input)
                  (Collection.description input) (clock w) (Collection.createdBy input)
                  (toDbBool (Collection.orElse (Collection.loggingEnabledAtCollectionLevel input) true))
                  (Collection.orElse (Collection.onServerRemove input) retain)
                  (toDbBool (Collection.orElse (Collection.dmOnBan input) false))
                  (toDbBool (Collection.orElse (Collection.analyticsEnabled input) false))
                  (match Collection.orElse (Collection.maxLinkedServers input) (Num 30) with
                   | Num z => z
                   | NaN => 0
                   end).

Definition with_group (row : CollectionRow) (d : Db) : Db :=
  mkDb (collections d ++ [row]) (servers d) (bans d) (moderators d) (auditLogs d) (invites d).

(** Further concrete inputs. *)
Module Cases.

(** The input [/collection-create] hands to the model for a first group of
    server S1, every option left to its default. *)
Definition alpha_input : Collection.CollectionCreateInput :=
  Collection.mkInput Scenario.S1 "Alpha" None Scenario.owner None None None None None.

(** Group Alpha with one member (S2) and a pending invite for S4. *)
Definition d_inviting : Db :=
  mkDb [Scenario.alpha]
       [Scenario.member "s-2" Scenario.S2 2000 None true]
       [] [] []
       [Scenario.invite_row "i-4" Scenario.S4 4000 pending].

Definition w_inviting : World := Scenario.world d_inviting 5000 (Scenario.client_of []).

(** An administrator of S4 answering the invite. *)
Definition S4_admin : Interaction :=
  mkInteraction (Some Scenario.S4) "200000000000000004" "200000000000000009" [] true.


End Cases.

(** The row [AuditLog.create] writes, and the database holding it. *)
Definition logged_row (params : AuditLog.AuditLogCreateInput) (w : World) : AuditLogRow :=
  mkAuditLogRow (uuids w (drawn w)) (AuditLog.collectionId params) (AuditLog.action params)
                (AuditLog.performedBy params) (clock w)
                (match AuditLog.details params with Some j => j | None => JObj [] end).

Definition with_audit (row : AuditLogRow) (d : Db) : Db :=
  mkDb (collections d) (servers d) (bans d) (moderators d) (auditLogs d ++ [row]) (invites d).

(** The entry can be persisted: its id is unused and its group exists. *)
Definition loggable (params : AuditLog.AuditLogCreateInput) (w : World) : bool :=
  negb (existsb (fun r => String.eqb (ar_id r) (uuids w (drawn w))) (auditLogs (db w)))
  && has_collection (db w) (AuditLog.collectionId params).

(** The ban row with its [active] column cleared. *)
Definition deactivated (row : BanRow) : BanRow :=
  mkBanRow (br_id row) (br_collectionId row) (br_userId row) (br_moderatorId row)
           (br_moderatorGuildId row) (br_timestamp row) (br_expiresAt row)
           (br_reason row) (br_userFacingReason row) (br_privatiseReason row)
           (br_moderatorsInvolvedJson row) (br_evidenceJson row) 0
           (br_appliedServersRecentJson row) (br_appliedServersHistoryJson row)
           (br_metaJson row).

(** SQLite stores booleans as 0 or 1. *)
Definition db_bool (v : Z) : Prop := v = 0 \/ v = 1.

(** The row [Server.add] writes, and the database holding it. *)
Definition added_row (input : Server.ServerAddInput) (w : World) : ServerRow :=
  mkServerRow (uuids w (drawn w)) (Server.guildId input) (Server.collectionId input) (clock w)
              (Server.addedBy input) (Server.loggingChannelId input)
              (toDbBool (match Server.syncOnJoin input with Some b => b | None => true end))
              (toDbBool (match Server.enabled input with Some b => b | None => true end)).

Definition with_server (row : ServerRow) (d : Db) : Db :=
  mkDb (collections d) (servers d ++ [row]) (bans d) (moderators d) (auditLogs d) (invites d).

(** The invite table after the invite [id] was answered. *)
Definition answered (id : string) (status : InviteStatus) (respondedAt : option Timestamp)
           (d : Db) : Db :=
  mkDb (collections d) (servers d) (bans d) (moderators d) (auditLogs d)
       (map (fun row =>
               if String.eqb (ir_id row) id
               then mkInviteRow (ir_id row) (ir_collectionId row) (ir_targetGuildId row)
                                (ir_invitedBy row) (ir_invitedAt row) (ir_expiresAt row)
                                status respondedAt
               else row) (invites d)).

(** The server is an enabled member of at most one group. *)
Definition enabled_in (guildId : string) (row : ServerRow) : bool :=
  String.eqb (sr_guildId row) guildId && (sr_enabled row =? 1).

Definition single_membership (d : Db) : Prop :=
  forall guildId, (length (filter (enabled_in guildId) (servers d)) <= 1)%nat.

(** No group holds more server rows than its capacity. *)
Definition within_capacity (d : Db) : Prop :=
  forall c, In c (collections d) ->
            Z.of_nat (length (filter (fun r => String.eqb (sr_collectionId r) (cr_id c))
                                     (servers d)))
            <= cr_maxLinkedServers c.

(** The invariants of the [servers] table: the primary key, the unique
    index on [(collectionId, guildId)], the foreign key, and the rule of the
    join flow that a server is an enabled member of one group at most. *)
Definition members_wellformed (d : Db) : Prop :=
  NoDup (map sr_id (servers d))
  /\ NoDup (map (fun r => (sr_collectionId r, sr_guildId r)) (servers d))
  /\ (forall r, In r (servers d) -> has_collection d (sr_collectionId r) = true)
  /\ single_membership d.

(** The row [Invite.create] writes, and the database holding it. *)
Definition invited_row (input : Invite.InviteCreateInput) (w : World) : InviteRow :=
  mkInviteRow (uuids w (drawn w)) (Invite.collectionId input) (Invite.targetGuildId input)
              (Invite.invitedBy input) (clock w) (clock w + 48 * 60 * 60 * 1000) pending None.

Definition with_invite (row : InviteRow) (d : Db) : Db :=
  mkDb (collections d) (servers d) (bans d) (moderators d) (auditLogs d) (invites d ++ [row]).

(** The same world at another time of the clock. *)
Definition at_time (t : Timestamp) (w : World) : World :=
  mkWorld (db w) t (uuids w) (drawn w) (client w) (trace w).

(** The group a server owns, as [Collection.getByMainGuildId] finds it. *)
Definition owned_group (guildId : string) (d : Db) : option Collection.t :=
  match find (fun row => String.eqb (cr_mainGuildId row) guildId) (collections d) with
  | Some row =>
      option_map Collection.applyRow
                 (find (fun r => String.eqb (cr_id r) (cr_id row)) (collections d))
  | None => None
  end.


(** The moderator grant names the caller, directly or through a role. *)
Definition grant_covers (interaction : Interaction) (m : ModeratorRow) : Prop :=
  match mr_type m with
  | mt_user => mr_value m = i_userId interaction
  | mt_role => In (mr_value m) (i_memberRoles interaction)
  end.

(** The caller may share bans in the group: as the owner of the server
    that owns it, or as one of its moderators. *)
Definition may_share (interaction : Interaction) (guildId : string) (d : Db)
           (c : CollectionRow) : Prop :=
  (cr_mainGuildId c = guildId /\ i_guildOwnerId interaction = i_userId interaction)
  \/ exists m, In m (moderators d) /\ mr_collectionId m = cr_id c /\ grant_covers interaction m.

(** What an answer of [/shareban] tells about the world it was given in. *)
Definition shareban_reply_ok (interaction : Interaction) (targetUserId : string) (w : World)
           (reply : ShareBanCommand.Reply) : Prop :=
  match reply with
  | ShareBanCommand.ConfigurationMenu allServers config =>
      exists guildId c,
        i_guildId interaction = Some guildId
        /\ In c (collections (db w))
        /\ may_share interaction guildId (db w) c
        /\ ShareBanCommand.collectionId config = cr_id c
        /\ ShareBanCommand.targetUser config = targetUserId
        /\ NoDup (ShareBanCommand.selectedServerGuildIds config)
        /\ In (cr_mainGuildId c) (ShareBanCommand.selectedServerGuildIds config)
        /\ forall g, In g (ShareBanCommand.selectedServerGuildIds config) ->
                     g = cr_mainGuildId c
                     \/ exists s, In s (servers (db w)) /\ sr_guildId s = g
                                  /\ sr_collectionId s = cr_id c /\ sr_enabled s = 1
  | ShareBanCommand.AlreadyBanned banId =>
      exists row, In row (bans (db w)) /\ br_id row = banId
                  /\ br_userId row = targetUserId /\ br_active row = 1
  | _ => True
  end.

(** The enabled membership of a server, as [Server.getByGuildId] finds it. *)
Definition enabled_member (guildId : string) (d : Db) : option Server.t :=
  match find (enabled_in guildId) (servers d) with
  | Some row =>
      option_map Server.applyRow (find (fun r => String.eqb (sr_id r) (sr_id row)) (servers d))
  | None => None
  end.

(** The group [collectionId] is the one the server owns or is an enabled
    member of. *)
Definition group_reachable_from (guildId : string) (d : Db) (collectionId : string) : Prop :=
  (exists c, In c (collections d) /\ cr_mainGuildId c = guildId /\ cr_id c = collectionId)
  \/ (exists s, In s (servers d) /\ sr_guildId s = guildId /\ sr_enabled s = 1
                /\ sr_collectionId s = collectionId).

(** [/unshareban] lists the bans of a group for callers in the server that
    owns it and for holders of a personal moderator grant. *)
Definition may_lift (guildId executorUserId : string) (d : Db) (collectionId : string) : Prop :=
  (exists c, In c (collections d) /\ cr_id c = collectionId /\ cr_mainGuildId c = guildId)
  \/ (exists m, In m (moderators d) /\ mr_collectionId m = collectionId
                /\ mr_type m = mt_user /\ mr_value m = executorUserId).

(** What lifting the bans [ids] may do to the database: groups, members,
    moderators and invites stay; the ban table keeps its rows, in order;
    and a ban whose id is not in [ids] keeps every column. *)
Definition only_listed_bans (ids : list string) (w w' : World) : Prop :=
  collections (db w') = collections (db w)
  /\ servers (db w') = servers (db w)
  /\ moderators (db w') = moderators (db w)
  /\ invites (db w') = invites (db w)
  /\ Forall2 (fun row row' => br_id row' = br_id row
                              /\ (~ In (br_id row) ids -> row' = row))
             (bans (db w)) (bans (db w')).


(** The event is a message (to a channel or to a user), not a ban or an
    unban. *)
Definition is_message (e : Event) : bool :=
  match e with
  | EvChannelSend _ _ _ | EvDm _ _ => true
  | EvBan _ _ _ | EvUnban _ _ _ => false
  end.

(** Nothing but the trace changes, and only messages are added to it. *)
Definition only_messages (w w' : World) : Prop :=
  only_trace w w'
  /\ exists events, trace w' = trace w ++ events /\ forallb is_message events = true.

(** The group row with another capacity. *)
Definition with_capacity (z : Z) (row : CollectionRow) : CollectionRow :=
  mkCollectionRow (cr_id row) (cr_mainGuildId row) (cr_name row) (cr_description row)
                  (cr_createdAt row) (cr_createdBy row)
                  (cr_loggingEnabledAtCollectionLevel row) (cr_onServerRemove row)
                  (cr_dmOnBan row) (cr_analyticsEnabled row) z.

(** The boolean columns of the group rows hold 0 or 1. *)
Definition group_flags_wellformed (d : Db) : Prop :=
  forall row, In row (collections d) ->
              db_bool (cr_loggingEnabledAtCollectionLevel row)
              /\ db_bool (cr_dmOnBan row) /\ db_bool (cr_analyticsEnabled row).


(** The platform answers the fetch of a guild with the guild of that id. *)
Definition fetch_by_id (c : Client) : Prop :=
  forall id g, guilds_fetch c id = Some g -> g_id g = id.

(** Can the bot fetch the guild? *)
Definition reachable (c : Client) (guildId : string) : bool :=
  match guilds_fetch c guildId with
  | Some _ => true
  | None => false
  end.

(** The calls of [members.unban] in a record of platform calls: guild and
    user, in order, whether the call went through or not. *)
Definition unban_calls (events : list Event) : list (string * string) :=
  flat_map (fun e => match e with
                     | EvUnban guildId userId _ => [(guildId, userId)]
                     | _ => []
                     end) events.

(** Is the unban of [userId] in [guildId] a failure?  Either the guild
    cannot be fetched or [members.unban] rejects. *)
Definition unban_rejected (c : Client) (userId guildId : string) : bool :=
  match guilds_fetch c guildId with
  | None => true
  | Some g => match g_unban g userId with Some _ => true | None => false end
  end.

(** The unban the platform records when [userId] is unbanned in [guildId]:
    none when the guild cannot be fetched. *)
Definition unban_events (c : Client) (userId guildId : string) : list Event :=
  match guilds_fetch c guildId with
  | Some g =>
      [EvUnban (g_id g) userId (match g_unban g userId with None => true | Some _ => false end)]
  | None => []
  end.

(** A platform that accepts every answer and acknowledgement. *)
Definition accepting {R} : Responder R := mkResponder (fun _ => true) true.

(** A platform that rejects the answers [refused] picks out. *)
Definition refusing {R} (refused : R -> bool) : Responder R :=
  mkResponder (fun r => negb (refused r)) true.

(** Further concrete inputs: boundaries and failures. *)
Module Edge.

(** The members of Alpha as in [Scenario.d_one_left], but the bot has been
    removed from S2: only S1 and S3 can be fetched. *)
Definition w_S2_lost : World :=
  Scenario.world Scenario.d_one_left 5000
                 (Scenario.client_of [Scenario.guild Scenario.S1 [];
                                      Scenario.guild Scenario.S3 []]).

(** The instant at which the invite of S4, issued at 4000, expires. *)
Definition expiry_instant : Timestamp := 4000 + 48 * 60 * 60 * 1000.

(** Alpha with its pending invite for S4, at that very instant; the bot
    sits in S4. *)
Definition w_at_expiry : World :=
  Scenario.world Cases.d_inviting expiry_instant
                 (Scenario.client_of [Scenario.guild Scenario.S4 []]).

(** A ban of Alpha with one piece of evidence, in a world where Alpha has
    no member and no invite. *)
Definition screenshot : EvidenceEntry :=
  mkEvidenceEntry "e-0000001" ev_image st_external "shot.png" None 2048.

Definition documented_row : BanRow :=
  mkBanRow "b-1" "c-alpha" Scenario.U1 Scenario.owner Scenario.S1 3000 None
           (Some "spam"%string) (Some "spam"%string) 1 [] [screenshot] 1 [] []
           (mkBanMeta None (Some 1)).

Definition d_documented : Db := mkDb [Scenario.alpha] [] [documented_row] [] [] [].

Definition w_documented : World := Scenario.world d_documented 5000 (Scenario.client_of []).

(** The evidence directory holding the screenshot. *)
Definition evidence_dir : ViewBanShareCommand.EvidenceDir :=
  ViewBanShareCommand.mkEvidenceDir
    (fun ref => ref) (fun _ => true)
    (String.eqb "shot.png") (fun _ => Some [0x89; 0x50; 0x4e; 0x47]).

(** The same world after the owner deleted Alpha. *)
Definition w_deleted : World :=
  Scenario.world (mkDb [] [] [] [] [] []) 5000 (Scenario.client_of []).

End Edge.

(** The run made no call of [members.unban] and left the client alone. *)
Definition no_unban (w w' : World) : Prop :=
  client w' = client w /\ unban_calls (trace w') = unban_calls (trace w).

(* ================================================================== *)
(** * Properties *)
(* ================================================================== *)

(** ** The evidence validator *)

Section EvidenceFacts.

Lemma every_at_prefix (pre sig rest : list Z) :
  every_at (pre ++ sig ++ rest) (length pre) sig = true.
Proof.
  revert pre; induction sig as [|byte sig IH]; intros pre; simpl; [reflexivity|].
  rewrite nth_error_app2 by lia.
  rewrite Nat.sub_diag; simpl.
  rewrite Z.eqb_refl; simpl.
  replace (pre ++ byte :: sig ++ rest) with ((pre ++ [byte]) ++ sig ++ rest)
    by (rewrite <- app_assoc; reflexivity).
  replace (S (length pre)) with (length (pre ++ [byte]))
    by (rewrite length_app; simpl; lia).
  apply IH.
Qed.

Lemma checkMagicBytes_prefix (sig : list Z) (buffer : Buffer) :
  has_prefix sig buffer -> checkMagicBytes buffer [sig] = true.
Proof.
  intros [rest ->]; unfold checkMagicBytes; simpl.
  rewrite length_app.
  destruct (Nat.ltb_spec (length sig + length rest) (length sig)) as [Hlt|_]; [lia|].
  pose proof (every_at_prefix [] sig rest) as Hall; simpl in Hall.
  rewrite Hall; reflexivity.
Qed.

Lemma isBlockedFile_prefix (sig : list Z) (buffer : Buffer) :
  In sig BLOCKED_MAGIC_BYTES -> has_prefix sig buffer -> isBlockedFile buffer = true.
Proof.
  intros Hin Hpre; unfold isBlockedFile.
  apply existsb_exists; exists sig; split; [exact Hin|].
  now apply checkMagicBytes_prefix.
Qed.

End EvidenceFacts.

(** C5. A buffer that starts with one of the blocked signatures (PE, ELF,
    Mach-O 32/64, ZIP) is rejected by [isAllowedFile]; the allowlist and
    the plain-text fallback are never consulted for it, so the rejection
    holds whatever they would have answered. *)
Theorem blocked_prefix_is_rejected (sig : list Z) (buffer : Buffer) :
  In sig BLOCKED_MAGIC_BYTES ->
  has_prefix sig buffer ->
  isAllowedFile buffer = false.
Proof.
  intros Hin Hpre; unfold isAllowedFile.
  now rewrite (isBlockedFile_prefix Hin Hpre).
Qed.

(** The buffer "MZ hello": a PE header, and plain text by the fallback test. *)
Lemma blocked_prefix_is_rejected_witness :
  forallb isPrintable (firstn 100 [0x4d; 0x5a; 0x20; 0x68; 0x65; 0x6c; 0x6c; 0x6f]) = true
  /\ isAllowedFile [0x4d; 0x5a; 0x20; 0x68; 0x65; 0x6c; 0x6c; 0x6f] = false.
Proof.
  split; [reflexivity|].
  apply (@blocked_prefix_is_rejected [0x4d; 0x5a]).
  - simpl; auto.
  - exists [0x20; 0x68; 0x65; 0x6c; 0x6c; 0x6f]; reflexivity.
Defined.

(* ------------------------------------------------------------------ *)
(** ** Lists and SQL helpers *)

Section ListFacts.

Context {A : Type}.

Lemma find_append (f : A -> bool) (l l' : list A) :
  find f (l ++ l') = match find f l with Some x => Some x | None => find f l' end.
Proof.
  induction l as [|x l IH]; simpl; [reflexivity|].
  destruct (f x); [reflexivity|exact IH].
Qed.

Lemma find_none_existsb (f : A -> bool) (l : list A) :
  existsb f l = false -> find f l = None.
Proof.
  induction l as [|x l IH]; simpl; [reflexivity|].
  destruct (f x); simpl; [discriminate|exact IH].
Qed.

Lemma filter_nonempty (f : A -> bool) (l : list A) (x : A) :
  In x l -> f x = true -> (0 < length (filter f l))%nat.
Proof.
  intros Hin Hf.
  assert (Hx : In x (filter f l)) by (apply filter_In; auto).
  destruct (filter f l); [contradiction|simpl; lia].
Qed.

Lemma insert_desc_perm (key : A -> Z) (x : A) (l : list A) :
  Permutation (insert_desc key x l) (x :: l).
Proof.
  induction l as [|y l IH]; simpl; [reflexivity|].
  destruct (key y <=? key x); [reflexivity|].
  rewrite IH; apply perm_swap.
Qed.

Lemma order_by_desc_perm (key : A -> Z) (l : list A) :
  Permutation (order_by_desc key l) l.
Proof.
  induction l as [|x l IH]; simpl; [reflexivity|].
  rewrite insert_desc_perm; now constructor.
Qed.

Lemma order_by_desc_length (key : A -> Z) (l : list A) :
  length (order_by_desc key l) = length l.
Proof. apply Permutation_length, order_by_desc_perm. Qed.

Lemma order_by_desc_In (key : A -> Z) (l : list A) (x : A) :
  In x (order_by_desc key l) <-> In x l.
Proof.
  split; apply Permutation_in;
    [apply order_by_desc_perm | apply Permutation_sym, order_by_desc_perm].
Qed.

End ListFacts.

(* ------------------------------------------------------------------ *)
(** ** Reasoning about runs *)

Section Runs.

Context {A B : Type}.

Lemma bind_inv (m : M A) (k : A -> M B) (w : World) r w' :
  bind m k w = (r, w') ->
  (exists a w1, m w = (Normal a, w1) /\ k a w1 = (r, w'))
  \/ (exists e, m w = (Thrown e, w') /\ r = Thrown e).
Proof.
  unfold bind; destruct (m w) as [[a|e] w1]; intros H.
  - left; eauto.
  - right; inversion H; subst; eauto.
Qed.

Lemma bind_normal (m : M A) (k : A -> M B) (w : World) a w1 :
  m w = (Normal a, w1) -> bind m k w = k a w1.
Proof. unfold bind; intros ->; reflexivity. Qed.

Lemma bind_thrown (m : M A) (k : A -> M B) (w : World) e w1 :
  m w = (Thrown e, w1) -> bind m k w = (Thrown e, w1).
Proof. unfold bind; intros ->; reflexivity. Qed.

End Runs.

Lemma try_catch_inv {A} (m : M A) (h : Exn -> M A) (w : World) r w' :
  try_catch m h w = (r, w') ->
  (exists a, m w = (Normal a, w') /\ r = Normal a)
  \/ (exists e w1, m w = (Thrown e, w1) /\ h e w1 = (r, w')).
Proof.
  unfold try_catch; destruct (m w) as [[a|e] w1]; intros H.
  - left; inversion H; subst; eauto.
  - right; eauto.
Qed.

Section Preservation.

Variable R : World -> World -> Prop.
Context `{Frame R}.

Lemma preserves_ret {A} (a : A) : preserves R (ret a).
Proof. intros w r w' E; inversion E; apply frame_refl. Qed.

Lemma preserves_throw {A} (e : Exn) : preserves R (@throw A e).
Proof. intros w r w' E; inversion E; apply frame_refl. Qed.

Lemma preserves_getDb : preserves R getDb.
Proof. intros w r w' E; inversion E; apply frame_refl. Qed.

Lemma preserves_getClient : preserves R getClient.
Proof. intros w r w' E; inversion E; apply frame_refl. Qed.

Lemma preserves_nowIso : preserves R nowIso.
Proof. intros w r w' E; inversion E; apply frame_refl. Qed.

Lemma preserves_bind {A B} (m : M A) (k : A -> M B) :
  preserves R m -> (forall a, preserves R (k a)) -> preserves R (bind m k).
Proof.
  intros Hm Hk w r w' E.
  apply bind_inv in E as [(a & w1 & E1 & E2)|(e & E1 & _)].
  - eapply frame_trans; [eapply Hm | eapply Hk]; eauto.
  - eapply Hm; eauto.
Qed.

Lemma preserves_try_catch {A} (m : M A) (h : Exn -> M A) :
  preserves R m -> (forall e, preserves R (h e)) -> preserves R (try_catch m h).
Proof.
  intros Hm Hh w r w' E.
  apply try_catch_inv in E as [(a & E1 & _)|(e & w1 & E1 & E2)].
  - eapply Hm; eauto.
  - eapply frame_trans; [eapply Hm | eapply Hh]; eauto.
Qed.

Lemma preserves_fold_each {A S} (body : S -> A -> M S) (xs : list A) :
  (forall s x, preserves R (body s x)) -> forall s, preserves R (fold_each xs body s).
Proof.
  intros Hb; induction xs as [|x xs IH]; intros s; simpl.
  - apply preserves_ret.
  - apply preserves_bind; [apply Hb | intros s'; apply IH].
Qed.

End Preservation.

(** Splits a goal [preserves R m] along the syntax of [m]. *)
Ltac frame_step :=
  match goal with
  | |- Frame _ => typeclasses eauto
  | |- forall _, _ => intros ?
  | |- preserves _ (bind _ _) => apply preserves_bind
  | |- preserves _ (ret _) => apply preserves_ret
  | |- preserves _ (throw _) => apply preserves_throw
  | |- preserves _ getDb => apply preserves_getDb
  | |- preserves _ getClient => apply preserves_getClient
  | |- preserves _ nowIso => apply preserves_nowIso
  | |- preserves _ (try_catch _ _) => apply preserves_try_catch
  | |- preserves _ (fold_each _ _ _) => apply preserves_fold_each
  | |- preserves _ (if ?b then _ else _) => destruct b
  | |- preserves _ (match ?x with _ => _ end) => destruct x
  end.

Create HintDb frames.

Ltac frames := repeat (first [ solve [eauto with frames] | frame_step ]).

#[export] Instance only_trace_frame : Frame only_trace.
Proof.
  split; unfold only_trace.
  - intros; repeat split.
  - intros w1 w2 w3 (?&?&?&?&?) (?&?&?&?&?); repeat split; congruence.
Qed.

#[export] Instance audit_frame_frame : Frame audit_frame.
Proof.
  split; unfold audit_frame.
  - intros; repeat split.
  - intros w1 w2 w3 (?&?&?&?&?&?&?&?) (?&?&?&?&?&?&?&?); repeat split; congruence.
Qed.

#[export] Hint Resolve only_trace_frame audit_frame_frame : frames.

Lemma only_trace_audit (w w' : World) : only_trace w w' -> audit_frame w w'.
Proof.
  unfold only_trace, audit_frame; intros (Hd&?&?&?&?); rewrite Hd; repeat split; assumption.
Qed.

Lemma preserves_weaken {A} (R R' : World -> World -> Prop) (m : M A) :
  (forall w w', R w w' -> R' w w') -> preserves R m -> preserves R' m.
Proof. intros HR Hm w r w' E; apply HR; eapply Hm; eauto. Qed.

Lemma emit_only_trace e : preserves only_trace (emit e).
Proof. intros w r w' E; inversion E; subst; repeat split. Qed.

#[export] Instance trace_extends_frame : Frame trace_extends.
Proof.
  split; unfold trace_extends.
  - intros w; exists []; now rewrite app_nil_r.
  - intros w1 w2 w3 [e1 H1] [e2 H2]; exists (e1 ++ e2); now rewrite H2, H1, app_assoc.
Qed.

Lemma emit_trace_extends e : preserves trace_extends (emit e).
Proof. intros w r w' E; inversion E; subst; simpl; now exists [e]. Qed.

#[export] Hint Resolve trace_extends_frame emit_only_trace emit_trace_extends : frames.

(** The platform primitives stay within any frame that [emit] stays within. *)
Section PlatformFrames.

Variable R : World -> World -> Prop.
Context `{Frame R}.
Hypothesis emit_frame : forall e, preserves R (emit e).
Hint Resolve emit_frame : frames.

Lemma guilds_fetch_frame g : preserves R (guilds_fetch_ g).
Proof. unfold guilds_fetch_; frames. Qed.

Lemma channels_fetch_frame g c : preserves R (channels_fetch g c).
Proof. unfold channels_fetch; frames. Qed.

Lemma channel_send_frame g c : preserves R (channel_send g c).
Proof. unfold channel_send; frames. Qed.

Lemma member_send_frame m : preserves R (member_send m).
Proof. unfold member_send; frames. Qed.

Lemma user_send_frame u : preserves R (user_send u).
Proof. unfold user_send; frames. Qed.

Lemma fetchOwner_frame g : preserves R (fetchOwner g).
Proof. unfold fetchOwner; frames. Qed.

Lemma members_ban_frame g u : preserves R (members_ban g u).
Proof. unfold members_ban; frames. Qed.

Lemma members_unban_frame g u : preserves R (members_unban g u).
Proof. unfold members_unban; frames. Qed.

End PlatformFrames.

#[export] Hint Resolve guilds_fetch_frame channels_fetch_frame channel_send_frame
  member_send_frame user_send_frame fetchOwner_frame members_ban_frame
  members_unban_frame : frames.

(* ------------------------------------------------------------------ *)
(** ** Frames of the models and of the audit trail *)

Section ModelFrames.

Variable R : World -> World -> Prop.
Context `{Frame R}.

Lemma Collection_getById_frame id : preserves R (Collection.getById id).
Proof. unfold Collection.getById; frames. Qed.

Lemma Collection_getByMainGuildId_frame g : preserves R (Collection.getByMainGuildId g).
Proof. unfold Collection.getByMainGuildId; frames; apply Collection_getById_frame. Qed.

Lemma Server_getById_frame id : preserves R (Server.getById id).
Proof. unfold Server.getById; frames. Qed.

Lemma Server_getByGuildId_frame g : preserves R (Server.getByGuildId g).
Proof. unfold Server.getByGuildId; frames; apply Server_getById_frame. Qed.

Lemma Server_listByCollection_frame c : preserves R (Server.listByCollection c).
Proof. unfold Server.listByCollection; frames. Qed.

Lemma Moderator_listByCollection_frame c : preserves R (Moderator.listByCollection c).
Proof. unfold Moderator.listByCollection; frames. Qed.

Lemma Ban_getById_frame id : preserves R (Ban.getById id).
Proof. unfold Ban.getById; frames. Qed.

Lemma Ban_listByCollection_frame c a : preserves R (Ban.listByCollection c a).
Proof. unfold Ban.listByCollection; frames. Qed.

Lemma AuditLog_getById_frame id : preserves R (AuditLog.getById id).
Proof. unfold AuditLog.getById; frames. Qed.

Lemma Invite_getById_frame id : preserves R (Invite.getById id).
Proof. unfold Invite.getById; frames. Qed.

Lemma Invite_reload_frame i : preserves R (Invite.reload i).
Proof. unfold Invite.reload; frames. Qed.

Lemma Invite_isExpired_frame i : preserves R (Invite.isExpired i).
Proof. unfold Invite.isExpired; frames. Qed.

Lemma Invite_hasPendingInvite_frame c g : preserves R (Invite.hasPendingInvite c g).
Proof. unfold Invite.hasPendingInvite; frames. Qed.

End ModelFrames.

#[export] Hint Resolve Collection_getById_frame Collection_getByMainGuildId_frame
  Server_getById_frame Server_getByGuildId_frame Server_listByCollection_frame
  Moderator_listByCollection_frame Ban_getById_frame Ban_listByCollection_frame
  AuditLog_getById_frame Invite_getById_frame Invite_reload_frame
  Invite_isExpired_frame Invite_hasPendingInvite_frame : frames.

Section NotificationFrames.

Variable R : World -> World -> Prop.
Context `{Frame R}.
Hypothesis emit_frame : forall e, preserves R (emit e).
Hint Resolve emit_frame : frames.

Lemma dm_members_frame ms : forall n, preserves R (dm_members ms n).
Proof. induction ms as [|m ms IH]; intros n; simpl; frames. Qed.
Hint Resolve dm_members_frame : frames.

Lemma dm_roles_frame ms rs : forall n, preserves R (dm_roles ms rs n).
Proof. induction rs as [|r rs IH]; intros n; simpl; frames. Qed.
Hint Resolve dm_roles_frame : frames.

Lemma dmCollectionAdmins_frame g : preserves R (dmCollectionAdmins g).
Proof. unfold dmCollectionAdmins; frames. Qed.
Hint Resolve dmCollectionAdmins_frame : frames.

Lemma sendToMainCollectionLog_frame c : preserves R (sendToMainCollectionLog c).
Proof. unfold sendToMainCollectionLog; frames. Qed.
Hint Resolve sendToMainCollectionLog_frame : frames.

Lemma notify_server_frame b s : preserves R (notify_server b s).
Proof. unfold notify_server; frames. Qed.
Hint Resolve notify_server_frame : frames.

Lemma sendAuditLogNotifications_frame a : preserves R (sendAuditLogNotifications a).
Proof. unfold sendAuditLogNotifications; frames. Qed.

End NotificationFrames.

#[export] Hint Resolve dm_members_frame dm_roles_frame dmCollectionAdmins_frame
  sendToMainCollectionLog_frame notify_server_frame sendAuditLogNotifications_frame : frames.

Section AuditFrames.

Lemma newId_audit_frame : preserves audit_frame newId.
Proof. intros w r w' E; inversion E; subst; repeat split. Qed.
Hint Resolve newId_audit_frame : frames.

Lemma AuditLog_insert_row_audit_frame row : preserves audit_frame (AuditLog.insert_row row).
Proof.
  intros w r w'.
  unfold AuditLog.insert_row, bind, getDb, putDb, throw.
  destruct (existsb _ (auditLogs (db w))); [intros E; inversion E; subst; repeat split|].
  destruct (negb _); intros E; inversion E; subst; repeat split.
Qed.
Hint Resolve AuditLog_insert_row_audit_frame : frames.

Lemma AuditLog_create_audit_frame p : preserves audit_frame (AuditLog.create p).
Proof. unfold AuditLog.create; frames. Qed.
Hint Resolve AuditLog_create_audit_frame : frames.

Lemma detached_notifications_audit_frame a :
  preserves audit_frame (detached (sendAuditLogNotifications a)).
Proof.
  apply preserves_weaken with (R := only_trace); [apply only_trace_audit|].
  unfold detached; frames.
Qed.
Hint Resolve detached_notifications_audit_frame : frames.

Lemma logAction_audit_frame p : preserves audit_frame (logAction p).
Proof. unfold logAction; frames. Qed.

End AuditFrames.

#[export] Hint Resolve newId_audit_frame AuditLog_create_audit_frame
  detached_notifications_audit_frame logAction_audit_frame : frames.

(* ------------------------------------------------------------------ *)
(** ** The audit trail never throws *)

Lemma detached_returns (task : M unit) (w : World) :
  exists w', detached task w = (Normal tt, w').
Proof.
  unfold detached, try_catch, ret.
  destruct (task w) as [[[]|e] w1]; eauto.
Qed.

Lemma logAction_returns (params : AuditLog.AuditLogCreateInput) (w : World) :
  exists r w', logAction params w = (Normal r, w').
Proof.
  unfold logAction, try_catch.
  destruct (bind (AuditLog.create params) _ w) as [[r|e] w1] eqn:E; unfold ret; eauto.
Qed.

(** When the insert of the audit row throws, nothing was written. *)
Lemma AuditLog_create_thrown (params : AuditLog.AuditLogCreateInput) (w : World) e w' :
  AuditLog.create params w = (Thrown e, w') ->
  db w' = db w /\ trace w' = trace w.
Proof.
  unfold AuditLog.create, AuditLog.insert_row, AuditLog.getById,
    bind, newId, nowIso, getDb, putDb, throw, ret; simpl.
  destruct (existsb _ (auditLogs (db w))); [intros E; inversion E; subst; simpl; auto|].
  destruct (negb _); [intros E; inversion E; subst; simpl; auto|].
  simpl. rewrite find_append.
  destruct (find _ (auditLogs (db w))); [intros E; discriminate|].
  simpl. rewrite String.eqb_refl. intros E; discriminate.
Qed.

(** What [logAction] does with a failure while persisting an audit entry:
    it returns the absent entry ([null]) instead of throwing and leaves the
    database and the platform untouched; and whatever happens, [logAction]
    returns normally, so the operation that called it runs on. *)
Theorem logAction_swallows_persistence_failure
        (params : AuditLog.AuditLogCreateInput) (w : World) :
  (forall e w', AuditLog.create params w = (Thrown e, w') ->
                logAction params w = (Normal None, w')
                /\ db w' = db w /\ trace w' = trace w)
  /\ (exists r w', logAction params w = (Normal r, w')).
Proof.
  split; [|apply logAction_returns].
  intros e w' E; split; [|eapply AuditLog_create_thrown; eauto].
  unfold logAction, try_catch.
  erewrite bind_thrown by exact E; reflexivity.
Qed.

Lemma logAction_swallows_persistence_failure_witness :
  logAction Scenario.orphan_entry Scenario.w_empty
  = (Normal None,
     mkWorld (db Scenario.w_empty) 5000 Scenario.uuid_of 1 (client Scenario.w_empty) [])
  /\ db (mkWorld (db Scenario.w_empty) 5000 Scenario.uuid_of 1 (client Scenario.w_empty) [])
     = db Scenario.w_empty
  /\ trace (mkWorld (db Scenario.w_empty) 5000 Scenario.uuid_of 1 (client Scenario.w_empty) [])
     = trace Scenario.w_empty.
Proof.
  apply (proj1 (logAction_swallows_persistence_failure Scenario.orphan_entry Scenario.w_empty)
               (SqliteError "SQLITE_CONSTRAINT_FOREIGNKEY")).
  reflexivity.
Defined.

(** A handler that writes its audit entry with [AuditLog.create] itself has
    no such guard: when the row cannot be written, the access to the
    evidence fails with the error of the insert, before the button is
    acknowledged and before any file is loaded. *)
Lemma evidence_access_propagates_audit_failure
      (buttonInteraction originalInteraction : Interaction)
      (platform : Responder ViewBanShareCommand.Reply) (dir : ViewBanShareCommand.EvidenceDir)
      (collection : Collection.t) (ban : Ban.t) (guildId : string) (w w' : World) (e : Exn) :
  i_guildId originalInteraction = Some guildId ->
  AuditLog.create
    (AuditLog.mkInput (Collection._id collection) evidence_access (i_userId buttonInteraction)
       (Some (JObj [ ("banId"%string, JStr (Ban._id ban));
                     ("targetUserId"%string, JStr (Ban._userId ban));
                     ("evidenceCount"%string, JNum (Z.of_nat (length (Ban._evidence ban))));
                     ("guildId"%string, JStr guildId) ]))) w
  = (Thrown e, w') ->
  ViewBanShareCommand.handleEvidenceAccess buttonInteraction originalInteraction platform dir
                                           collection ban w
  = (Thrown e, w')
  /\ db w' = db w /\ trace w' = trace w.
Proof.
  intros Hg E; split; [|eapply AuditLog_create_thrown; exact E].
  unfold ViewBanShareCommand.handleEvidenceAccess; rewrite Hg.
  now rewrite (bind_thrown _ _ _ E).
Qed.

(** C9 (an audit failure aborts the access to the evidence).  The owner of
    S1 looks at ban b-1 of Alpha, which has one piece of evidence.  While
    Alpha exists, pressing "View Evidence" records the access and shows the
    file.  Alpha is then deleted while the view is still open.  Now the
    audit row cannot be written (its group is gone),
    and pressing the button throws the error of the insert instead of
    showing the evidence, whereas [logAction], given the same entry, returns
    [null]. *)
Theorem evidence_access_aborted_by_audit_failure :
  let viewer := Scenario.owner_interaction in
  let group := Collection.applyRow Scenario.alpha in
  let ban := Ban.applyRow Edge.documented_row in
  let entry :=
    AuditLog.mkInput "c-alpha" evidence_access Scenario.owner
      (Some (JObj [ ("banId"%string, JStr "b-1");
                    ("targetUserId"%string, JStr Scenario.U1);
                    ("evidenceCount"%string, JNum 1);
                    ("guildId"%string, JStr Scenario.S1) ])) in
  (exists w',
      ViewBanShareCommand.handleEvidenceAccess viewer viewer accepting Edge.evidence_dir
                                               group ban Edge.w_documented
      = (Normal (ViewBanShareCommand.EvidenceAccess
                   1 [("shot.png"%string, [0x89; 0x50; 0x4e; 0x47])] []), w')
      /\ map ar_action (auditLogs (db w')) = [evidence_access])
  /\ Collection.remove group Edge.w_documented = (Normal tt, Edge.w_deleted)
  /\ ViewBanShareCommand.handleEvidenceAccess viewer viewer accepting Edge.evidence_dir
                                              group ban Edge.w_deleted
     = (Thrown (SqliteError "SQLITE_CONSTRAINT_FOREIGNKEY"), after_draw Edge.w_deleted)
  /\ logAction entry Edge.w_deleted = (Normal None, after_draw Edge.w_deleted).
Proof.
  cbv zeta; split; [|split; [|split]].
  - eexists; split; [vm_compute; reflexivity|reflexivity].
  - vm_compute; reflexivity.
  - apply (@evidence_access_propagates_audit_failure
             Scenario.owner_interaction Scenario.owner_interaction accepting
             Edge.evidence_dir (Collection.applyRow Scenario.alpha)
             (Ban.applyRow Edge.documented_row) Scenario.S1 Edge.w_deleted
             (after_draw Edge.w_deleted) _ eq_refl).
    reflexivity.
  - reflexivity.
Qed.

(* ------------------------------------------------------------------ *)
(** ** Deleting a group *)

(** C3 (the cascade misses the invites).  Group Alpha has one member, one
    ban, one moderator, one audit entry and one invite, accepted long ago.
    [Collection.remove] deletes audit entries, moderators, bans and servers,
    never the invites; the final [DELETE FROM collections] then violates the
    foreign key of [invites], the transaction is rolled back, and the group
    with all its dependent records is still there. *)
Theorem remove_with_invite_fails_and_keeps_everything :
  Collection.remove (Collection.applyRow Scenario.alpha) Scenario.w_invited
  = (Thrown (SqliteError "SQLITE_CONSTRAINT_FOREIGNKEY"), Scenario.w_invited).
Proof. vm_compute. reflexivity. Qed.

(** The same holds of every group that has an invite of any status. *)
Lemma Collection_remove_blocked_by_invite (this : Collection.t) (w : World) :
  has_collection (db w) (Collection._id this) = true ->
  existsb (fun r => String.eqb (ir_collectionId r) (Collection._id this)) (invites (db w)) = true ->
  Collection.remove this w = (Thrown (SqliteError "SQLITE_CONSTRAINT_FOREIGNKEY"), w).
Proof.
  intros Hc Hi.
  unfold Collection.remove, transaction, Collection.delete_row, bind, getDb, putDb; simpl.
  unfold has_collection in Hc.
  destruct (filter (fun row => String.eqb (cr_id row) (Collection._id this))
                   (collections (db w))) as [|v vs] eqn:Ev.
  - exfalso.
    apply existsb_exists in Hc as (c & Hin & Hid).
    assert (Hf : In c (filter (fun row => String.eqb (cr_id row) (Collection._id this))
                              (collections (db w)))) by (apply filter_In; auto).
    rewrite Ev in Hf; exact Hf.
  - unfold Collection.referenced; simpl.
    rewrite Hi, !orb_true_r; simpl.
    destruct w; reflexivity.
Qed.

(** When the removal does go through, no row of the five dependent tables
    refers to the group any more. *)
Lemma Collection_remove_leaves_no_dependents (this : Collection.t) (w w' : World) :
  Collection.remove this w = (Normal tt, w') ->
  Collection.referenced (db w') (Collection._id this) = false
  /\ has_collection (db w') (Collection._id this) = false.
Proof.
  unfold Collection.remove, transaction, Collection.delete_row, bind, getDb, putDb; simpl.
  destruct (filter (fun row => String.eqb (cr_id row) (Collection._id this))
                   (collections (db w))) as [|v vs] eqn:Ev; simpl; [discriminate|].
  destruct (Collection.referenced _ _) eqn:Er; simpl; [discriminate|].
  intros E; inversion E; subst; clear E; simpl; split.
  - exact Er.
  - unfold has_collection; simpl.
    apply not_true_is_false; intros Hex.
    apply existsb_exists in Hex as (c & Hin & Hid).
    apply filter_In in Hin as [_ Hneg].
    rewrite Hid in Hneg; discriminate.
Qed.

(* ------------------------------------------------------------------ *)
(** ** Runs of the model queries *)

Lemma try_catch_normal {A} (m : M A) (h : Exn -> M A) (w : World) a w1 :
  m w = (Normal a, w1) -> try_catch m h w = (Normal a, w1).
Proof. unfold try_catch; intros ->; reflexivity. Qed.

Lemma try_catch_thrown {A} (m : M A) (h : Exn -> M A) (w : World) e w1 :
  m w = (Thrown e, w1) -> try_catch m h w = h e w1.
Proof. unfold try_catch; intros ->; reflexivity. Qed.

Section QueryRuns.

Variable w : World.

Lemma find_first {A} (f : A -> bool) (l : list A) (x : A) :
  In x l -> f x = true -> exists y, find f l = Some y /\ f y = true.
Proof.
  intros Hin Hf; destruct (find f l) as [y|] eqn:E.
  - exists y; split; [reflexivity|]; now apply find_some in E.
  - rewrite (find_none _ _ E _ Hin) in Hf; discriminate.
Qed.

Lemma Collection_getById_run id row :
  find (fun r => String.eqb (cr_id r) id) (collections (db w)) = Some row ->
  Collection.getById id w = (Normal (Collection.applyRow row), w).
Proof. unfold Collection.getById, bind, getDb; intros ->; reflexivity. Qed.

Lemma Collection_getByMainGuildId_run guildId row :
  find (fun r => String.eqb (cr_mainGuildId r) guildId) (collections (db w)) = Some row ->
  exists row', Collection.getByMainGuildId guildId w = (Normal (Collection.applyRow row'), w)
               /\ cr_id row' = cr_id row.
Proof.
  intros E; unfold Collection.getByMainGuildId, bind, getDb; rewrite E.
  apply find_some in E as [Hin _].
  destruct (find_first (fun r => String.eqb (cr_id r) (cr_id row)) _ row Hin
                       (String.eqb_refl _)) as (row' & E' & Hid).
  exists row'; split; [now apply Collection_getById_run|].
  now apply String.eqb_eq in Hid.
Qed.

Lemma Server_getByGuildId_none guildId :
  find (fun r => String.eqb (sr_guildId r) guildId && (sr_enabled r =? 1)) (servers (db w))
  = None ->
  exists msg, Server.getByGuildId guildId w = (Thrown (RecordNotFoundError msg), w).
Proof. unfold Server.getByGuildId, bind, getDb; intros ->; eexists; reflexivity. Qed.

Lemma Server_listByCollection_run collectionId :
  Server.listByCollection collectionId w
  = (Normal (map Server.applyRow
                 (order_by_desc sr_addedAt
                    (filter (fun r => String.eqb (sr_collectionId r) collectionId)
                            (servers (db w))))), w).
Proof. reflexivity. Qed.

Lemma Invite_reload_run (invite : Invite.t) row :
  find (fun r => String.eqb (ir_id r) (Invite._id invite)) (invites (db w)) = Some row ->
  Invite.reload invite w = (Normal (Invite.applyRow row), w).
Proof. unfold Invite.reload, bind, getDb; intros ->; reflexivity. Qed.

Lemma Invite_hasPendingInvite_true collectionId targetGuildId row :
  In row (invites (db w)) ->
  ir_collectionId row = collectionId ->
  ir_targetGuildId row = targetGuildId ->
  ir_status row = pending ->
  clock w < ir_expiresAt row ->
  Invite.hasPendingInvite collectionId targetGuildId w = (Normal true, w).
Proof.
  intros Hin Hc Ht Hs He.
  unfold Invite.hasPendingInvite, bind, nowIso, getDb, ret.
  match goal with |- (Normal (0 <? length (filter ?f ?l))%nat, _) = _ =>
    assert (Hlen : (0 < length (filter f l))%nat)
  end.
  { apply filter_nonempty with (x := row); [exact Hin|].
    rewrite Hc, Ht, Hs, !String.eqb_refl; simpl.
    now apply Z.ltb_lt. }
  apply Nat.ltb_lt in Hlen; rewrite Hlen; reflexivity.
Qed.

End QueryRuns.

(* ------------------------------------------------------------------ *)
(** ** Joining a group *)

(** C10. The capacity check of [acceptInvite] counts every server row of the
    group, enabled or soft-disabled: for a valid invite (pending, not
    expired) to a server that is not an enabled member anywhere, the accept
    fails with the capacity error as soon as the number of rows reaches
    [maxLinkedServers], and nothing is written. *)
Theorem accept_capacity_counts_every_member_row
        (interaction : Interaction) (guildId : string) (invite : Invite.t)
        (syncOnJoin : bool) (w : World) (row : InviteRow) (c : CollectionRow) :
  find (fun r => String.eqb (ir_id r) (Invite._id invite)) (invites (db w)) = Some row ->
  ir_status row = pending ->
  clock w <= ir_expiresAt row ->
  find (fun r => String.eqb (sr_guildId r) guildId && (sr_enabled r =? 1)) (servers (db w))
  = None ->
  find (fun r => String.eqb (cr_id r) (ir_collectionId row)) (collections (db w)) = Some c ->
  cr_maxLinkedServers c
  <= Z.of_nat (length (filter (fun r => String.eqb (sr_collectionId r) (cr_id c))
                              (servers (db w)))) ->
  CollectionJoinCommand.acceptInvite interaction guildId invite syncOnJoin w
  = (Normal (CollectionJoinCommand.MaximumReached (cr_maxLinkedServers c)), w).
Proof.
  intros Hrow Hst Hexp Hsrv Hcol Hcap.
  unfold CollectionJoinCommand.acceptInvite.
  erewrite bind_normal by (apply Invite_reload_run; exact Hrow).
  unfold Invite.isExpired at 1.
  unfold bind at 1; unfold bind at 1; unfold nowIso at 1; unfold ret at 1; cbv beta iota.
  cbn [Invite._status Invite._expiresAt Invite._collectionId Invite.applyRow].
  rewrite Hst; cbn [Invite.status_eqb negb orb].
  destruct (Z.ltb_spec (ir_expiresAt row) (clock w)) as [Hlt|_]; [lia|]; cbv iota.
  destruct (Server_getByGuildId_none w guildId Hsrv) as [msg Hnone].
  erewrite bind_normal; cycle 1.
  { erewrite try_catch_thrown by (erewrite bind_thrown by exact Hnone; reflexivity).
    reflexivity. }
  cbv iota.
  erewrite bind_normal; cycle 1.
  { apply try_catch_normal.
    erewrite bind_normal by (apply Collection_getById_run; exact Hcol).
    reflexivity. }
  cbv iota.
  erewrite bind_normal by apply Server_listByCollection_run.
  rewrite length_map, order_by_desc_length.
  cbn [Collection._id Collection._maxLinkedServers Collection.applyRow].
  apply Z.leb_le in Hcap; rewrite Hcap.
  reflexivity.
Qed.

(** Capacity 2, one enabled member (S2) and one that left (S3): the row of S3
    still counts, and S4 cannot join. *)
Lemma accept_capacity_counts_every_member_row_witness :
  length (filter (fun r => fromDbBool (sr_enabled r)) (servers (db Scenario.w_one_left))) = 1%nat
  /\ CollectionJoinCommand.acceptInvite Scenario.owner_interaction Scenario.S4
       Scenario.invite_S4 true Scenario.w_one_left
     = (Normal (CollectionJoinCommand.MaximumReached 2), Scenario.w_one_left).
Proof.
  split; [reflexivity|].
  apply (@accept_capacity_counts_every_member_row
           Scenario.owner_interaction Scenario.S4 Scenario.invite_S4 true
           Scenario.w_one_left
           (Scenario.invite_row "i-4" Scenario.S4 4000 pending) Scenario.alpha).
  - reflexivity.
  - reflexivity.
  - vm_compute; discriminate.
  - reflexivity.
  - reflexivity.
  - vm_compute; discriminate.
Defined.

(* ------------------------------------------------------------------ *)
(** ** Inviting a server *)

(** Strictly before the expiry instant of a pending invite of the group for
    the target server, [/collection-invite] for the same pair leaves the
    world as it was (no invite is created, the pending one is not touched)
    and never answers "invite sent"; for a request that passes the checks
    made before (permission, id format, not the own server) the answer is
    the duplicate-pending error. *)
Lemma second_invite_is_rejected_before_expiry
      (interaction : Interaction) (platform : Responder CollectionInviteCommand.Reply)
      (targetGuildId : string) (w : World)
      (guildId : string) (c : CollectionRow) (row : InviteRow) :
  i_guildId interaction = Some guildId ->
  find (fun r => String.eqb (cr_mainGuildId r) guildId) (collections (db w)) = Some c ->
  In row (invites (db w)) ->
  ir_collectionId row = cr_id c ->
  ir_targetGuildId row = targetGuildId ->
  ir_status row = pending ->
  clock w < ir_expiresAt row ->
  (exists reply,
      CollectionInviteCommand.chatInputRun interaction platform targetGuildId w
      = (Normal reply, w)
      /\ forall invite, reply <> CollectionInviteCommand.InviteSent invite)
  /\ (String.eqb (i_guildOwnerId interaction) (i_userId interaction)
      || i_administrator interaction = true ->
      CollectionInviteCommand.isSnowflake targetGuildId = true ->
      targetGuildId <> guildId ->
      CollectionInviteCommand.chatInputRun interaction platform targetGuildId w
      = (Normal CollectionInviteCommand.DuplicatePending, w)).
Proof.
  intros Hg Hc Hin Hcid Htgt Hst Hexp.
  destruct (Collection_getByMainGuildId_run w guildId Hc) as (row' & Hrun & Hid).
  assert (Hdup : Invite.hasPendingInvite (Collection._id (Collection.applyRow row'))
                                         targetGuildId w = (Normal true, w)).
  { apply Invite_hasPendingInvite_true with (row := row); auto.
    cbn [Collection._id Collection.applyRow]; congruence. }
  assert (Hown : try_catch (c0 <- Collection.getByMainGuildId guildId ;; ret (Some c0))
                           (fun error => match error with
                                         | RecordNotFoundError _ => ret None
                                         | _ => throw error
                                         end) w
                 = (Normal (Some (Collection.applyRow row')), w)).
  { apply try_catch_normal. erewrite bind_normal by exact Hrun. reflexivity. }
  unfold CollectionInviteCommand.chatInputRun; rewrite Hg.
  destruct (String.eqb (i_guildOwnerId interaction) (i_userId interaction)) eqn:Eo;
    destruct (i_administrator interaction) eqn:Ea;
    cbn [negb andb orb];
    try (erewrite bind_normal by exact Hown);
    destruct (CollectionInviteCommand.isSnowflake targetGuildId) eqn:Es;
    cbn [negb];
    destruct (String.eqb_spec targetGuildId guildId) as [Heq|Hne];
    try (erewrite bind_normal by exact Hdup);
    (split; [eexists; split; [reflexivity|intros invite; discriminate]
            |intros Hp Hs Hn; try discriminate; try contradiction; reflexivity]).
Qed.

(** Alpha has invited S4 at 4000; the owner invites S4 again at 5000. *)
Example second_invite_is_rejected_at_5000 :
  CollectionInviteCommand.chatInputRun Scenario.owner_interaction accepting Scenario.S4
                                       Scenario.w_one_left
  = (Normal CollectionInviteCommand.DuplicatePending, Scenario.w_one_left).
Proof.
  apply (proj2 (@second_invite_is_rejected_before_expiry
                  Scenario.owner_interaction accepting Scenario.S4 Scenario.w_one_left
                  Scenario.S1 Scenario.alpha
                  (Scenario.invite_row "i-4" Scenario.S4 4000 pending)
                  eq_refl eq_refl (or_introl eq_refl) eq_refl eq_refl eq_refl eq_refl)).
  - reflexivity.
  - reflexivity.
  - vm_compute; discriminate.
Qed.

(** C8 (the duplicate check ends one instant early).  Alpha invited S4 at
    4000, so the invite expires at 4000 + 48 h.  At that very instant the
    invite is pending and, by [Invite.isExpired], not expired: an
    administrator of S4 who accepts it joins Alpha.  Yet
    [Invite.hasPendingInvite] no longer counts it, and the owner's second
    [/collection-invite] for S4 is answered "invite sent": a second pending
    invite of Alpha for S4 is written next to the first. *)
Theorem second_invite_created_at_expiry_instant :
  let w := Edge.w_at_expiry in
  let first := Scenario.invite_row "i-4" Scenario.S4 4000 pending in
  In first (invites (db w))
  /\ ir_expiresAt first = clock w
  /\ Invite.isExpired (Invite.applyRow first) w = (Normal false, w)
  /\ (exists server w',
         CollectionJoinCommand.acceptInvite Cases.S4_admin Scenario.S4 (Invite.applyRow first)
                                            false w
         = (Normal (CollectionJoinCommand.Joined server), w'))
  /\ Invite.hasPendingInvite "c-alpha" Scenario.S4 w = (Normal false, w)
  /\ exists second w',
      CollectionInviteCommand.chatInputRun Scenario.owner_interaction accepting Scenario.S4 w
      = (Normal (CollectionInviteCommand.InviteSent (Invite.applyRow second)), w')
      /\ invites (db w') = [first; second]
      /\ ir_collectionId second = ir_collectionId first
      /\ ir_targetGuildId second = ir_targetGuildId first
      /\ ir_status second = pending.
Proof.
  cbv zeta.
  split; [simpl; auto|].
  split; [reflexivity|].
  split; [reflexivity|].
  split; [eexists _, _; vm_compute; reflexivity|].
  split; [reflexivity|].
  exists (mkInviteRow "uuid-0" "c-alpha" Scenario.S4 Scenario.owner Edge.expiry_instant
                      (Edge.expiry_instant + 48 * 60 * 60 * 1000) pending None).
  eexists; split; [vm_compute; reflexivity|].
  repeat split.
Qed.

(* ------------------------------------------------------------------ *)
(** ** Revoking a ban *)

#[export] Instance revoke_frame_frame : Frame revoke_frame.
Proof.
  split; unfold revoke_frame.
  - intros; repeat split; auto.
  - intros w1 w2 w3 (?&?&?&?&?) (?&?&?&?&?); repeat split; try congruence; auto.
Qed.

#[export] Hint Resolve revoke_frame_frame : frames.

Lemma audit_frame_revoke (w w' : World) : audit_frame w w' -> revoke_frame w w'.
Proof.
  unfold audit_frame, revoke_frame, inactive.
  intros (?&?&Hb&?&?&?&?&?); rewrite Hb; repeat split; auto.
Qed.

Lemma only_trace_revoke (w w' : World) : only_trace w w' -> revoke_frame w w'.
Proof. intros Ht; apply audit_frame_revoke, only_trace_audit, Ht. Qed.

Section UnbanRuns.

Variables targetUserId executorId : string.

Lemma unban_in_run guildId w :
  exists r w', UnsharebanCommand.unban_in targetUserId guildId w = (Normal r, w')
               /\ UnsharebanCommand.sr_guild r = guildId /\ only_trace w w'.
Proof.
  assert (Hp : preserves only_trace (UnsharebanCommand.unban_in targetUserId guildId))
    by (unfold UnsharebanCommand.unban_in; frames).
  destruct (UnsharebanCommand.unban_in targetUserId guildId w) as [r w'] eqn:E.
  specialize (Hp _ _ _ E).
  unfold UnsharebanCommand.unban_in in E.
  apply try_catch_inv in E as [(a & E1 & ->)|(e & w1 & E1 & E2)].
  - exists a, w'; repeat split; try apply Hp.
    apply bind_inv in E1 as [(g & w1 & _ & E1)|(e & _ & ?)]; [|discriminate].
    apply bind_inv in E1 as [(u & w2 & _ & E1)|(e & _ & ?)]; [|discriminate].
    inversion E1; reflexivity.
  - inversion E2; subst; eexists _, _; repeat split; apply Hp.
Qed.

Lemma unban_all_run guildIds :
  forall w, exists rs w',
      UnsharebanCommand.unban_all targetUserId guildIds w = (Normal rs, w')
      /\ map UnsharebanCommand.sr_guild rs = guildIds /\ only_trace w w'.
Proof.
  induction guildIds as [|g rest IH]; intros w; simpl.
  - exists [], w; repeat split.
  - destruct (unban_in_run g w) as (r & w1 & E1 & Hg & Ht1).
    destruct (IH w1) as (rs & w2 & E2 & Hrs & Ht2).
    exists (r :: rs), w2; split; [|split].
    + erewrite bind_normal by exact E1.
      erewrite bind_normal by exact E2. reflexivity.
    + simpl; congruence.
    + eapply frame_trans; eauto.
Qed.

Lemma unban_all_revoke_frame guildIds :
  preserves revoke_frame (UnsharebanCommand.unban_all targetUserId guildIds).
Proof.
  intros w r w' E.
  destruct (unban_all_run guildIds w) as (rs & w1 & E1 & _ & Ht).
  rewrite E1 in E; inversion E; subst; now apply only_trace_revoke.
Qed.

Lemma logAction_revoke_frame p : preserves revoke_frame (logAction p).
Proof.
  apply preserves_weaken with (R := audit_frame); [apply audit_frame_revoke|].
  apply logAction_audit_frame.
Qed.

(** Saving a ban whose [active] is false. *)
Lemma Ban_save_inactive_revoke_frame (ban : Ban.t) :
  preserves revoke_frame (Ban.save (Ban.set_active ban false)).
Proof.
  intros w r w'.
  unfold Ban.save, bind, getDb, putDb, throw.
  destruct (_ =? 0)%nat; [intros E; inversion E; subst; apply frame_refl|].
  destruct (negb _); intros E; inversion E; subst; clear E; [apply frame_refl|].
  unfold revoke_frame, inactive; simpl; repeat split.
  - rewrite map_map; apply map_ext; intros row.
    destruct (String.eqb (br_id row) (Ban._id ban)); reflexivity.
  - intros id Hin row Hrow Hid.
    apply in_map_iff in Hrow as (old & Hnew & Hold).
    destruct (String.eqb (br_id old) (Ban._id ban)); subst row; [reflexivity|].
    now apply Hin.
Qed.

Lemma Ban_save_run (this : Ban.t) (w : World) :
  existsb (fun row => String.eqb (br_id row) (Ban._id this)) (bans (db w)) = true ->
  has_collection (db w) (Ban._collectionId this) = true ->
  exists w', Ban.save this w = (Normal tt, w')
             /\ bans (db w')
                = map (fun row => if String.eqb (br_id row) (Ban._id this)
                                  then Ban.updated_row this row else row) (bans (db w)).
Proof.
  intros Hrow Hcol.
  unfold Ban.save, bind, getDb, putDb, throw.
  apply existsb_exists in Hrow as (row & Hin & Hid).
  pose proof (filter_nonempty (fun r => String.eqb (br_id r) (Ban._id this)) _ _ Hin Hid) as Hn.
  destruct (Nat.eqb_spec (length (filter (fun r => String.eqb (br_id r) (Ban._id this))
                                         (bans (db w)))) 0) as [Hz|_]; [lia|].
  rewrite Hcol; simpl.
  eexists; split; reflexivity.
Qed.

Hint Resolve unban_all_revoke_frame logAction_revoke_frame
  Ban_save_inactive_revoke_frame : frames.

Lemma process_ban_revoke_frame acc ban :
  preserves revoke_frame (UnsharebanCommand.process_ban targetUserId executorId acc ban).
Proof. unfold UnsharebanCommand.process_ban; frames. Qed.

Lemma process_ban_returns acc ban w :
  exists acc' w',
    UnsharebanCommand.process_ban targetUserId executorId acc ban w = (Normal acc', w').
Proof.
  unfold UnsharebanCommand.process_ban, try_catch at 1.
  match goal with |- context [match ?m w with _ => _ end] => destruct (m w) as [[a|e] w1] end;
    unfold ret; eauto.
Qed.

End UnbanRuns.

Lemma try_catch_bind_normal {A B} (m : M A) (k : A -> M B) (h : Exn -> M B) (w : World) a w1 :
  m w = (Normal a, w1) -> try_catch (bind m k) h w = try_catch (k a) h w1.
Proof. unfold try_catch, bind; intros ->; reflexivity. Qed.

(** One or two audit entries, then a value: always returns that value. *)
Lemma audit_tail_returns {A} (p1 p2 : AuditLog.AuditLogCreateInput) (cond : bool) (x : A)
      (w : World) :
  exists w',
    (logAction p1 ;;; (if cond then logAction p2 ;;; ret tt else ret tt) ;;; ret x) w
    = (Normal x, w')
    /\ audit_frame w w'.
Proof.
  destruct (logAction_returns p1 w) as (r1 & w1 & E1).
  pose proof (logAction_audit_frame p1 _ E1) as F1.
  erewrite bind_normal by exact E1.
  destruct cond.
  - destruct (logAction_returns p2 w1) as (r2 & w2 & E2).
    pose proof (logAction_audit_frame p2 _ E2) as F2.
    exists w2; split; [|eapply frame_trans; eauto].
    erewrite bind_normal; [reflexivity|].
    erewrite bind_normal by exact E2. reflexivity.
  - exists w1; split; [reflexivity|exact F1].
Qed.

(** The revocation of one ban whose row and group exist. *)
Lemma process_ban_run (targetUserId executorId : string)
      (acc : UnsharebanCommand.Totals) (ban : Ban.t) (w : World) (c : CollectionRow) :
  existsb (fun row => String.eqb (br_id row) (Ban._id ban)) (bans (db w)) = true ->
  find (fun r => String.eqb (cr_id r) (Ban._collectionId ban)) (collections (db w)) = Some c ->
  exists serverResults acc' w',
    UnsharebanCommand.process_ban targetUserId executorId acc ban w = (Normal acc', w')
    /\ map UnsharebanCommand.sr_guild serverResults
       = UnsharebanCommand.uniqueGuildIds
           (Collection.applyRow c)
           (map Server.applyRow
                (order_by_desc sr_addedAt
                   (filter (fun r => String.eqb (sr_collectionId r) (cr_id c))
                           (servers (db w)))))
    /\ UnsharebanCommand.results acc'
       = UnsharebanCommand.results acc
         ++ [UnsharebanCommand.mkCollectionResult (cr_name c) serverResults]
    /\ inactive (Ban._id ban) (db w').
Proof.
  intros Hrow Hcol.
  destruct (unban_all_run targetUserId
              (UnsharebanCommand.uniqueGuildIds
                 (Collection.applyRow c)
                 (map Server.applyRow
                      (order_by_desc sr_addedAt
                         (filter (fun r => String.eqb (sr_collectionId r) (cr_id c))
                                 (servers (db w)))))) w)
    as (srs & w1 & E1 & Hmap & Ht1).
  destruct Ht1 as (Hdb & _).
  destruct (@Ban_save_run (Ban.set_active ban false) w1) as (w2 & E2 & Hb2).
  { rewrite Hdb; exact Hrow. }
  { rewrite Hdb; unfold has_collection; simpl.
    apply existsb_exists; exists c; split; now apply find_some in Hcol. }
  exists srs.
  destruct (UnsharebanCommand.process_ban targetUserId executorId acc ban w) as [r w'] eqn:E.
  unfold UnsharebanCommand.process_ban in E.
  erewrite try_catch_bind_normal in E by (apply Collection_getById_run; exact Hcol).
  erewrite try_catch_bind_normal in E by apply Server_listByCollection_run.
  cbn [Collection._id Collection.applyRow] in E.
  erewrite try_catch_bind_normal in E by exact E1.
  cbv zeta in E.
  match type of E with
  | context [logAction ?p1 ;;; (if ?cond then logAction ?p2 ;;; ret tt else ret tt)
             ;;; ret ?x] =>
      destruct (audit_tail_returns p1 p2 cond x w2) as (w3 & E3 & F3)
  end.
  erewrite try_catch_normal in E; cycle 1.
  { apply try_catch_normal. erewrite bind_normal by exact E2. exact E3. }
  inversion E; subst; clear E.
  eexists _, _; split; [reflexivity|]; split; [exact Hmap|]; split; [reflexivity|].
  destruct F3 as (_ & _ & Hb3 & _).
  unfold inactive; rewrite Hb3, Hb2; intros row Hin Hid.
  apply in_map_iff in Hin as (old & Hnew & Hold).
  destruct (String.eqb_spec (br_id old) (Ban._id (Ban.set_active ban false))) as [Heq|Hne].
  - subst row; reflexivity.
  - subst row. exfalso; apply Hne; exact Hid.
Qed.

Section Unique.

Lemma existsb_eqb_In (x : string) (seen : list string) :
  existsb (String.eqb x) seen = true <-> In x seen.
Proof.
  rewrite existsb_exists; split.
  - intros (y & Hin & Heq); apply String.eqb_eq in Heq; now subst.
  - intros Hin; exists x; split; [exact Hin|apply String.eqb_refl].
Qed.

Lemma unique_In (xs : list string) :
  forall seen x, In x (unique seen xs) <-> In x xs /\ ~ In x seen.
Proof.
  induction xs as [|y xs IH]; intros seen x; simpl; [tauto|].
  destruct (existsb (String.eqb y) seen) eqn:E.
  - apply existsb_eqb_In in E. rewrite IH. split.
    + intros [Hin Hn]; auto.
    + intros [[->|Hin] Hn]; [contradiction|auto].
  - assert (Hy : ~ In y seen) by (rewrite <- existsb_eqb_In, E; discriminate).
    simpl; rewrite IH; simpl. split.
    + intros [->|[Hin Hn]]; [auto|]. split; [auto|]. intros Hs; apply Hn; auto.
    + intros [[->|Hin] Hn]; [auto|].
      destruct (string_dec y x) as [->|Hne]; [auto|].
      right; split; [exact Hin|]. intros [?|?]; [contradiction|contradiction].
Qed.

Lemma unique_NoDup (xs : list string) : forall seen, NoDup (unique seen xs).
Proof.
  induction xs as [|y xs IH]; intros seen; simpl; [constructor|].
  destruct (existsb (String.eqb y) seen); [apply IH|].
  constructor; [|apply IH].
  rewrite unique_In; intros [_ Hn]; apply Hn; simpl; auto.
Qed.

End Unique.

Lemma fold_each_app {A S} (body : S -> A -> M S) (l1 l2 : list A) :
  forall s w,
    fold_each (l1 ++ l2) body s w
    = match fold_each l1 body s w with
      | (Normal s1, w1) => fold_each l2 body s1 w1
      | (Thrown e, w1) => (Thrown e, w1)
      end.
Proof.
  induction l1 as [|x l1 IH]; intros s w; simpl; [reflexivity|].
  unfold bind.
  destruct (body s x w) as [[s1|e] w1]; [apply IH|reflexivity].
Qed.

Lemma fold_process_ban_run (targetUserId executorId : string) (l : list Ban.t) :
  forall acc w, exists acc' w',
      fold_each l (UnsharebanCommand.process_ban targetUserId executorId) acc w
      = (Normal acc', w')
      /\ revoke_frame w w'.
Proof.
  induction l as [|b l IH]; intros acc w; simpl.
  - exists acc, w; split; [reflexivity|apply frame_refl].
  - destruct (process_ban_returns targetUserId executorId acc b w) as (acc1 & w1 & E1).
    pose proof (process_ban_revoke_frame targetUserId executorId acc b _ E1) as F1.
    destruct (IH acc1 w1) as (acc2 & w2 & E2 & F2).
    exists acc2, w2; split; [|eapply frame_trans; eauto].
    erewrite bind_normal by exact E1; exact E2.
Qed.

Lemma existsb_by_id (id : string) (l : list BanRow) :
  existsb (fun row => String.eqb (br_id row) id) l
  = existsb (fun i => String.eqb i id) (map br_id l).
Proof. induction l as [|r l IH]; simpl; [reflexivity|now rewrite IH]. Qed.

Lemma Ban_getById_inactive (id : string) (w : World) :
  existsb (fun row => String.eqb (br_id row) id) (bans (db w)) = true ->
  inactive id (db w) ->
  exists b, Ban.getById id w = (Normal b, w) /\ Ban._active b = false.
Proof.
  intros Hex Hin.
  apply existsb_exists in Hex as (row & Hrow & Hid).
  destruct (find_first (fun row => String.eqb (br_id row) id) _ row Hrow Hid)
    as (row' & Hfind & Hid').
  exists (Ban.applyRow row'); split.
  - unfold Ban.getById, bind, getDb; rewrite Hfind; reflexivity.
  - apply find_some in Hfind as [Hin' _]; apply String.eqb_eq in Hid'.
    cbn [Ban._active Ban.applyRow]; rewrite (Hin row' Hin' Hid'); reflexivity.
Qed.

Lemma dm_step_run (targetUser : option string) (w : World) :
  exists dmSent w',
    match targetUser with
    | Some user => try_catch (user_send user ;;; ret true) (fun _ => ret false)
    | None => ret false
    end w = (Normal dmSent, w')
    /\ only_trace w w'.
Proof.
  destruct targetUser as [user|]; [|exists false, w; split; [reflexivity|apply frame_refl]].
  assert (Hp : preserves only_trace
                 (try_catch (user_send user ;;; ret true) (fun _ => ret false))) by frames.
  destruct (try_catch (user_send user ;;; ret true) (fun _ => ret false) w) as [r w'] eqn:E.
  specialize (Hp _ _ _ E).
  apply try_catch_inv in E as [(a & _ & ->)|(e & w1 & _ & E2)].
  - eauto.
  - inversion E2; subst; eauto.
Qed.

(** C6. Revoking never deletes the ban.  [executeUnban], for any list of bans
    and whatever the platform answers to the unban calls, returns normally;
    the ban table has the same rows by id as before; and each ban of the
    list whose row and group exist is then found by its id with [active]
    false.  The same holds of [Ban.revoke]. *)
Theorem revoke_keeps_the_record_inactive
        (targetUserId executorId : string) (targetUser : option string)
        (toRevoke : list Ban.t) (ban : Ban.t) (w : World) :
  In ban toRevoke ->
  existsb (fun row => String.eqb (br_id row) (Ban._id ban)) (bans (db w)) = true ->
  has_collection (db w) (Ban._collectionId ban) = true ->
  (exists r w',
      UnsharebanCommand.executeUnban targetUserId targetUser toRevoke executorId w
      = (Normal r, w')
      /\ map br_id (bans (db w')) = map br_id (bans (db w))
      /\ exists b, Ban.getById (Ban._id ban) w' = (Normal b, w') /\ Ban._active b = false)
  /\ (exists this' w',
         Ban.revoke ban w = (Normal this', w')
         /\ map br_id (bans (db w')) = map br_id (bans (db w))
         /\ exists b, Ban.getById (Ban._id ban) w' = (Normal b, w') /\ Ban._active b = false).
Proof.
  intros Hin Hrow Hcol; split.
  - apply in_split in Hin as (l1 & l2 & ->).
    unfold UnsharebanCommand.executeUnban.
    destruct (fold_process_ban_run targetUserId executorId l1
                (UnsharebanCommand.mkTotals [] 0 0) w) as (acc1 & w1 & E1 & F1).
    destruct F1 as (Hc1 & Hs1 & Hi1 & Hk1 & _).
    assert (Hcol1 : exists c, find (fun r => String.eqb (cr_id r) (Ban._collectionId ban))
                                   (collections (db w1)) = Some c).
    { rewrite Hc1. unfold has_collection in Hcol.
      apply existsb_exists in Hcol as (c & Hc & Hid).
      destruct (find_first (fun r => String.eqb (cr_id r) (Ban._collectionId ban)) _ c Hc Hid)
        as (c' & Hf & _); eauto. }
    destruct Hcol1 as (c & Hfc).
    destruct (@process_ban_run targetUserId executorId acc1 ban w1 c) as
        (srs & acc2 & w2 & E2 & _ & _ & Hinact); [|exact Hfc|].
    { rewrite existsb_by_id, Hi1, <- existsb_by_id; exact Hrow. }
    pose proof (process_ban_revoke_frame targetUserId executorId acc1 ban _ E2)
      as (_ & _ & Hi2 & _ & _).
    destruct (fold_process_ban_run targetUserId executorId l2 acc2 w2)
      as (acc3 & w3 & E3 & (_ & _ & Hi3 & Hk3 & _)).
    destruct (dm_step_run targetUser w3) as (dmSent & w4 & E4 & (Hdb4 & _)).
    exists (UnsharebanCommand.mkUnbanned acc3 dmSent), w4.
    assert (Hids : map br_id (bans (db w4)) = map br_id (bans (db w)))
      by (rewrite Hdb4; congruence).
    split; [|split; [exact Hids|]].
    + erewrite bind_normal; cycle 1.
      { rewrite fold_each_app, E1; simpl.
        erewrite bind_normal by exact E2. exact E3. }
      erewrite bind_normal by exact E4. reflexivity.
    + apply Ban_getById_inactive.
      * rewrite existsb_by_id, Hids, <- existsb_by_id; exact Hrow.
      * rewrite Hdb4; apply Hk3, Hinact.
  - destruct (@Ban_save_run (Ban.set_active ban false) w) as (w1 & E1 & Hb1);
      [exact Hrow|exact Hcol|].
    pose proof (Ban_save_inactive_revoke_frame ban _ E1) as (_ & _ & Hi1 & _ & _).
    exists (Ban.set_active ban false), w1; split; [|split; [exact Hi1|]].
    + unfold Ban.revoke. erewrite bind_normal by exact E1. reflexivity.
    + apply (@Ban_getById_inactive (Ban._id ban)).
      * rewrite existsb_by_id, Hi1, <- existsb_by_id; exact Hrow.
      * unfold inactive; rewrite Hb1; intros row Hr Hid.
        apply in_map_iff in Hr as (old & Hnew & Hold).
        destruct (String.eqb_spec (br_id old) (Ban._id (Ban.set_active ban false)))
          as [Heq|Hne]; subst row; [reflexivity|].
        exfalso; apply Hne; exact Hid.
Qed.

(** S2 is an enabled member of Alpha, S3 has left; the ban on U1 is revoked. *)
Lemma revoke_keeps_the_record_inactive_witness :
  (exists r w',
      UnsharebanCommand.executeUnban Scenario.U1 None [Scenario.ban_U1] Scenario.owner
                                     Scenario.w_one_left
      = (Normal r, w')
      /\ map br_id (bans (db w')) = map br_id (bans (db Scenario.w_one_left))
      /\ exists b, Ban.getById "b-1" w' = (Normal b, w') /\ Ban._active b = false)
  /\ (exists this' w',
         Ban.revoke Scenario.ban_U1 Scenario.w_one_left = (Normal this', w')
         /\ map br_id (bans (db w')) = map br_id (bans (db Scenario.w_one_left))
         /\ exists b, Ban.getById "b-1" w' = (Normal b, w') /\ Ban._active b = false).
Proof.
  apply (@revoke_keeps_the_record_inactive
           Scenario.U1 Scenario.owner None [Scenario.ban_U1] Scenario.ban_U1
           Scenario.w_one_left).
  - simpl; auto.
  - reflexivity.
  - reflexivity.
Defined.

(** C4, as the claim has it, fails: S3 has left Alpha (its row is disabled)
    and is not the owning server, yet revoking the ban on U1 goes through
    S3 and calls [members.unban] there. *)
Lemma revoke_reaches_disabled_member :
  exists serverResults r w',
    UnsharebanCommand.executeUnban Scenario.U1 None [Scenario.ban_U1] Scenario.owner
                                   Scenario.w_one_left
    = (Normal r, w')
    /\ UnsharebanCommand.results (UnsharebanCommand.totals r)
       = [UnsharebanCommand.mkCollectionResult "Alpha" serverResults]
    /\ In Scenario.S3 (map UnsharebanCommand.sr_guild serverResults)
    /\ In (Scenario.S3, Scenario.U1) (unban_calls (trace w'))
    /\ ~ (Scenario.S3 = Scenario.S1
          \/ exists row, In row (servers (db Scenario.w_one_left))
                         /\ sr_collectionId row = "c-alpha"%string
                         /\ sr_guildId row = Scenario.S3
                         /\ fromDbBool (sr_enabled row) = true).
Proof.
  eexists _, _, _; split; [vm_compute; reflexivity|].
  split; [reflexivity|]; split; [simpl; auto|]; split; [simpl; auto|].
  intros [H|(row & Hin & _ & Hg & He)]; [discriminate|].
  simpl in Hin; destruct Hin as [<-|[<-|[]]]; simpl in Hg, He; discriminate.
Qed.

(* ------------------------------------------------------------------ *)
(** ** Sharing a ban *)

Section BanRuns.

Variables userId reason : string.



End BanRuns.





(* ------------------------------------------------------------------ *)
(** ** The notification cascade *)

Lemma sendToMainCollectionLog_run (collection : Collection.t) (w : World) :
  exists w', sendToMainCollectionLog collection w = (Normal tt, w')
             /\ trace_extends w w'.
Proof.
  assert (Hp : preserves trace_extends (sendToMainCollectionLog collection)) by frames.
  destruct (sendToMainCollectionLog collection w) as [r w'] eqn:E.
  specialize (Hp _ _ _ E).
  unfold sendToMainCollectionLog in E.
  apply try_catch_inv in E as [([] & _ & ->)|(e & w1 & _ & E2)]; [eauto|].
  inversion E2; subst; eauto.
Qed.

Lemma notify_server_run (sent : bool) (server : Server.t) (w : World) :
  exists w',
    notify_server sent server w = (Normal (sent || member_delivered (client w) server), w')
    /\ trace w' = trace w ++ member_send_events (client w) server
    /\ only_trace w w'.
Proof.
  assert (Hp : preserves only_trace (notify_server sent server)) by frames.
  assert (E : exists w',
             notify_server sent server w
             = (Normal (sent || member_delivered (client w) server), w')
             /\ trace w' = trace w ++ member_send_events (client w) server).
  { unfold notify_server, member_delivered, member_send_events, member_channel.
    destruct (truthy (Server._loggingChannelId server)) as [channelId|];
      [|exists w; rewrite orb_false_r, app_nil_r; split; reflexivity].
    cbv [try_catch bind guilds_fetch_ getClient channels_fetch channel_send emit ret throw].
    destruct (guilds_fetch (client w) (Server._guildId server)) as [g|];
      [|exists w; rewrite orb_false_r, app_nil_r; split; reflexivity].
    destruct (find _ (g_channels g)) as [ch|];
      [|exists w; rewrite orb_false_r, app_nil_r; split; reflexivity].
    destruct (isTextLike (ch_type ch));
      [|exists w; rewrite orb_false_r, app_nil_r; split; reflexivity].
    destruct (ch_send_ok ch); eexists; rewrite ?orb_true_r, ?orb_false_r;
      split; reflexivity. }
  destruct E as (w' & E & Ht); exists w'; repeat split; try assumption; apply (Hp _ _ _ E).
Qed.

Lemma notify_all_run (servers : list Server.t) :
  forall sent w, exists w',
      fold_each servers notify_server sent w
      = (Normal (sent || existsb (member_delivered (client w)) servers), w')
      /\ trace w' = trace w ++ flat_map (member_send_events (client w)) servers
      /\ only_trace w w'.
Proof.
  induction servers as [|s rest IH]; intros sent w; simpl.
  - exists w; rewrite orb_false_r, app_nil_r; repeat split.
  - destruct (notify_server_run sent s w) as (w1 & E1 & Ht1 & F1).
    destruct (IH (sent || member_delivered (client w) s) w1) as (w2 & E2 & Ht2 & F2).
    pose proof F1 as (_ & _ & _ & _ & Hc1).
    exists w2; split; [|split].
    + erewrite bind_normal by exact E1. rewrite E2, Hc1, orb_assoc; reflexivity.
    + rewrite Ht2, Ht1, Hc1, app_assoc; reflexivity.
    + eapply frame_trans; eauto.
Qed.

(** C2, as the code has it.  When the client is ready and the group exists
    with logging on, the notification is sent to the channel of every
    enabled member that has one, in the order of the listing, whether or not
    an earlier delivery went through; the fallback chain (main log, owner,
    administrators) adds events only when none of these deliveries did. *)
Theorem notification_reaches_every_member_channel
        (auditLog : AuditLog.t) (w : World) (c : CollectionRow) :
  isReady (client w) = true ->
  find (fun r => String.eqb (cr_id r) (AuditLog._collectionId auditLog)) (collections (db w))
  = Some c ->
  cr_loggingEnabledAtCollectionLevel c = 1 ->
  exists w' fallback,
    sendAuditLogNotifications auditLog w = (Normal tt, w')
    /\ trace w'
       = trace w
         ++ flat_map (member_send_events (client w))
                     (filter Server._enabled
                             (map Server.applyRow
                                  (order_by_desc sr_addedAt
                                     (filter (fun r => String.eqb (sr_collectionId r) (cr_id c))
                                             (servers (db w))))))
         ++ fallback
    /\ (existsb (member_delivered (client w))
                (filter Server._enabled
                        (map Server.applyRow
                             (order_by_desc sr_addedAt
                                (filter (fun r => String.eqb (sr_collectionId r) (cr_id c))
                                        (servers (db w))))))
        = true -> fallback = []).
Proof.
  intros Hready Hcol Hlog.
  destruct (notify_all_run
              (filter Server._enabled
                      (map Server.applyRow
                           (order_by_desc sr_addedAt
                              (filter (fun r => String.eqb (sr_collectionId r) (cr_id c))
                                      (servers (db w)))))) false w)
    as (w1 & E1 & Ht1 & F1).
  destruct (sendToMainCollectionLog_run (Collection.applyRow c) w1) as (w2 & E2 & [evs Hevs]).
  destruct (sendAuditLogNotifications auditLog w) as [r w'] eqn:E.
  unfold sendAuditLogNotifications in E.
  unfold bind at 1 in E; unfold getClient at 1 in E; rewrite Hready in E; cbn [negb] in E.
  erewrite bind_normal in E; cycle 1.
  { apply try_catch_normal.
    erewrite bind_normal by (apply Collection_getById_run; exact Hcol). reflexivity. }
  cbn [Collection._loggingEnabledAtCollectionLevel Collection._id Collection.applyRow] in E.
  rewrite Hlog in E; cbn [fromDbBool Z.eqb Pos.eqb negb] in E.
  erewrite bind_normal in E by apply Server_listByCollection_run.
  erewrite bind_normal in E by exact E1.
  cbn [orb] in E.
  destruct (existsb _ _) eqn:Esent; cbn [negb] in E.
  - injection E as <- <-; exists w1, []; rewrite app_nil_r; auto.
  - rewrite E2 in E; injection E as <- <-; exists w2, evs; repeat split.
    + rewrite Hevs, Ht1, app_assoc; reflexivity.
    + intros; discriminate.
Qed.

Lemma notification_reaches_every_member_channel_witness :
  exists w' fallback,
    sendAuditLogNotifications Scenario.entry_alpha Scenario.w_two_channels = (Normal tt, w')
    /\ trace w'
       = trace Scenario.w_two_channels
         ++ flat_map (member_send_events (client Scenario.w_two_channels))
                     (filter Server._enabled
                             (map Server.applyRow
                                  (order_by_desc sr_addedAt
                                     (filter (fun r => String.eqb (sr_collectionId r)
                                                                  (cr_id Scenario.alpha))
                                             (servers (db Scenario.w_two_channels))))))
         ++ fallback
    /\ (existsb (member_delivered (client Scenario.w_two_channels))
                (filter Server._enabled
                        (map Server.applyRow
                             (order_by_desc sr_addedAt
                                (filter (fun r => String.eqb (sr_collectionId r)
                                                             (cr_id Scenario.alpha))
                                        (servers (db Scenario.w_two_channels))))))
        = true -> fallback = []).
Proof.
  apply (@notification_reaches_every_member_channel
           Scenario.entry_alpha Scenario.w_two_channels Scenario.alpha).
  - reflexivity.
  - reflexivity.
  - reflexivity.
Defined.

(** C2, as the claim has it, fails: Alpha has two enabled members, S2 and
    S3, each with a working notification channel; one audit entry is
    delivered to both channels. *)
Lemma two_member_channels_receive_the_notification :
  length (filter (fun r => fromDbBool (sr_enabled r)
                           && match sr_loggingChannelId r with Some _ => true | None => false end)
                 (servers (db Scenario.w_two_channels))) = 2%nat
  /\ exists w',
      sendAuditLogNotifications Scenario.entry_alpha Scenario.w_two_channels = (Normal tt, w')
      /\ trace w' = [EvChannelSend Scenario.S3 "ch-3" true; EvChannelSend Scenario.S2 "ch-2" true]
      /\ (1 < length (filter (fun e => match e with
                                       | EvChannelSend _ _ true => true
                                       | _ => false
                                       end) (trace w')))%nat.
Proof.
  split; [reflexivity|].
  eexists; split; [vm_compute; reflexivity|].
  split; [reflexivity|simpl; lia].
Qed.

(* ------------------------------------------------------------------ *)
(** ** The duplicate-ban check *)

(** C7 (the check misses bans beyond the listing limit).  Group Alpha has
    1001 active bans; the oldest one is on U1.  [Ban.listByCollection] hands
    the check the 1000 most recent ones, so [/shareban] on U1 does not answer
    "already banned" but opens the configuration menu for a second ban. *)
Theorem duplicate_check_misses_ban_beyond_limit :
  In (Scenario.ban_row "b-old" Scenario.U1 1 true) (bans (db Scenario.w_crowded))
  /\ length (bans (db Scenario.w_crowded)) = 1001%nat
  /\ ShareBanCommand.chatInputRun Scenario.owner_interaction Scenario.U1 Scenario.w_crowded
     = (Normal (ShareBanCommand.ConfigurationMenu
                  [ShareBanCommand.mkServerInfo Scenario.S1 true]
                  (ShareBanCommand.mkConfig Scenario.U1 "c-alpha" [Scenario.S1]
                                            "" "" true [] [] true)),
        Scenario.w_crowded).
Proof.
  split; [left; reflexivity|].
  split; [vm_compute; reflexivity|].
  vm_compute; reflexivity.
Qed.

Lemma buildServerInfoList_run (collection : Collection.t) (w : World) :
  exists allServers,
    ShareBanCommand.buildServerInfoList collection w = (Normal allServers, w)
    /\ (length allServers =? 0)%nat = false.
Proof.
  unfold ShareBanCommand.buildServerInfoList.
  erewrite bind_normal by apply Server_listByCollection_run.
  eexists; split; [reflexivity|].
  destruct (existsb _ _) eqn:E; simpl; [|reflexivity].
  apply existsb_exists in E as (s & Hin & _).
  destruct (filter Server._enabled _); [contradiction|reflexivity].
Qed.

(** Within the limit of the listing the check does what it is meant to: with
    at most 1000 active bans in the group, a [/shareban] issued by the owner
    in the owning server against a user who has an active ban there is
    answered "already banned", and the world is left as it was. *)
Lemma duplicate_ban_rejected_within_limit
      (interaction : Interaction) (targetUserId guildId : string) (w : World)
      (c : CollectionRow) (row : BanRow) :
  i_guildId interaction = Some guildId ->
  String.eqb (i_guildOwnerId interaction) (i_userId interaction) = true ->
  find (fun r => String.eqb (cr_mainGuildId r) guildId) (collections (db w)) = Some c ->
  find (fun r => String.eqb (cr_id r) (cr_id c)) (collections (db w)) = Some c ->
  In row (bans (db w)) ->
  br_collectionId row = cr_id c ->
  br_userId row = targetUserId ->
  br_active row = 1 ->
  (length (filter (fun r => String.eqb (br_collectionId r) (cr_id c) && (br_active r =? 1)%Z)
                  (bans (db w))) <= 1000)%nat ->
  exists banId,
    ShareBanCommand.chatInputRun interaction targetUserId w
    = (Normal (ShareBanCommand.AlreadyBanned banId), w).
Proof.
  intros Hg Hown Hc Hpk Hin Hcid Huid Hact Hlim.
  assert (Hrun : Collection.getByMainGuildId guildId w = (Normal (Collection.applyRow c), w)).
  { unfold Collection.getByMainGuildId, bind, getDb; rewrite Hc.
    now apply Collection_getById_run. }
  assert (Hmain : String.eqb (cr_mainGuildId c) guildId = true)
    by (now apply find_some in Hc).
  destruct (buildServerInfoList_run (Collection.applyRow c) w) as (allServers & Hall & Hlen).
  set (listed := limit 1000
                   (order_by_desc br_timestamp
                      (filter (fun r => String.eqb (br_collectionId r) (cr_id c)
                                        && (br_active r =? 1)) (bans (db w))))).
  assert (Hlisted : In row listed).
  { unfold listed, limit. rewrite firstn_all2 by (rewrite order_by_desc_length; exact Hlim).
    apply order_by_desc_In, filter_In; split; [exact Hin|].
    rewrite Hcid, Hact, String.eqb_refl; reflexivity. }
  destruct (find_first (fun b => String.eqb (Ban._userId b) targetUserId)
                       (map Ban.applyRow listed) (Ban.applyRow row))
    as (existingBan & Hfind & _).
  { now apply in_map. }
  { cbn [Ban._userId Ban.applyRow]; rewrite Huid; apply String.eqb_refl. }
  exists (Ban._id existingBan).
  unfold ShareBanCommand.chatInputRun; rewrite Hg.
  erewrite bind_normal; cycle 1.
  { unfold ShareBanCommand.attempt. apply try_catch_normal.
    erewrite bind_normal by exact Hrun. reflexivity. }
  erewrite bind_normal by reflexivity.
  cbv beta iota.
  erewrite bind_normal by reflexivity.
  cbn [Collection._mainGuildId Collection._id Collection.applyRow].
  rewrite Hmain, Hown; cbn [andb negb]; rewrite andb_false_r.
  erewrite bind_normal by exact Hall.
  rewrite Hlen.
  erewrite bind_normal by reflexivity.
  cbn [Collection._id Collection.applyRow]; fold listed.
  rewrite Hfind; reflexivity.
Qed.

(* ================================================================== *)
(** * Further properties of the code *)
(* ================================================================== *)

(** ** The evidence validator, continued *)

Section MagicBytes.

Lemma every_at_true (buffer : Buffer) (sig : list Z) :
  forall index, every_at buffer index sig = true ->
                firstn (length sig) (skipn index buffer) = sig.
Proof.
  induction sig as [|byte sig IH]; intros index; simpl; [reflexivity|].
  destruct (nth_error buffer index) as [b|] eqn:E; [|discriminate].
  intros H; apply andb_prop in H as [Hb Hrest]; apply Z.eqb_eq in Hb; subst b.
  apply IH in Hrest.
  assert (Hsk : skipn index buffer = byte :: skipn (S index) buffer).
  { clear - E. revert index E; induction buffer as [|x xs IHb]; intros [|i] E;
      simpl in *; try discriminate.
    - now inversion E.
    - now apply IHb. }
  rewrite Hsk, Hrest; reflexivity.
Qed.

Lemma matches_prefix (buffer : Buffer) (sig : list Z) :
  (if (length buffer <? length sig)%nat then false else every_at buffer 0 sig) = true
  <-> has_prefix sig buffer.
Proof.
  split.
  - destruct (length buffer <? length sig)%nat; [discriminate|].
    intros H; apply every_at_true in H; simpl in H.
    exists (skipn (length sig) buffer).
    rewrite <- H at 1; symmetry; apply firstn_skipn.
  - intros Hp; pose proof (checkMagicBytes_prefix Hp) as H.
    unfold checkMagicBytes in H; simpl in H; now rewrite orb_false_r in H.
Qed.

End MagicBytes.

Lemma checkMagicBytes_true_iff (buffer : Buffer) (signatures : list (list Z)) :
  checkMagicBytes buffer signatures = true
  <-> exists sig, In sig signatures /\ has_prefix sig buffer.
Proof.
  unfold checkMagicBytes; rewrite existsb_exists.
  split; intros (sig & Hin & H); exists sig; (split; [exact Hin|]); now apply matches_prefix.
Qed.

Lemma isBlockedFile_iff (buffer : Buffer) :
  isBlockedFile buffer = true
  <-> exists sig, In sig BLOCKED_MAGIC_BYTES /\ has_prefix sig buffer.
Proof.
  unfold isBlockedFile; rewrite existsb_exists; split.
  - intros (sig & Hin & H); apply checkMagicBytes_true_iff in H as (s & [<-|[]] & Hp); eauto.
  - intros (sig & Hin & Hp); exists sig; split; [exact Hin|].
    apply checkMagicBytes_true_iff; exists sig; simpl; auto.
Qed.

Lemma allowed_match_iff (buffer : Buffer) :
  existsb (fun entry => checkMagicBytes buffer (snd entry)) ALLOWED_MAGIC_BYTES = true
  <-> exists sig, allowed_signature sig /\ has_prefix sig buffer.
Proof.
  rewrite existsb_exists; split.
  - intros (entry & Hin & H); apply checkMagicBytes_true_iff in H as (sig & Hs & Hp).
    exists sig; split; [exists entry; auto|exact Hp].
  - intros (sig & (entry & Hin & Hs) & Hp); exists entry; split; [exact Hin|].
    apply checkMagicBytes_true_iff; eauto.
Qed.

Lemma signatures_exclude (buffer : Buffer) (blocked allowed : list Z) :
  In blocked BLOCKED_MAGIC_BYTES ->
  allowed_signature allowed ->
  has_prefix blocked buffer ->
  ~ has_prefix allowed buffer.
Proof.
  intros Hb (entry & He & Ha) [rest1 ->] [rest2 Heq].
  simpl in Hb, He.
  repeat (destruct Hb as [<-|Hb]; [|]); try contradiction;
    repeat (destruct He as [<-|He]; [|]); try contradiction;
    simpl in Ha;
    repeat (destruct Ha as [<-|Ha]; [|]); try contradiction;
    simpl in Heq; discriminate.
Qed.

(** X1. The two signature lists exclude each other: a buffer that
    [isBlockedFile] flags matches no allowlisted signature, so the precedence
    of the blocklist only ever overrides the plain-text fallback. *)
Theorem blocked_file_matches_no_allowed_signature (buffer : Buffer) :
  isBlockedFile buffer = true ->
  existsb (fun entry => checkMagicBytes buffer (snd entry)) ALLOWED_MAGIC_BYTES = false.
Proof.
  intros Hb; apply isBlockedFile_iff in Hb as (blocked & Hin & Hp).
  apply not_true_is_false; intros Ha.
  apply allowed_match_iff in Ha as (allowed & Hal & Hpa).
  exact (signatures_exclude Hin Hal Hp Hpa).
Qed.

(** "MZ" followed by "BM". *)
Lemma blocked_file_matches_no_allowed_signature_witness :
  existsb (fun entry => checkMagicBytes [0x4d; 0x5a; 0x42; 0x4d] (snd entry))
          ALLOWED_MAGIC_BYTES = false.
Proof.
  apply (@blocked_file_matches_no_allowed_signature [0x4d; 0x5a; 0x42; 0x4d]).
  reflexivity.
Defined.

(** X2. A buffer that starts with an allowlisted signature is accepted,
    whatever follows the signature. *)
Theorem allowed_signature_is_accepted (buffer : Buffer) (sig : list Z) :
  allowed_signature sig ->
  has_prefix sig buffer ->
  isAllowedFile buffer = true.
Proof.
  intros Ha Hp; unfold isAllowedFile.
  destruct (isBlockedFile buffer) eqn:Eb.
  - apply isBlockedFile_iff in Eb as (blocked & Hin & Hb).
    exfalso; exact (signatures_exclude Hin Ha Hb Hp).
  - assert (H : existsb (fun entry => checkMagicBytes buffer (snd entry)) ALLOWED_MAGIC_BYTES
                = true) by (apply allowed_match_iff; eauto).
    now rewrite H.
Qed.

(** A PNG header followed by an ELF header. *)
Lemma allowed_signature_is_accepted_witness :
  isAllowedFile [0x89; 0x50; 0x4e; 0x47; 0x7f; 0x45; 0x4c; 0x46] = true.
Proof.
  apply (@allowed_signature_is_accepted _ [0x89; 0x50; 0x4e; 0x47]).
  - exists ("png"%string, [[0x89; 0x50; 0x4e; 0x47]]); simpl; auto.
  - exists [0x7f; 0x45; 0x4c; 0x46]; reflexivity.
Defined.

Section FirstBytes.

Lemma has_prefix_firstn (sig : list Z) (buffer : Buffer) (n : nat) :
  (length sig <= n)%nat ->
  has_prefix sig buffer <-> has_prefix sig (firstn n buffer).
Proof.
  intros Hlen; split.
  - intros [rest ->]; exists (firstn (n - length sig) rest).
    rewrite firstn_app, (firstn_all2 (n := n) sig) by exact Hlen; reflexivity.
  - intros [rest Hrest]; exists (rest ++ skipn n buffer).
    rewrite app_assoc, <- Hrest; symmetry; apply firstn_skipn.
Qed.

Lemma blocked_signature_short (sig : list Z) :
  In sig BLOCKED_MAGIC_BYTES -> (length sig <= 100)%nat.
Proof. simpl; intros H; repeat (destruct H as [<-|H]; [simpl; lia|]); contradiction. Qed.

Lemma allowed_signature_short (sig : list Z) :
  allowed_signature sig -> (length sig <= 100)%nat.
Proof.
  intros (entry & He & Hs); simpl in He.
  repeat (destruct He as [<-|He]; [simpl in Hs;
                                   repeat (destruct Hs as [<-|Hs]; [simpl; lia|]);
                                   contradiction|]).
  contradiction.
Qed.

End FirstBytes.

(** X3. The verdict of [isAllowedFile] depends on the first 100 bytes of the
    buffer only: what follows them is never inspected. *)
Theorem isAllowedFile_reads_first_100_bytes (buffer : Buffer) :
  isAllowedFile buffer = isAllowedFile (firstn 100 buffer).
Proof.
  assert (Hb : isBlockedFile buffer = isBlockedFile (firstn 100 buffer)).
  { apply Bool.eq_iff_eq_true; rewrite !isBlockedFile_iff.
    split; intros (sig & Hin & Hp); exists sig; (split; [exact Hin|]);
      now apply (@has_prefix_firstn sig buffer 100 (blocked_signature_short Hin)). }
  assert (Ha : existsb (fun entry => checkMagicBytes buffer (snd entry)) ALLOWED_MAGIC_BYTES
               = existsb (fun entry => checkMagicBytes (firstn 100 buffer) (snd entry))
                         ALLOWED_MAGIC_BYTES).
  { apply Bool.eq_iff_eq_true; rewrite !allowed_match_iff.
    split; intros (sig & Hin & Hp); exists sig; (split; [exact Hin|]);
      now apply (@has_prefix_firstn sig buffer 100 (allowed_signature_short Hin)). }
  unfold isAllowedFile; rewrite Hb, Ha, firstn_firstn; reflexivity.
Qed.

(* ------------------------------------------------------------------ *)
(** ** Listings: [ORDER BY ... DESC LIMIT n] *)

Lemma In_firstn {A} (x : A) (n : nat) (l : list A) : In x (firstn n l) -> In x l.
Proof.
  revert l; induction n as [|n IH]; intros [|y l]; simpl; try tauto.
  intros [->|H]; auto.
Qed.

Lemma limit_In {A} (n : nat) (l : list A) (x : A) : In x (limit n l) -> In x l.
Proof. unfold limit; intros H; eapply In_firstn; eauto. Qed.

Section Listings.

Context {A : Type}.
Variable key : A -> Z.

Lemma insert_desc_In (x y : A) (l : list A) :
  In y (insert_desc key x l) <-> y = x \/ In y l.
Proof.
  split.
  - intros H; apply (Permutation_in _ (insert_desc_perm key x l)) in H.
    destruct H as [<-|H]; auto.
  - intros H; apply (Permutation_in _ (Permutation_sym (insert_desc_perm key x l))).
    destruct H as [->|H]; simpl; auto.
Qed.

Lemma insert_desc_sorted (x : A) (l : list A) :
  newest_first key l -> newest_first key (insert_desc key x l).
Proof.
  unfold newest_first; induction 1 as [|y l Hs IH Hall]; simpl.
  - constructor; constructor.
  - destruct (Z.leb_spec (key y) (key x)) as [Hle|Hgt].
    + constructor; [constructor; assumption|].
      constructor; [exact Hle|].
      rewrite Forall_forall in *; intros z Hz; specialize (Hall z Hz); lia.
    + constructor; [exact IH|].
      rewrite Forall_forall in *; intros z Hz.
      apply insert_desc_In in Hz as [->|Hz]; [lia|auto].
Qed.

Lemma order_by_desc_sorted (l : list A) : newest_first key (order_by_desc key l).
Proof.
  induction l as [|x l IH]; simpl; [constructor|].
  now apply insert_desc_sorted.
Qed.

Lemma firstn_sorted (n : nat) (l : list A) :
  newest_first key l -> newest_first key (firstn n l).
Proof.
  unfold newest_first; intros H; revert n; induction H as [|y l Hs IH Hall]; intros [|n];
    simpl; try constructor; auto.
  rewrite Forall_forall in *; intros z Hz; apply Hall.
  eapply In_firstn; eauto.
Qed.

End Listings.

Lemma map_sorted {A B} (f : A -> B) (keyA : A -> Z) (keyB : B -> Z) (l : list A) :
  (forall a, keyB (f a) = keyA a) ->
  newest_first keyA l -> newest_first keyB (map f l).
Proof.
  intros Hk; unfold newest_first; induction 1 as [|y l Hs IH Hall]; simpl;
    constructor; auto.
  rewrite Forall_forall in *; intros z Hz.
  apply in_map_iff in Hz as (a & <- & Ha); rewrite !Hk; auto.
Qed.

(** X4. [Ban.listByCollection] never fails and never writes; it returns the
    bans of the group (only the active ones when asked), newest first, and
    at most 1000 of them: the older ones are cut off. *)
Theorem Ban_listByCollection_listing (collectionId : string) (onlyActive : bool) (w : World) :
  exists l,
    Ban.listByCollection collectionId onlyActive w = (Normal l, w)
    /\ length l
       = Nat.min 1000
           (length (filter (fun row => String.eqb (br_collectionId row) collectionId
                                       && (negb onlyActive || (br_active row =? 1)))
                           (bans (db w))))
    /\ Forall (fun b => exists row, In row (bans (db w)) /\ b = Ban.applyRow row
                                    /\ Ban._collectionId b = collectionId
                                    /\ (onlyActive = true -> Ban._active b = true)) l
    /\ newest_first Ban._timestamp l.
Proof.
  unfold Ban.listByCollection, bind, getDb, ret.
  destruct onlyActive; eexists; (split; [reflexivity|]); cbn [negb orb];
    (split; [|split]).
  - unfold limit; rewrite length_map, length_firstn, order_by_desc_length; reflexivity.
  - rewrite Forall_forall; intros b Hb.
    apply in_map_iff in Hb as (row & <- & Hrow).
    apply limit_In in Hrow; rewrite order_by_desc_In, filter_In in Hrow.
    destruct Hrow as [Hin Hf].
    apply andb_prop in Hf as [Hc Ha].
    apply String.eqb_eq in Hc.
    exists row; repeat split; auto.
  - apply map_sorted with (keyA := br_timestamp); [reflexivity|].
    apply firstn_sorted, order_by_desc_sorted.
  - unfold limit; rewrite length_map, length_firstn, order_by_desc_length.
    f_equal; f_equal; apply filter_ext; intros row; now rewrite andb_true_r.
  - rewrite Forall_forall; intros b Hb.
    apply in_map_iff in Hb as (row & <- & Hrow).
    apply limit_In in Hrow; rewrite order_by_desc_In, filter_In in Hrow.
    destruct Hrow as [Hin Hc].
    apply String.eqb_eq in Hc.
    exists row; repeat split; auto. discriminate.
  - apply map_sorted with (keyA := br_timestamp); [reflexivity|].
    apply firstn_sorted, order_by_desc_sorted.
Qed.

(** X5. [AuditLog.listByCollection] caps a non-negative limit at 500
    entries, but a negative limit lifts the cap altogether: every entry of
    the group is returned. *)
Theorem AuditLog_listByCollection_cap (collectionId : string) (limit_ : Z) (w : World) :
  exists l,
    AuditLog.listByCollection collectionId limit_ w = (Normal l, w)
    /\ (0 <= limit_ -> (length l <= 500)%nat /\ Z.of_nat (length l) <= limit_)
    /\ (limit_ < 0 ->
        length l = length (filter (fun row => String.eqb (ar_collectionId row) collectionId)
                                  (auditLogs (db w)))).
Proof.
  unfold AuditLog.listByCollection, bind, getDb, ret; cbv zeta.
  eexists; split; [reflexivity|]; split; intros Hl.
  - destruct (Z.ltb_spec (Z.min limit_ 500) 0) as [Hneg|_]; [lia|].
    unfold limit; rewrite length_map, length_firstn; lia.
  - destruct (Z.ltb_spec (Z.min limit_ 500) 0) as [_|Hpos]; [|lia].
    now rewrite length_map, order_by_desc_length.
Qed.

Lemma order_by_desc_head {A} (key : A -> Z) (l : list A) (x : A) (rest : list A) :
  order_by_desc key l = x :: rest ->
  In x l /\ forall y, In y l -> key y <= key x.
Proof.
  intros E.
  assert (Hs := order_by_desc_sorted key l); rewrite E in Hs.
  assert (Hin : forall y, In y l <-> In y (x :: rest))
    by (intros y; rewrite <- E; symmetry; apply order_by_desc_In).
  split; [apply Hin; now left|].
  intros y Hy; apply Hin in Hy as [<-|Hy]; [lia|].
  unfold newest_first in Hs; inversion Hs as [|? ? _ Hall]; subst.
  rewrite Forall_forall in Hall; auto.
Qed.

Lemma status_eqb_eq (a b : InviteStatus) : Invite.status_eqb a b = true <-> a = b.
Proof. destruct a, b; simpl; split; congruence. Qed.

Lemma open_invite_filter (targetGuildId : string) (now : Timestamp) (row : InviteRow) :
  String.eqb (ir_targetGuildId row) targetGuildId
  && Invite.status_eqb (ir_status row) pending
  && (now <? ir_expiresAt row) = true
  <-> open_invite_for targetGuildId now row.
Proof.
  unfold open_invite_for.
  rewrite !andb_true_iff, String.eqb_eq, status_eqb_eq, Z.ltb_lt; tauto.
Qed.

(** X6. [Invite.getPendingForGuild] looks for pending invites of the server
    whose expiry instant is strictly ahead.  It answers [null] exactly when
    every pending invite of the server has its expiry instant at or before
    now: an invite whose expiry instant is now is not returned, although
    [Invite.isExpired] does not call it expired yet.  Otherwise it returns
    such an invite, which [Invite.isExpired] calls unexpired, and no other
    one of the server was issued later. *)
Theorem getPendingForGuild_newest_open (targetGuildId : string) (w : World) :
  exists r,
    Invite.getPendingForGuild targetGuildId w = (Normal r, w)
    /\ (r = None
        <-> forall row, In row (invites (db w)) ->
                        ir_targetGuildId row = targetGuildId ->
                        ir_status row = pending ->
                        ir_expiresAt row <= clock w)
    /\ (forall row, In row (invites (db w)) ->
                    ir_targetGuildId row = targetGuildId ->
                    ir_status row = pending ->
                    ir_expiresAt row = clock w ->
                    Invite.isExpired (Invite.applyRow row) w = (Normal false, w)
                    /\ r <> Some (Invite.applyRow row))
    /\ match r with
       | None => True
       | Some i =>
           Invite.isExpired i w = (Normal false, w)
           /\ exists row, In row (invites (db w)) /\ i = Invite.applyRow row
                          /\ open_invite_for targetGuildId (clock w) row
                          /\ forall other, In other (invites (db w)) ->
                                           open_invite_for targetGuildId (clock w) other ->
                                           ir_invitedAt other <= ir_invitedAt row
       end.
Proof.
  unfold Invite.getPendingForGuild, bind, nowIso, getDb, ret.
  eexists; split; [reflexivity|].
  set (open := fun row => String.eqb (ir_targetGuildId row) targetGuildId
                          && Invite.status_eqb (ir_status row) pending
                          && (clock w <? ir_expiresAt row)).
  assert (Hlisted : forall row, In row (order_by_desc ir_invitedAt (filter open (invites (db w))))
                                <-> In row (invites (db w))
                                    /\ open_invite_for targetGuildId (clock w) row).
  { intros row; rewrite order_by_desc_In, filter_In.
    unfold open; now rewrite open_invite_filter. }
  destruct (order_by_desc ir_invitedAt (filter open (invites (db w)))) as [|row rest] eqn:E;
    cbn [limit firstn].
  - split; [|split; [|exact I]].
    + split; [|reflexivity].
      intros _ row Hin Ht Hs.
      destruct (Z.le_gt_cases (ir_expiresAt row) (clock w)) as [Hle|Hgt]; [exact Hle|].
      exfalso; apply (proj2 (Hlisted row)); repeat split; auto; lia.
    + intros row Hin Ht Hs He; split; [|discriminate].
      unfold Invite.isExpired, bind, nowIso, ret; cbn [Invite._expiresAt Invite.applyRow].
      rewrite He, Z.ltb_irrefl; reflexivity.
  - assert (Hrow : In row (invites (db w)) /\ open_invite_for targetGuildId (clock w) row)
      by (apply Hlisted; now left).
    destruct Hrow as (Hin & Ht & Hs & He).
    assert (Hfresh : Invite.isExpired (Invite.applyRow row) w = (Normal false, w)).
    { unfold Invite.isExpired, bind, nowIso, ret; cbn [Invite._expiresAt Invite.applyRow].
      assert (H : (ir_expiresAt row <? clock w) = false) by (apply Z.ltb_ge; lia).
      now rewrite H. }
    split; [|split; [|split; [exact Hfresh|]]].
    + split; [discriminate|].
      intros Hall; specialize (Hall row Hin Ht Hs); lia.
    + intros other Ho Hot Hos Hoe; split.
      * unfold Invite.isExpired, bind, nowIso, ret; cbn [Invite._expiresAt Invite.applyRow].
        rewrite Hoe, Z.ltb_irrefl; reflexivity.
      * intros Heq.
        assert (Hexp : Invite._expiresAt (Invite.applyRow row)
                       = Invite._expiresAt (Invite.applyRow other)) by congruence.
        cbn [Invite._expiresAt Invite.applyRow] in Hexp; lia.
    + exists row; split; [exact Hin|split; [reflexivity|split; [repeat split; auto|]]].
      apply order_by_desc_head in E as [_ Hmax].
      intros other Ho Hopen'; apply Hmax, filter_In; split; [exact Ho|].
      unfold open; now apply open_invite_filter.
Qed.

(* ------------------------------------------------------------------ *)
(** ** The group table *)

Lemma existsb_filter_negb {A} (f : A -> bool) (l : list A) :
  existsb f (filter (fun x => negb (f x)) l) = false.
Proof.
  apply not_true_is_false; intros H.
  apply existsb_exists in H as (x & Hin & Hx).
  apply filter_In in Hin as [_ Hn]; rewrite Hx in Hn; discriminate.
Qed.

Lemma filter_nil_existsb {A} (f : A -> bool) (l : list A) :
  filter f l = [] -> existsb f l = false.
Proof.
  intros E; apply not_true_is_false; intros H.
  apply existsb_exists in H as (x & Hin & Hx).
  assert (Hf : In x (filter f l)) by (apply filter_In; auto).
  rewrite E in Hf; exact Hf.
Qed.

Lemma with_db_same (w : World) : with_db (db w) w = w.
Proof. destruct w; reflexivity. Qed.

(** The three outcomes of [Collection.remove]. *)
Lemma Collection_remove_run (this : Collection.t) (w : World) :
  let id := Collection._id this in
  let invited := existsb (fun r => String.eqb (ir_collectionId r) id) (invites (db w)) in
  Collection.remove this w =
    if has_collection (db w) id
    then if invited
         then (Thrown (SqliteError "SQLITE_CONSTRAINT_FOREIGNKEY"), w)
         else (Normal tt, with_db (without_group id (db w)) w)
    else (Thrown (RecordNotFoundError (String.append "Collection not found: " id)), w).
Proof.
  cbv zeta.
  destruct (has_collection (db w) (Collection._id this)) eqn:Hc.
  - destruct (existsb _ (invites (db w))) eqn:Hi.
    + now apply Collection_remove_blocked_by_invite.
    + unfold Collection.remove, transaction, Collection.delete_row, bind, getDb, putDb; simpl.
      destruct (filter (fun row => String.eqb (cr_id row) (Collection._id this))
                       (collections (db w))) as [|v vs] eqn:Ev.
      { apply filter_nil_existsb in Ev; unfold has_collection in Hc; congruence. }
      unfold Collection.referenced; simpl.
      rewrite !(existsb_filter_negb (fun r => String.eqb (_ r) (Collection._id this))), Hi.
      reflexivity.
  - unfold Collection.remove, transaction, Collection.delete_row, bind, getDb, putDb; simpl.
    destruct (filter (fun row => String.eqb (cr_id row) (Collection._id this))
                     (collections (db w))) as [|v vs] eqn:Ev; simpl.
    + destruct w; reflexivity.
    + exfalso.
      assert (Hin : In v (filter (fun row => String.eqb (cr_id row) (Collection._id this))
                                 (collections (db w)))) by (rewrite Ev; now left).
      apply filter_In in Hin as [Hin Hid].
      unfold has_collection in Hc.
      assert (existsb (fun c => String.eqb (cr_id c) (Collection._id this))
                      (collections (db w)) = true) by (apply existsb_exists; eauto).
      congruence.
Qed.

(** X7. [Collection.remove] is all or nothing.  It succeeds exactly when
    the group exists and no invite row refers to it; it then deletes the
    group with its servers, bans, moderators and audit entries and touches
    nothing else.  When it throws, the world is as it was before. *)
Theorem Collection_remove_all_or_nothing (this : Collection.t) (w : World) :
  ((exists w', Collection.remove this w = (Normal tt, w'))
   <-> has_collection (db w) (Collection._id this) = true
       /\ forall r, In r (invites (db w)) -> ir_collectionId r <> Collection._id this)
  /\ (forall w', Collection.remove this w = (Normal tt, w') ->
                 w' = with_db (without_group (Collection._id this) (db w)) w)
  /\ (forall e w', Collection.remove this w = (Thrown e, w') -> w' = w).
Proof.
  rewrite Collection_remove_run; cbv zeta.
  destruct (has_collection (db w) (Collection._id this)) eqn:Hc.
  - destruct (existsb _ (invites (db w))) eqn:Hi.
    + split; [split|split].
      * intros (w' & E); discriminate.
      * intros (_ & Hno).
        apply existsb_exists in Hi as (r & Hin & Hr).
        apply String.eqb_eq in Hr; now apply Hno in Hin.
      * intros w' E; discriminate.
      * intros e w' E; now injection E as _ <-.
    + split; [split|split].
      * intros _; split; [reflexivity|].
        intros r Hin Hr.
        assert (existsb (fun r => String.eqb (ir_collectionId r) (Collection._id this))
                        (invites (db w)) = true)
          by (apply existsb_exists; exists r; split; [exact Hin|now apply String.eqb_eq]).
        congruence.
      * intros _; eexists; reflexivity.
      * intros w' E; now injection E as <-.
      * intros e w' E; discriminate.
  - split; [split|split].
    + intros (w' & E); discriminate.
    + intros (Hf & _); discriminate.
    + intros w' E; discriminate.
    + intros e w' E; now injection E as _ <-.
Qed.

Lemma find_snoc_fresh {A} (f : A -> bool) (l : list A) (x : A) :
  existsb f l = false -> f x = true -> find f (l ++ [x]) = Some x.
Proof.
  intros Hl Hx; rewrite find_append, (find_none_existsb _ _ Hl); simpl.
  now rewrite Hx.
Qed.

(** The four outcomes of [Collection.create]. *)
Lemma Collection_create_run (input : Collection.CollectionCreateInput) (w : World) :
  let row := created_row input w in
  let capacity := Collection.orElse (Collection.maxLinkedServers input) (Num 30) in
  Collection.create input w =
    if negb (isFinite capacity) || lessEqZero capacity
    then (Thrown (Error "maxLinkedServers must be a positive number"), after_draw w)
    else if existsb (fun r => String.eqb (cr_id r) (cr_id row)) (collections (db w))
    then (Thrown (SqliteError "SQLITE_CONSTRAINT_PRIMARYKEY"), after_draw w)
    else if existsb (fun r => String.eqb (cr_mainGuildId r) (cr_mainGuildId row))
                    (collections (db w))
    then (Thrown (SqliteError "SQLITE_CONSTRAINT_UNIQUE"), after_draw w)
    else (Normal (Collection.applyRow row), with_db (with_group row (db w)) (after_draw w)).
Proof.
  cbv zeta.
  unfold Collection.create, bind, newId, nowIso; cbn [db clock uuids drawn client trace].
  destruct (negb _ || _); [reflexivity|].
  unfold Collection.insert_row, bind, getDb; cbn [db clock uuids drawn client trace cr_id cr_mainGuildId created_row].
  destruct (existsb _ _) eqn:Hpk; [reflexivity|].
  destruct (existsb (fun r => String.eqb (cr_mainGuildId r) _) _); [reflexivity|].
  unfold putDb, Collection.getById, bind, getDb; cbn [db clock uuids drawn client trace collections].
  rewrite (find_snoc_fresh (fun r => String.eqb (cr_id r) (uuids w (drawn w))) _ _ Hpk)
    by apply String.eqb_refl.
  reflexivity.
Qed.

Lemma fromDbBool_toDbBool (b : bool) : fromDbBool (toDbBool b) = b.
Proof. destruct b; reflexivity. Qed.

(** X8. A group that [Collection.create] returns can be read back: looking
    it up by its owning server or by its id gives the very object that was
    returned.  It carries the input's owner server, logging switched on
    unless the input says otherwise, and a positive capacity, 30 when the
    input names none. *)
Theorem Collection_create_round_trip
        (input : Collection.CollectionCreateInput) (w w' : World) (c : Collection.t) :
  Collection.create input w = (Normal c, w') ->
  Collection.getByMainGuildId (Collection.mainGuildId input) w' = (Normal c, w')
  /\ Collection.getById (Collection._id c) w' = (Normal c, w')
  /\ Collection._mainGuildId c = Collection.mainGuildId input
  /\ Collection._loggingEnabledAtCollectionLevel c
     = Collection.orElse (Collection.loggingEnabledAtCollectionLevel input) true
  /\ 0 < Collection._maxLinkedServers c
  /\ (Collection.maxLinkedServers input = None -> Collection._maxLinkedServers c = 30).
Proof.
  rewrite Collection_create_run; cbv zeta.
  destruct (negb _ || _) eqn:Hv; [discriminate|].
  destruct (existsb _ _) eqn:Hpk; [discriminate|].
  destruct (existsb (fun r => String.eqb (cr_mainGuildId r) _) _) eqn:Hu; [discriminate|].
  intros E; injection E as <- <-.
  assert (Hid : Collection.getById (cr_id (created_row input w))
                  (with_db (with_group (created_row input w) (db w)) (after_draw w))
                = (Normal (Collection.applyRow (created_row input w)),
                   with_db (with_group (created_row input w) (db w)) (after_draw w))).
  { apply Collection_getById_run; cbn [with_db with_group db collections].
    apply find_snoc_fresh; [exact Hpk|apply String.eqb_refl]. }
  split; [|split; [exact Hid|]].
  - unfold Collection.getByMainGuildId, bind, getDb; cbn [with_db with_group db collections].
    rewrite (find_snoc_fresh
               (fun r => String.eqb (cr_mainGuildId r) (Collection.mainGuildId input)) _ _ Hu)
      by apply String.eqb_refl.
    exact Hid.
  - cbn [Collection.applyRow created_row Collection._mainGuildId
         Collection._loggingEnabledAtCollectionLevel Collection._maxLinkedServers
         cr_mainGuildId cr_loggingEnabledAtCollectionLevel cr_maxLinkedServers].
    rewrite fromDbBool_toDbBool.
    apply orb_false_elim in Hv as [Hfin Hpos].
    repeat split.
    + destruct (Collection.orElse (Collection.maxLinkedServers input) (Num 30));
        simpl in Hpos, Hfin; [apply Z.leb_gt in Hpos; exact Hpos|discriminate].
    + intros ->; reflexivity.
Qed.

Lemma Collection_create_round_trip_witness :
  exists c w',
    Collection.create Cases.alpha_input Scenario.w_empty = (Normal c, w')
    /\ Collection.getByMainGuildId Scenario.S1 w' = (Normal c, w')
    /\ Collection._maxLinkedServers c = 30.
Proof.
  exists (Collection.applyRow (created_row Cases.alpha_input Scenario.w_empty)).
  exists (with_db (with_group (created_row Cases.alpha_input Scenario.w_empty)
                              (db Scenario.w_empty))
                  (after_draw Scenario.w_empty)).
  assert (E : Collection.create Cases.alpha_input Scenario.w_empty
              = (Normal (Collection.applyRow (created_row Cases.alpha_input Scenario.w_empty)),
                 with_db (with_group (created_row Cases.alpha_input Scenario.w_empty)
                                     (db Scenario.w_empty))
                         (after_draw Scenario.w_empty)))
    by (vm_compute; reflexivity).
  destruct (Collection_create_round_trip _ _ E) as (H1 & _ & _ & _ & _ & H6).
  split; [exact E|split; [exact H1|apply H6; reflexivity]].
Defined.

Section TableInvariants.

Context {A : Type}.
Variables id key : A -> string.

Lemma NoDup_snoc {B} (l : list B) (x : B) : NoDup l -> ~ In x l -> NoDup (l ++ [x]).
Proof.
  intros Hl Hx.
  apply (Permutation_NoDup (Permutation_cons_append l x)).
  now constructor.
Qed.

Lemma not_In_map_existsb (k : string) (l : list A) :
  existsb (fun r => String.eqb (key r) k) l = false -> ~ In k (map key l).
Proof.
  intros Hex Hin; apply in_map_iff in Hin as (r & Hk & Hin).
  assert (existsb (fun r => String.eqb (key r) k) l = true)
    by (apply existsb_exists; exists r; split; [exact Hin|now apply String.eqb_eq]).
  congruence.
Qed.

Lemma NoDup_map_filter (p : A -> bool) (l : list A) :
  NoDup (map key l) -> NoDup (map key (filter p l)).
Proof.
  induction l as [|x l IH]; simpl; [auto|].
  intros Hnd; inversion Hnd as [|? ? Hx Hl]; subst.
  destruct (p x); simpl; [constructor|]; auto.
  intros Hin; apply Hx.
  apply in_map_iff in Hin as (y & Hy & Hin); apply filter_In in Hin as [Hin _].
  apply in_map_iff; eauto.
Qed.

(** Rewriting the row with id [i] so that its key becomes [k] keeps the
    keys unique when no other row carries [k]. *)
Lemma NoDup_map_update (upd : A -> A) (i k : string) (l : list A) :
  (forall x, key (upd x) = k) ->
  NoDup (map id l) -> NoDup (map key l) ->
  existsb (fun r => negb (String.eqb (id r) i) && String.eqb (key r) k) l = false ->
  NoDup (map key (map (fun r => if String.eqb (id r) i then upd r else r) l)).
Proof.
  intros Hupd; induction l as [|x l IH]; simpl; [constructor|].
  intros Hid Hkey Hex.
  inversion Hid as [|? ? Hxi Hli]; inversion Hkey as [|? ? Hxk Hlk]; subst.
  apply orb_false_elim in Hex as [Hx Hex].
  destruct (String.eqb_spec (id x) i) as [Hi|Hi]; simpl in Hx.
  - assert (Hsame : map (fun r => if String.eqb (id r) i then upd r else r) l = l).
    { rewrite <- (map_id l) at 2; apply map_ext_in; intros y Hy.
      destruct (String.eqb_spec (id y) i) as [Hyi|]; [|reflexivity].
      exfalso; apply Hxi; apply in_map_iff; exists y; split; [congruence|exact Hy]. }
    rewrite Hsame, Hupd; constructor; [|exact Hlk].
    intros Hin; apply in_map_iff in Hin as (y & Hy & Hin).
    assert (existsb (fun r => negb (String.eqb (id r) i) && String.eqb (key r) k) l = true).
    { apply existsb_exists; exists y; split; [exact Hin|].
      apply andb_true_intro; split; [|now apply String.eqb_eq].
      destruct (String.eqb_spec (id y) i) as [Hyi|]; [|reflexivity].
      exfalso; apply Hxi; apply in_map_iff; exists y; split; [congruence|exact Hin]. }
    congruence.
  - constructor; [|now apply IH].
    intros Hin; apply in_map_iff in Hin as (y' & Hy' & Hin).
    apply in_map_iff in Hin as (y & <- & Hin).
    destruct (String.eqb (id y) i).
    + rewrite Hupd in Hy'; subst k; rewrite String.eqb_refl in Hx; discriminate.
    + apply Hxk; apply in_map_iff; eauto.
Qed.

End TableInvariants.

Lemma Collection_remove_collections (this : Collection.t) (w : World) :
  collections (db (snd (Collection.remove this w))) = collections (db w)
  \/ collections (db (snd (Collection.remove this w)))
     = filter (fun r => negb (String.eqb (cr_id r) (Collection._id this))) (collections (db w)).
Proof.
  unfold Collection.remove, transaction, Collection.delete_row, bind, getDb, putDb; simpl.
  destruct (filter (fun row => String.eqb (cr_id row) (Collection._id this))
                   (collections (db w))); simpl; [now left|].
  destruct (Collection.referenced _ _); simpl; [now left|now right].
Qed.

Lemma Collection_save_collections (this : Collection.t) (w : World) :
  collections (db (snd (Collection.save this w))) = collections (db w)
  \/ (0 < Collection._maxLinkedServers this
      /\ existsb (fun r => negb (String.eqb (cr_id r) (Collection._id this))
                           && String.eqb (cr_mainGuildId r) (Collection._mainGuildId this))
                 (collections (db w)) = false
      /\ collections (db (snd (Collection.save this w)))
         = map (fun row => if String.eqb (cr_id row) (Collection._id this)
                           then Collection.updated_row this row else row)
               (collections (db w))).
Proof.
  unfold Collection.save, bind, getDb, putDb; cbv zeta.
  destruct (_ =? 0)%nat; [now left|].
  destruct (Z.leb_spec (Collection._maxLinkedServers this) 0); [now left|].
  destruct (existsb _ _) eqn:Hu; [now left|].
  right; simpl; auto.
Qed.

(** X9. The three operations that write the table of groups
    ([Collection.create], [Collection.save], [Collection.remove]) keep it
    well formed whatever their outcome: ids stay unique, no server owns two
    groups, and every capacity stays positive. *)
Theorem groups_stay_wellformed (w : World) :
  groups_wellformed (db w) ->
  (forall input, groups_wellformed (db (snd (Collection.create input w))))
  /\ (forall this, groups_wellformed (db (snd (Collection.save this w))))
  /\ (forall this, groups_wellformed (db (snd (Collection.remove this w)))).
Proof.
  intros (Hid & Hown & Hcap); repeat split.
  - rewrite Collection_create_run; cbv zeta.
    destruct (negb _ || _) eqn:Hv; [exact Hid|].
    destruct (existsb _ _) eqn:Hpk; [exact Hid|].
    destruct (existsb (fun r => String.eqb (cr_mainGuildId r) _) _); [exact Hid|].
    cbn [snd with_db with_group db collections]; rewrite map_app.
    apply NoDup_snoc; [exact Hid|now apply not_In_map_existsb].
  - rewrite Collection_create_run; cbv zeta.
    destruct (negb _ || _) eqn:Hv; [exact Hown|].
    destruct (existsb _ _) eqn:Hpk; [exact Hown|].
    destruct (existsb (fun r => String.eqb (cr_mainGuildId r) _) _) eqn:Hu; [exact Hown|].
    cbn [snd with_db with_group db collections]; rewrite map_app.
    apply NoDup_snoc; [exact Hown|now apply not_In_map_existsb].
  - rewrite Collection_create_run; cbv zeta.
    destruct (negb _ || _) eqn:Hv; [exact Hcap|].
    destruct (existsb _ _) eqn:Hpk; [exact Hcap|].
    destruct (existsb (fun r => String.eqb (cr_mainGuildId r) _) _); [exact Hcap|].
    cbn [snd with_db with_group db collections].
    apply Forall_app; split; [exact Hcap|constructor; [|constructor]].
    apply orb_false_elim in Hv as [Hfin Hpos]; cbn [created_row cr_maxLinkedServers].
    destruct (Collection.orElse (Collection.maxLinkedServers input) (Num 30));
      simpl in Hpos, Hfin; [now apply Z.leb_gt in Hpos|discriminate].
  - destruct (Collection_save_collections this w) as [->|(_ & _ & ->)]; [exact Hid|].
    rewrite map_map.
    erewrite map_ext; [exact Hid|].
    intros r; simpl; now destruct (String.eqb (cr_id r) (Collection._id this)).
  - destruct (Collection_save_collections this w) as [->|(_ & Hu & ->)]; [exact Hown|].
    apply NoDup_map_update with (k := Collection._mainGuildId this); auto.
  - destruct (Collection_save_collections this w) as [->|(Hpos & _ & ->)]; [exact Hcap|].
    rewrite Forall_forall in *; intros r Hin.
    apply in_map_iff in Hin as (r0 & <- & Hin).
    destruct (String.eqb (cr_id r0) (Collection._id this)); [exact Hpos|auto].
  - destruct (Collection_remove_collections this w) as [->| ->]; [exact Hid|].
    now apply NoDup_map_filter.
  - destruct (Collection_remove_collections this w) as [->| ->]; [exact Hown|].
    now apply NoDup_map_filter.
  - destruct (Collection_remove_collections this w) as [->| ->]; [exact Hcap|].
    rewrite Forall_forall in *; intros r Hin; apply filter_In in Hin as [Hin _]; auto.
Qed.

Lemma groups_stay_wellformed_witness :
  groups_wellformed
    (db (snd (Collection.create Cases.alpha_input Scenario.w_invited)))
  /\ groups_wellformed
       (db (snd (Collection.remove (Collection.applyRow Scenario.alpha) Scenario.w_two_channels))).
Proof.
  assert (H1 : groups_wellformed (db Scenario.w_invited)).
  { repeat split; simpl; repeat constructor; simpl; tauto || lia. }
  assert (H2 : groups_wellformed (db Scenario.w_two_channels)).
  { repeat split; simpl; repeat constructor; simpl; tauto || lia. }
  split.
  - apply (proj1 (groups_stay_wellformed Scenario.w_invited H1)).
  - apply (proj2 (proj2 (groups_stay_wellformed Scenario.w_two_channels H2))).
Defined.

(* ------------------------------------------------------------------ *)
(** ** The audit trail *)

Lemma AuditLog_create_run (params : AuditLog.AuditLogCreateInput) (w : World) :
  AuditLog.create params w =
    if existsb (fun r => String.eqb (ar_id r) (uuids w (drawn w))) (auditLogs (db w))
    then (Thrown (SqliteError "SQLITE_CONSTRAINT_PRIMARYKEY"), after_draw w)
    else if negb (has_collection (db w) (AuditLog.collectionId params))
    then (Thrown (SqliteError "SQLITE_CONSTRAINT_FOREIGNKEY"), after_draw w)
    else (Normal (AuditLog.applyRow (logged_row params w)),
          with_db (with_audit (logged_row params w) (db w)) (after_draw w)).
Proof.
  unfold AuditLog.create, AuditLog.insert_row, bind, newId, nowIso, getDb;
    cbn [db clock uuids drawn client trace ar_id ar_collectionId].
  destruct (existsb _ _) eqn:Hpk; [reflexivity|].
  destruct (negb _); [reflexivity|].
  unfold putDb, AuditLog.getById, bind, getDb; cbn [db clock uuids drawn client trace auditLogs].
  rewrite (find_snoc_fresh (fun r => String.eqb (ar_id r) (uuids w (drawn w))) _ _ Hpk)
    by apply String.eqb_refl.
  reflexivity.
Qed.

Lemma detached_notifications_run (a : AuditLog.t) (w : World) :
  exists w', detached (sendAuditLogNotifications a) w = (Normal tt, w')
             /\ only_trace w w' /\ trace_extends w w'.
Proof.
  destruct (detached_returns (sendAuditLogNotifications a) w) as (w' & E).
  exists w'; split; [exact E|split].
  - revert E; apply (preserves_try_catch (R := only_trace)); frames.
  - revert E; apply (preserves_try_catch (R := trace_extends)); frames.
Qed.

(** What [logAction] returns and writes. *)
Lemma logAction_run (params : AuditLog.AuditLogCreateInput) (w : World) :
  exists w',
    logAction params w
    = (Normal (if loggable params w then Some (AuditLog.applyRow (logged_row params w))
               else None), w')
    /\ db w' = (if loggable params w then with_audit (logged_row params w) (db w) else db w)
    /\ clock w' = clock w /\ uuids w' = uuids w /\ client w' = client w
    /\ drawn w' = S (drawn w)
    /\ trace_extends w w'.
Proof.
  unfold logAction, try_catch, bind, loggable.
  rewrite AuditLog_create_run.
  destruct (existsb _ _); cbn [negb andb].
  { eexists; split; [reflexivity|]; repeat split; exists []; now rewrite app_nil_r. }
  destruct (has_collection _ _); cbn [negb].
  - destruct (detached_notifications_run (AuditLog.applyRow (logged_row params w))
                (with_db (with_audit (logged_row params w) (db w)) (after_draw w)))
      as (w' & -> & (Hdb & Hck & Huu & Hdr & Hcl) & Htr).
    exists w'; split; [reflexivity|]; repeat split; auto.
  - eexists; split; [reflexivity|]; repeat split; exists []; now rewrite app_nil_r.
Qed.

(** X10. [logAction] only ever appends.  When it returns an entry, the
    audit table is the old one followed by exactly that entry, which
    [AuditLog.getById] reads back and which carries the caller's group and
    the current time; when it returns [null], the table is unchanged.  It
    returns an entry exactly when the fresh id is unused and the group
    exists. *)
Theorem logAction_appends_one_readable_entry
        (params : AuditLog.AuditLogCreateInput) (w : World) :
  exists r w',
    logAction params w = (Normal r, w')
    /\ (r = None <-> loggable params w = false)
    /\ match r with
       | Some entry =>
           exists row,
             auditLogs (db w') = auditLogs (db w) ++ [row]
             /\ entry = AuditLog.applyRow row
             /\ AuditLog.getById (AuditLog._id entry) w' = (Normal entry, w')
             /\ AuditLog._collectionId entry = AuditLog.collectionId params
             /\ AuditLog._performedAt entry = clock w
       | None => auditLogs (db w') = auditLogs (db w)
       end.
Proof.
  destruct (logAction_run params w) as (w' & E & Hdb & _).
  exists (if loggable params w then Some (AuditLog.applyRow (logged_row params w)) else None), w'.
  split; [exact E|].
  destruct (loggable params w) eqn:Hl.
  - split; [split; discriminate|].
    exists (logged_row params w); repeat split.
    + now rewrite Hdb.
    + unfold AuditLog.getById, bind, getDb; rewrite Hdb.
      cbn [with_audit auditLogs AuditLog.applyRow AuditLog._id logged_row].
      apply andb_prop in Hl as [Hfresh _]; apply negb_true_iff in Hfresh.
      rewrite (find_snoc_fresh (fun r => String.eqb (ar_id r) (uuids w (drawn w))) _ _ Hfresh)
        by apply String.eqb_refl.
      reflexivity.
  - split; [split; reflexivity|].
    now rewrite Hdb.
Qed.

Lemma without_group_with_audit (id : string) (row : AuditLogRow) (d : Db) :
  ar_collectionId row = id ->
  without_group id (with_audit row d) = without_group id d.
Proof.
  intros Hid; unfold without_group, with_audit; cbn [collections servers bans moderators auditLogs invites].
  rewrite filter_app; cbn [filter]; rewrite Hid, String.eqb_refl; cbn [negb].
  now rewrite app_nil_r.
Qed.

(** X11. Confirming [/collection-delete] removes the group exactly when it
    exists and no invite refers to it, and then nothing of the group is
    left, not even the audit entry that recorded the deletion.  The answer
    is "deleted" when the group was removed and the platform accepts that
    answer; when the platform rejects it the answer is "failed" although the
    group is gone.  When the group cannot be removed the answer is "failed"
    and nothing was deleted, yet for an existing group the audit log has
    gained a [collection.delete] entry. *)
Theorem confirm_delete_outcome
        (interaction : Interaction)
        (platform : Responder CollectionDeleteCommand.ConfirmReply)
        (collection : Collection.t) (serverCount : nat) (w : World) :
  let id := Collection._id collection in
  let deleted := CollectionDeleteCommand.Deleted (Collection._name collection) id in
  let removable :=
    has_collection (db w) id
    && negb (existsb (fun r => String.eqb (ir_collectionId r) id) (invites (db w))) in
  exists reply w',
    CollectionDeleteCommand.confirm interaction platform collection serverCount w
    = (Normal reply, w')
    /\ reply = (if removable && delivers platform deleted
                then deleted else CollectionDeleteCommand.FailedToDelete)
    /\ if removable
       then db w' = without_group id (db w)
       else audit_frame w w'
            /\ (has_collection (db w) id = true ->
                existsb (fun r => String.eqb (ar_id r) (uuids w (drawn w))) (auditLogs (db w))
                = false ->
                exists row, auditLogs (db w') = auditLogs (db w) ++ [row]
                            /\ ar_collectionId row = id
                            /\ ar_action row = collection_delete
                            /\ ar_performedBy row = i_userId interaction).
Proof.
  cbv zeta; unfold CollectionDeleteCommand.confirm.
  match goal with |- context [logAction ?p] => set (params := p) end.
  destruct (logAction_run params w) as (w1 & E1 & Hdb & Hck & Huu & Hcl & Hdr & Htr).
  assert (Hcols : collections (db w1) = collections (db w))
    by (rewrite Hdb; now destruct (loggable params w)).
  assert (Hinv : invites (db w1) = invites (db w))
    by (rewrite Hdb; now destruct (loggable params w)).
  assert (Hframe : audit_frame w w1).
  { unfold audit_frame; rewrite Hdb; destruct (loggable params w); repeat split; auto. }
  unfold try_catch, bind; rewrite E1, Collection_remove_run; cbv zeta.
  unfold has_collection; rewrite Hcols, Hinv.
  fold (has_collection (db w) (Collection._id collection)).
  destruct (has_collection (db w) (Collection._id collection)) eqn:Hc.
  - destruct (existsb _ (invites (db w))) eqn:Hi; cbn [negb andb].
    + eexists; eexists; split; [reflexivity|].
      split; [reflexivity|].
      split; [exact Hframe|].
      intros _ Hfresh.
      assert (Hl : loggable params w = true).
      { unfold loggable; rewrite Hfresh; subst params; cbn [AuditLog.collectionId].
        now rewrite Hc. }
      rewrite Hl in Hdb.
      exists (logged_row params w); rewrite Hdb; repeat split.
    + assert (Hgone : db (with_db (without_group (Collection._id collection) (db w1)) w1)
                      = without_group (Collection._id collection) (db w)).
      { cbn [with_db db]; rewrite Hdb.
        destruct (loggable params w); [|reflexivity].
        now apply without_group_with_audit. }
      unfold respond.
      destruct (delivers platform _);
        (eexists; eexists; split; [reflexivity|]; split; [reflexivity|exact Hgone]).
  - cbn [andb].
    eexists; eexists; split; [reflexivity|].
    split; [reflexivity|].
    split; [exact Hframe|discriminate].
Qed.

(* ------------------------------------------------------------------ *)
(** ** Ban records *)

(** X12. [Ban.create] either throws and leaves the database as it was
    (more than five evidence entries, an id already in use, or a group that
    does not exist), or appends one row and returns the record read back
    from it: at most five evidence entries, active unless the input says
    otherwise, stamped with the current time, and with the user-facing
    reason falling back to the internal one. *)
Theorem Ban_create_outcome (input : Ban.BanCreateInput) (w : World) :
  let '(r, w') := Ban.create input w in
  match r with
  | Thrown e =>
      db w' = db w
      /\ ((5 < length (Ban.orElse (Ban.evidence input) []))%nat
          \/ existsb (fun row => String.eqb (br_id row) (uuids w (drawn w))) (bans (db w)) = true
          \/ has_collection (db w) (Ban.collectionId input) = false)
  | Normal b =>
      (length (Ban._evidence b) <= 5)%nat
      /\ has_collection (db w) (Ban.collectionId input) = true
      /\ (exists row, bans (db w') = bans (db w) ++ [row] /\ b = Ban.applyRow row)
      /\ Ban.getById (Ban._id b) w' = (Normal b, w')
      /\ Ban._active b = Ban.orElse (Ban.active input) true
      /\ Ban._timestamp b = clock w
      /\ Ban._userFacingReason b
         = match Ban.userFacingReason input with
           | Some r => Some r
           | None => Ban.reason input
           end
  end.
Proof.
  unfold Ban.create, bind, newId, nowIso; cbn [db clock uuids drawn client trace].
  destruct (Nat.ltb_spec 5 (length (Ban.orElse (Ban.evidence input) []))) as [Hev|Hev].
  { cbn; auto. }
  unfold Ban.insert_row, bind, getDb; cbn [db clock uuids drawn client trace br_id br_collectionId].
  destruct (existsb _ _) eqn:Hpk; [cbn; auto|].
  destruct (has_collection _ _) eqn:Hc; cbn [negb]; [|cbn; auto].
  unfold putDb, Ban.getById, bind, getDb; cbn [db clock uuids drawn client trace bans].
  rewrite (find_snoc_fresh (fun r => String.eqb (br_id r) (uuids w (drawn w))) _ _ Hpk)
    by apply String.eqb_refl.
  cbn [ret fst snd Ban.applyRow Ban._evidence Ban._id Ban._active Ban._timestamp
       Ban._userFacingReason br_id br_evidenceJson br_active br_timestamp
       br_userFacingReason db bans].
  rewrite fromDbBool_toDbBool.
  repeat split; auto.
  - eexists; split; reflexivity.
  - rewrite (find_snoc_fresh (fun r => String.eqb (br_id r) (uuids w (drawn w))) _ _ Hpk)
      by apply String.eqb_refl.
    reflexivity.
Qed.

Lemma NoDup_map_same {A B} (f : A -> B) (l : list A) (a b : A) :
  NoDup (map f l) -> In a l -> In b l -> f a = f b -> a = b.
Proof.
  induction l as [|x l IH]; simpl; [tauto|].
  intros Hnd; inversion Hnd as [|? ? Hx Hl]; subst.
  intros [->|Ha] [->|Hb] E; auto.
  - exfalso; apply Hx; rewrite E; now apply in_map.
  - exfalso; apply Hx; rewrite <- E; now apply in_map.
Qed.

Lemma toDbBool_fromDbBool (v : Z) : db_bool v -> toDbBool (fromDbBool v) = v.
Proof. intros [->| ->]; reflexivity. Qed.

(** X13. Revoking a ban that was just read by its id clears the [active]
    flag of that one row and changes nothing else in the database: every
    other ban, and every other column of the revoked one, is as before.
    Revoking it once more changes nothing at all. *)
Theorem Ban_revoke_clears_only_active (id : string) (b : Ban.t) (w : World) :
  NoDup (map br_id (bans (db w))) ->
  (forall row, In row (bans (db w)) -> db_bool (br_privatiseReason row)) ->
  Ban.getById id w = (Normal b, w) ->
  has_collection (db w) (Ban._collectionId b) = true ->
  exists w',
    Ban.revoke b w = (Normal (Ban.set_active b false), w')
    /\ w' = with_db (mkDb (collections (db w)) (servers (db w))
                          (map (fun row => if String.eqb (br_id row) id
                                           then deactivated row else row) (bans (db w)))
                          (moderators (db w)) (auditLogs (db w)) (invites (db w))) w
    /\ Ban.revoke (Ban.set_active b false) w' = (Normal (Ban.set_active b false), w').
Proof.
  intros Hnd Hbool Hget Hcol.
  unfold Ban.getById, bind, getDb, ret in Hget.
  destruct (find _ _) as [row0|] eqn:Hf; [|discriminate].
  injection Hget as <-.
  apply find_some in Hf as [Hin0 Hid0]; apply String.eqb_eq in Hid0.
  set (b' := Ban.set_active (Ban.applyRow row0) false).
  assert (Hupd : forall row, In row (bans (db w)) -> br_id row = id ->
                             Ban.updated_row b' row = deactivated row).
  { intros row Hin Hid.
    assert (row = row0) by (apply (NoDup_map_same br_id _ _ _ Hnd Hin Hin0); congruence).
    subst row; unfold Ban.updated_row, deactivated, b'; cbn.
    now rewrite (toDbBool_fromDbBool (Hbool _ Hin0)). }
  assert (Hmap : map (fun row => if String.eqb (br_id row) (Ban._id b')
                                 then Ban.updated_row b' row else row) (bans (db w))
                 = map (fun row => if String.eqb (br_id row) id
                                   then deactivated row else row) (bans (db w))).
  { apply map_ext_in; intros row Hin; cbn [b' Ban._id Ban.set_active Ban.applyRow].
    rewrite Hid0.
    destruct (String.eqb_spec (br_id row) id) as [Hid|]; [now apply Hupd|reflexivity]. }
  assert (Hhit : forall l x, In x l -> br_id x = id ->
                             (length (filter (fun row => String.eqb (br_id row) (Ban._id b')) l)
                              =? 0)%nat = false).
  { intros l x Hin Hx; apply Nat.eqb_neq.
    assert (Hb : String.eqb (br_id x) (Ban._id b') = true)
      by (apply String.eqb_eq; cbn [b' Ban._id Ban.set_active Ban.applyRow]; congruence).
    pose proof (filter_nonempty (fun r => String.eqb (br_id r) (Ban._id b')) l x Hin Hb); lia. }
  eexists; split; [|split; [reflexivity|]].
  - unfold Ban.revoke, Ban.save, bind, getDb, putDb; fold b'.
    rewrite (Hhit _ row0 Hin0 Hid0).
    change (Ban._collectionId b') with (Ban._collectionId (Ban.applyRow row0)).
    rewrite Hcol; cbn [negb]; rewrite Hmap; reflexivity.
  - unfold Ban.revoke, Ban.save, bind, getDb, putDb; fold b'.
    change (Ban.set_active b' false) with b'.
    cbn [with_db db clock uuids drawn client trace bans collections servers moderators
         auditLogs invites].
    unfold has_collection in *; cbn [collections].
    change (Ban._collectionId b') with (Ban._collectionId (Ban.applyRow row0)).
    rewrite Hcol; cbn [negb].
    rewrite (Hhit _ (deactivated row0)); [|
      apply in_map_iff; exists row0; split; [|exact Hin0];
      rewrite Hid0, String.eqb_refl; reflexivity
      | exact Hid0].
    rewrite map_map.
    assert (Hagain : map (fun row => if String.eqb
                                         (br_id (if String.eqb (br_id row) id
                                                 then deactivated row else row))
                                         (Ban._id b')
                                     then Ban.updated_row b'
                                            (if String.eqb (br_id row) id
                                             then deactivated row else row)
                                     else if String.eqb (br_id row) id
                                          then deactivated row else row)
                         (bans (db w))
                     = map (fun row => if String.eqb (br_id row) id
                                       then deactivated row else row) (bans (db w))).
    { apply map_ext_in; intros row Hin.
      cbn [b' Ban._id Ban.set_active Ban.applyRow]; rewrite Hid0.
      destruct (String.eqb_spec (br_id row) id) as [Hid|Hid].
      - cbn [deactivated br_id]; rewrite <- Hid at 1; rewrite String.eqb_refl.
        rewrite <- (Hupd row Hin Hid); reflexivity.
      - apply String.eqb_neq in Hid; rewrite Hid; reflexivity. }
    rewrite Hagain; reflexivity.
Qed.

Lemma Ban_revoke_clears_only_active_witness :
  exists w',
    Ban.revoke Scenario.ban_U1 Scenario.w_one_left
    = (Normal (Ban.set_active Scenario.ban_U1 false), w')
    /\ w' = with_db (mkDb (collections (db Scenario.w_one_left))
                          (servers (db Scenario.w_one_left))
                          (map (fun row => if String.eqb (br_id row) "b-1"
                                           then deactivated row else row)
                               (bans (db Scenario.w_one_left)))
                          (moderators (db Scenario.w_one_left))
                          (auditLogs (db Scenario.w_one_left))
                          (invites (db Scenario.w_one_left))) Scenario.w_one_left
    /\ Ban.revoke (Ban.set_active Scenario.ban_U1 false) w'
       = (Normal (Ban.set_active Scenario.ban_U1 false), w').
Proof.
  apply (@Ban_revoke_clears_only_active "b-1" Scenario.ban_U1 Scenario.w_one_left).
  - simpl; repeat constructor; simpl; tauto.
  - simpl; intros row [<-|[]]; right; reflexivity.
  - reflexivity.
  - reflexivity.
Defined.

(* ------------------------------------------------------------------ *)
(** ** Joining a group *)

Lemma Server_add_run (input : Server.ServerAddInput) (w : World) :
  let row := added_row input w in
  Server.add input w =
    if existsb (fun r => String.eqb (sr_id r) (sr_id row)) (servers (db w))
    then (Thrown (SqliteError "SQLITE_CONSTRAINT_PRIMARYKEY"), after_draw w)
    else if existsb (fun r => String.eqb (sr_collectionId r) (sr_collectionId row)
                              && String.eqb (sr_guildId r) (sr_guildId row)) (servers (db w))
    then (Thrown (SqliteError "SQLITE_CONSTRAINT_UNIQUE"), after_draw w)
    else if negb (has_collection (db w) (sr_collectionId row))
    then (Thrown (SqliteError "SQLITE_CONSTRAINT_FOREIGNKEY"), after_draw w)
    else (Normal (Server.applyRow row), with_db (with_server row (db w)) (after_draw w)).
Proof.
  cbv zeta.
  unfold Server.add, Server.insert_row, bind, newId, nowIso, getDb;
    cbn [db clock uuids drawn client trace sr_id sr_collectionId sr_guildId added_row].
  destruct (existsb _ _) eqn:Hpk; [reflexivity|].
  destruct (existsb (fun r => _ && _) _); [reflexivity|].
  destruct (negb _); [reflexivity|].
  unfold putDb, Server.getById, bind, getDb; cbn [db clock uuids drawn client trace servers].
  rewrite (find_snoc_fresh (fun r => String.eqb (sr_id r) (uuids w (drawn w))) _ _ Hpk)
    by apply String.eqb_refl.
  reflexivity.
Qed.

Lemma Invite_accept_run (this : Invite.t) (w : World) :
  existsb (fun row => String.eqb (ir_id row) (Invite._id this)) (invites (db w)) = true ->
  Invite.accept this w
  = (Normal (Invite.mk (Invite._id this) (Invite._collectionId this)
                       (Invite._targetGuildId this) (Invite._invitedBy this)
                       (Invite._invitedAt this) (Invite._expiresAt this)
                       accepted (Some (clock w))),
     with_db (answered (Invite._id this) accepted (Some (clock w)) (db w)) w).
Proof.
  intros Hex.
  unfold Invite.accept, Invite.save, bind, nowIso, getDb, putDb;
    cbn [Invite._id Invite._status Invite._respondedAt db clock uuids drawn client trace].
  apply existsb_exists in Hex as (row & Hin & Hid).
  pose proof (filter_nonempty (fun r => String.eqb (ir_id r) (Invite._id this)) _ _ Hin Hid) as Hn.
  destruct (Nat.eqb_spec (length (filter (fun r => String.eqb (ir_id r) (Invite._id this))
                                         (invites (db w)))) 0) as [Hz|_]; [lia|].
  reflexivity.
Qed.

Lemma Server_getByGuildId_found (guildId : string) (w : World) (row : ServerRow) :
  find (enabled_in guildId) (servers (db w)) = Some row ->
  exists s, Server.getByGuildId guildId w = (Normal s, w).
Proof.
  intros Hf; unfold Server.getByGuildId, bind, getDb.
  change (fun row => String.eqb (sr_guildId row) guildId && (sr_enabled row =? 1))
    with (enabled_in guildId).
  rewrite Hf.
  apply find_some in Hf as [Hin _].
  destruct (find_first (fun r => String.eqb (sr_id r) (sr_id row)) _ row Hin
                       (String.eqb_refl _)) as (row' & E' & _).
  unfold Server.getById, bind, getDb; rewrite E'; eexists; reflexivity.
Qed.

Lemma already_joined_run (guildId : string) (w : World) :
  try_catch (Server.getByGuildId guildId ;;; ret true)
            (fun error => match error with
                          | RecordNotFoundError _ => ret false
                          | _ => throw error
                          end) w
  = (Normal (match find (enabled_in guildId) (servers (db w)) with
             | Some _ => true
             | None => false
             end), w).
Proof.
  destruct (find (enabled_in guildId) (servers (db w))) as [row|] eqn:Hf.
  - destruct (Server_getByGuildId_found guildId w Hf) as (s & Hs).
    apply try_catch_normal; now rewrite (bind_normal _ _ _ Hs).
  - destruct (Server_getByGuildId_none w guildId Hf) as (msg & Hs).
    erewrite try_catch_thrown by (erewrite bind_thrown by exact Hs; reflexivity).
    reflexivity.
Qed.

Lemma group_of_invite_run (id : string) (w : World) :
  try_catch (c <- Collection.getById id ;; ret (Some c)) (fun _ => ret None) w
  = (Normal (option_map Collection.applyRow
               (find (fun r => String.eqb (cr_id r) id) (collections (db w)))), w).
Proof.
  unfold try_catch, Collection.getById, bind, getDb.
  destruct (find _ _); reflexivity.
Qed.

(** The runs of [acceptInvite]: either nothing is written and the reply is
    not "joined", or all checks passed and the server row was added, the
    invite answered and two audit entries attempted. *)
Lemma acceptInvite_cases (interaction : Interaction) (guildId : string) (invite : Invite.t)
      (syncOnJoin : bool) (w : World) r w' :
  CollectionJoinCommand.acceptInvite interaction guildId invite syncOnJoin w = (r, w') ->
  (db w' = db w
   /\ (forall s, r <> Normal (CollectionJoinCommand.Joined s))
   /\ (forall reply, r = Normal reply -> w' = w))
  \/ (exists irow c w1,
         find (fun r => String.eqb (ir_id r) (Invite._id invite)) (invites (db w)) = Some irow
         /\ ir_status irow = pending
         /\ clock w <= ir_expiresAt irow
         /\ find (enabled_in guildId) (servers (db w)) = None
         /\ find (fun r => String.eqb (cr_id r) (ir_collectionId irow)) (collections (db w))
            = Some c
         /\ Z.of_nat (length (filter (fun r => String.eqb (sr_collectionId r) (cr_id c))
                                     (servers (db w))))
            < cr_maxLinkedServers c
         /\ (let row := added_row (Server.mkInput guildId (cr_id c) (i_userId interaction)
                                                  None (Some syncOnJoin) None) w in
             existsb (fun r => String.eqb (sr_id r) (sr_id row)) (servers (db w)) = false
             /\ r = Normal (CollectionJoinCommand.Joined (Server.applyRow row))
             /\ w1 = with_db (answered (ir_id irow) accepted (Some (clock w))
                                       (with_server row (db w)))
                             (after_draw w))
         /\ audit_frame w1 w').
Proof.
  unfold CollectionJoinCommand.acceptInvite.
  intros E.
  apply bind_inv in E as [(inv1 & w1 & E1 & E)|(e & E1 & ->)]; cycle 1.
  { left. unfold Invite.reload, bind, getDb in E1.
    destruct (find _ _); inversion E1; subst; repeat split; intros; discriminate. }
  unfold Invite.reload, bind, getDb in E1.
  destruct (find _ (invites (db w))) as [irow|] eqn:Hirow; [|discriminate].
  unfold ret in E1; injection E1 as <- <-.
  apply bind_inv in E as [(ex & w1 & E1 & E)|(e & E1 & _)]; [|discriminate E1].
  unfold Invite.isExpired, bind, nowIso, ret in E1; injection E1 as <- <-.
  cbn [Invite._status Invite._expiresAt Invite._collectionId Invite._id Invite.applyRow] in E.
  destruct (ir_status irow) eqn:Hst; cbn [Invite.status_eqb negb orb] in E;
    try (left; unfold ret in E; injection E as <- <-;
         repeat split; intros; discriminate || reflexivity).
  destruct (Z.ltb_spec (ir_expiresAt irow) (clock w)) as [Hexp|Hexp];
    [left; unfold ret in E; injection E as <- <-;
     repeat split; intros; discriminate || reflexivity|].
  rewrite (bind_normal _ _ _ (already_joined_run guildId w)) in E.
  destruct (find (enabled_in guildId) (servers (db w))) as [srow|] eqn:Hsrv;
    [left; unfold ret in E; injection E as <- <-;
     repeat split; intros; discriminate || reflexivity|].
  rewrite (bind_normal _ _ _ (group_of_invite_run (ir_collectionId irow) w)) in E.
  destruct (find _ (collections (db w))) as [c|] eqn:Hc; cbn [option_map] in E;
    [|left; unfold ret in E; injection E as <- <-;
      repeat split; intros; discriminate || reflexivity].
  rewrite (bind_normal _ _ _ (Server_listByCollection_run w _)) in E.
  rewrite length_map, order_by_desc_length in E.
  cbn [Collection._id Collection._maxLinkedServers Collection.applyRow] in E.
  destruct (Z.leb_spec (cr_maxLinkedServers c)
              (Z.of_nat (length (filter (fun r => String.eqb (sr_collectionId r) (cr_id c))
                                        (servers (db w)))))) as [Hcap|Hcap];
    [left; unfold ret in E; injection E as <- <-;
     repeat split; intros; discriminate || reflexivity|].
  assert (Hinv : existsb (fun row => String.eqb (ir_id row) (ir_id irow)) (invites (db w)) = true).
  { apply find_some in Hirow as [Hin _].
    apply existsb_exists; exists irow; split; [exact Hin|apply String.eqb_refl]. }
  apply bind_inv in E as [(server & w2 & E1 & E)|(e & E1 & ->)];
    rewrite Server_add_run in E1; cbv zeta in E1;
    destruct (existsb (fun r => String.eqb (sr_id r) _) (servers (db w))) eqn:Hpk;
    try destruct (existsb (fun r => _ && _) (servers (db w))) eqn:Hun;
    try destruct (negb (has_collection (db w) _)) eqn:Hfk;
    try discriminate E1;
    try (left; injection E1 as <- <-; repeat split; intros; discriminate).
  injection E1 as <- <-.
  apply bind_inv in E as [(inv2 & w3 & E2 & E)|(e & E2 & ->)];
    rewrite Invite_accept_run in E2 by exact Hinv; [|discriminate E2].
  injection E2 as <- <-.
  apply bind_inv in E as [(a1 & w4 & E3 & E)|(e & E3 & ->)]; cycle 1.
  { exfalso.
    match type of E3 with logAction ?p ?w0 = _ =>
      destruct (logAction_returns p w0) as (r0 & w0' & H0) end.
    congruence. }
  apply bind_inv in E as [(a2 & w5 & E4 & E)|(e & E4 & ->)]; cycle 1.
  { exfalso.
    match type of E4 with logAction ?p ?w0 = _ =>
      destruct (logAction_returns p w0) as (r0 & w0' & H0) end.
    congruence. }
  unfold ret in E; injection E as <- <-.
  right; exists irow, c; eexists.
  do 6 (split; [solve [auto]|]).
  split; [cbv zeta; repeat split; auto|].
  eapply frame_trans; [exact (logAction_audit_frame _ _ E3)|exact (logAction_audit_frame _ _ E4)].
Qed.

Lemma find_map_preserving {A} (f : A -> bool) (upd : A -> A) (l : list A) :
  (forall x, f (upd x) = f x) ->
  find f (map upd l) = option_map upd (find f l).
Proof.
  intros Hf; induction l as [|x l IH]; simpl; [reflexivity|].
  rewrite Hf; destruct (f x); [reflexivity|exact IH].
Qed.

(** X14. When [acceptInvite] answers "joined", the membership it returns is
    the one [Server.getByGuildId] now finds for the server: enabled, in the
    group of the invite, with the chosen sync option.  The invite is read
    back as accepted, and accepting it once more is refused as no longer
    valid without writing anything. *)
Theorem acceptInvite_joined_round_trip
        (interaction : Interaction) (guildId : string) (invite : Invite.t)
        (syncOnJoin : bool) (w w' : World) (s : Server.t) :
  CollectionJoinCommand.acceptInvite interaction guildId invite syncOnJoin w
  = (Normal (CollectionJoinCommand.Joined s), w') ->
  Server.getByGuildId guildId w' = (Normal s, w')
  /\ Server._guildId s = guildId
  /\ Server._enabled s = true
  /\ Server._syncOnJoin s = syncOnJoin
  /\ (exists i, Invite.reload invite w' = (Normal i, w')
                /\ Invite._status i = accepted
                /\ Invite._respondedAt i = Some (clock w)
                /\ Invite._collectionId i = Server._collectionId s)
  /\ forall interaction' syncOnJoin',
       CollectionJoinCommand.acceptInvite interaction' guildId invite syncOnJoin' w'
       = (Normal CollectionJoinCommand.InviteNoLongerValid, w').
Proof.
  intros E.
  apply acceptInvite_cases in E as [(_ & Hno & _)|(irow & c & w1 & Hi & Hst & Hexp & Hsrv & Hc
                                                   & Hcap & (Hpk & Hr & Hw1) & Hframe)].
  { exfalso; eapply Hno; reflexivity. }
  injection Hr as ->.
  destruct Hframe as (_ & Hservers & _ & _ & Hinvites & _).
  subst w1; cbn [with_db answered with_server db servers invites] in Hservers, Hinvites.
  set (row := added_row _ w) in *.
  assert (Hid : ir_id irow = Invite._id invite)
    by (apply find_some in Hi as [_ Hi]; now apply String.eqb_eq in Hi).
  assert (Hgroup : cr_id c = ir_collectionId irow)
    by (apply find_some in Hc as [_ Hc]; now apply String.eqb_eq in Hc).
  assert (Hreload : Invite.reload invite w'
                    = (Normal (Invite.mk (ir_id irow) (ir_collectionId irow)
                                         (ir_targetGuildId irow) (ir_invitedBy irow)
                                         (ir_invitedAt irow) (ir_expiresAt irow)
                                         accepted (Some (clock w))), w')).
  { unfold Invite.reload, bind, getDb; rewrite Hinvites, <- Hid.
    rewrite find_map_preserving
      by (intros x; destruct (String.eqb (ir_id x) (ir_id irow)) eqn:Hx; cbn [ir_id]; exact Hx).
    rewrite Hid, Hi; cbn [option_map]; rewrite <- Hid, String.eqb_refl; reflexivity. }
  split; [|split; [reflexivity|split; [reflexivity|split; [|split]]]].
  - unfold Server.getByGuildId, bind, getDb; rewrite Hservers.
    change (fun r => String.eqb (sr_guildId r) guildId && (sr_enabled r =? 1))
      with (enabled_in guildId).
    rewrite find_append, Hsrv; cbn [find].
    assert (Hen : enabled_in guildId row = true)
      by (unfold enabled_in, row; cbn; now rewrite String.eqb_refl).
    rewrite Hen.
    unfold Server.getById, bind, getDb; rewrite Hservers.
    rewrite (find_snoc_fresh (fun r => String.eqb (sr_id r) (sr_id row)) _ _ Hpk)
      by apply String.eqb_refl.
    reflexivity.
  - unfold row; cbn; now destruct syncOnJoin.
  - eexists; split; [exact Hreload|]; repeat split.
    unfold row; cbn; congruence.
  - intros interaction' syncOnJoin'.
    unfold CollectionJoinCommand.acceptInvite.
    rewrite (bind_normal _ _ _ Hreload).
    unfold Invite.isExpired, bind, nowIso, ret; reflexivity.
Qed.

Lemma acceptInvite_joined_round_trip_witness :
  let run := CollectionJoinCommand.acceptInvite Cases.S4_admin Scenario.S4 Scenario.invite_S4
                                                 true Cases.w_inviting in
  exists s, fst run = Normal (CollectionJoinCommand.Joined s)
            /\ Server.getByGuildId Scenario.S4 (snd run) = (Normal s, snd run).
Proof.
  intros run.
  set (s0 := Server.applyRow
               (added_row (Server.mkInput Scenario.S4 "c-alpha" (i_userId Cases.S4_admin)
                                          None (Some true) None) Cases.w_inviting)).
  assert (E : run = (Normal (CollectionJoinCommand.Joined s0), snd run))
    by (vm_compute; reflexivity).
  exists s0; split; [exact (f_equal fst E)|].
  exact (proj1 (@acceptInvite_joined_round_trip Cases.S4_admin Scenario.S4 Scenario.invite_S4
                  true Cases.w_inviting (snd run) s0 E)).
Defined.

Lemma filter_nil_find {A} (f : A -> bool) (l : list A) :
  find f l = None -> filter f l = [].
Proof.
  induction l as [|x l IH]; simpl; [reflexivity|].
  destruct (f x); [discriminate|exact IH].
Qed.

(** X15. [acceptInvite] keeps the membership table well formed, whatever
    its outcome: no server becomes an enabled member of two groups and no
    group exceeds its capacity.  Unless it answers "joined", the database is
    left as it was. *)
Theorem acceptInvite_keeps_memberships_wellformed
        (interaction : Interaction) (guildId : string) (invite : Invite.t)
        (syncOnJoin : bool) (w : World) r w' :
  NoDup (map cr_id (collections (db w))) ->
  single_membership (db w) ->
  within_capacity (db w) ->
  CollectionJoinCommand.acceptInvite interaction guildId invite syncOnJoin w = (r, w') ->
  single_membership (db w')
  /\ within_capacity (db w')
  /\ ((forall s, r <> Normal (CollectionJoinCommand.Joined s)) -> db w' = db w).
Proof.
  intros Hnd Hsingle Hcapacity E.
  apply acceptInvite_cases in E as [(Hdb & Hno & _)|(irow & c & w1 & Hi & Hst & Hexp & Hsrv & Hc
                                                     & Hcap & (Hpk & Hr & Hw1) & Hframe)].
  { rewrite Hdb; auto. }
  destruct Hframe as (Hcols & Hservers & _).
  subst w1; cbn [with_db answered with_server db servers collections] in Hservers, Hcols.
  set (row := added_row _ w) in *.
  split; [|split].
  - intros g; rewrite Hservers, filter_app, length_app; cbn [filter].
    destruct (enabled_in g row) eqn:Hen.
    + apply andb_prop in Hen as [Hg _]; apply String.eqb_eq in Hg.
      cbn in Hg; subst g.
      rewrite (filter_nil_find _ _ Hsrv); simpl; lia.
    + specialize (Hsingle g); simpl; lia.
  - intros c' Hin; rewrite Hcols in Hin; rewrite Hservers, filter_app, length_app; cbn [filter].
    destruct (String.eqb_spec (sr_collectionId row) (cr_id c')) as [Hsame|_].
    + apply find_some in Hc as [Hinc _].
      assert (c' = c) by (apply (NoDup_map_same cr_id _ _ _ Hnd Hin Hinc); now rewrite <- Hsame).
      subst c'; simpl; lia.
    + specialize (Hcapacity c' Hin); simpl; lia.
  - intros Hno; exfalso; eapply Hno; exact Hr.
Qed.

Lemma acceptInvite_keeps_memberships_wellformed_witness :
  let run := CollectionJoinCommand.acceptInvite Cases.S4_admin Scenario.S4 Scenario.invite_S4
                                                 true Cases.w_inviting in
  single_membership (db (snd run)) /\ within_capacity (db (snd run)).
Proof.
  intros run.
  assert (H : single_membership (db (snd run)) /\ within_capacity (db (snd run))
              /\ ((forall s, fst run <> Normal (CollectionJoinCommand.Joined s)) ->
                  db (snd run) = db Cases.w_inviting)).
  { apply (@acceptInvite_keeps_memberships_wellformed
             Cases.S4_admin Scenario.S4 Scenario.invite_S4 true Cases.w_inviting
             (fst run) (snd run)).
    - simpl; repeat constructor; simpl; tauto.
    - intros g; simpl; destruct (enabled_in g _); simpl; lia.
    - intros c [<-|[]]; vm_compute; discriminate.
    - apply surjective_pairing. }
  split; [exact (proj1 H)|exact (proj1 (proj2 H))].
Defined.

(* ------------------------------------------------------------------ *)
(** ** Leaving a group *)

Lemma length_le_1_same {A} (l : list A) (a b : A) :
  (length l <= 1)%nat -> In a l -> In b l -> a = b.
Proof.
  destruct l as [|x [|y l]]; simpl; intros Hl Ha Hb; try lia; try tauto.
  destruct Ha as [<-|[]]; destruct Hb as [<-|[]]; reflexivity.
Qed.

Lemma single_membership_of_NoDup (d : Db) :
  NoDup (map sr_guildId (filter (fun r => sr_enabled r =? 1) (servers d))) ->
  single_membership d.
Proof.
  intros Hnd g; induction (servers d) as [|x l IH]; simpl in *; [lia|].
  unfold enabled_in at 1.
  destruct (sr_enabled x =? 1) eqn:Hen; simpl in Hnd.
  - inversion Hnd as [|? ? Hx Hl]; subst.
    destruct (String.eqb_spec (sr_guildId x) g) as [Hg|Hg]; simpl; [|auto].
    destruct (filter (enabled_in g) l) as [|y l'] eqn:Hf; [simpl; lia|].
    exfalso; apply Hx.
    assert (Hy : In y (filter (enabled_in g) l)) by (rewrite Hf; now left).
    apply filter_In in Hy as [Hy Hey]; apply andb_prop in Hey as [Hgy Heny].
    apply String.eqb_eq in Hgy.
    apply in_map_iff; exists y; split; [congruence|].
    apply filter_In; auto.
  - rewrite andb_false_r; auto.
Qed.

(** X16. [Server.remove] is a soft delete that blocks a return.  For a
    server that is an enabled member of a group: the row is kept (so it
    still counts towards the capacity), [Server.getByGuildId] no longer
    finds a membership of the server, and adding the server to the same
    group again is rejected by the database. *)
Theorem soft_removed_server_cannot_rejoin (guildId : string) (s : Server.t) (w : World) :
  members_wellformed (db w) ->
  Server.getByGuildId guildId w = (Normal s, w) ->
  exists s' w1,
    Server.remove s w = (Normal s', w1)
    /\ Server._enabled s' = false
    /\ map sr_id (servers (db w1)) = map sr_id (servers (db w))
    /\ (exists msg, Server.getByGuildId guildId w1 = (Thrown (RecordNotFoundError msg), w1))
    /\ forall addedBy channel sync enabled,
         exists code,
           Server.add (Server.mkInput guildId (Server._collectionId s) addedBy channel
                                      sync enabled) w1
           = (Thrown (SqliteError code), after_draw w1).
Proof.
  intros (Hids & Hpairs & Hfk & Hsingle) Hget.
  unfold Server.getByGuildId, bind, getDb in Hget.
  change (fun row => String.eqb (sr_guildId row) guildId && (sr_enabled row =? 1))
    with (enabled_in guildId) in Hget.
  destruct (find (enabled_in guildId) (servers (db w))) as [row|] eqn:Hrow; [|discriminate].
  apply find_some in Hrow as [Hin Hen].
  unfold Server.getById, bind, getDb in Hget.
  destruct (find _ (servers (db w))) as [row'|] eqn:Hrow'; [|discriminate].
  apply find_some in Hrow' as [Hin' Hid']; apply String.eqb_eq in Hid'.
  assert (row' = row) by (apply (NoDup_map_same sr_id _ _ _ Hids Hin' Hin Hid')).
  subst row'; unfold ret in Hget; injection Hget as <-.
  pose proof Hen as Hen'; apply andb_prop in Hen' as [Hg Hon]; apply String.eqb_eq in Hg.
  set (this' := Server.mk (sr_id row) (sr_guildId row) (sr_collectionId row) (sr_addedAt row)
                          (sr_addedBy row) (sr_loggingChannelId row)
                          (fromDbBool (sr_syncOnJoin row)) false).
  set (upd := fun r => if String.eqb (sr_id r) (sr_id row)
                       then Server.updated_row this' r else r).
  assert (Hrun : Server.remove (Server.applyRow row) w
                 = (Normal this',
                    with_db (mkDb (collections (db w)) (map upd (servers (db w)))
                                  (bans (db w)) (moderators (db w)) (auditLogs (db w))
                                  (invites (db w))) w)).
  { unfold Server.remove, Server.save, bind, getDb, putDb;
      cbn [Server.applyRow Server._id Server._guildId Server._collectionId Server._addedAt
           Server._addedBy Server._loggingChannelId Server._syncOnJoin Server._enabled].
    fold this'.
    pose proof (filter_nonempty (fun r => String.eqb (sr_id r) (sr_id row)) _ _ Hin
                                (String.eqb_refl _)) as Hn.
    destruct (Nat.eqb_spec (length (filter (fun r => String.eqb (sr_id r) (sr_id row))
                                           (servers (db w)))) 0) as [Hz|_]; [lia|].
    assert (Hun : existsb (fun r => negb (String.eqb (sr_id r) (sr_id row))
                                    && String.eqb (sr_collectionId r) (sr_collectionId row)
                                    && String.eqb (sr_guildId r) (sr_guildId row))
                          (servers (db w)) = false).
    { apply not_true_is_false; intros Hex.
      apply existsb_exists in Hex as (r & Hr & Hc).
      apply andb_prop in Hc as [Hc Hc3]; apply andb_prop in Hc as [Hc1 Hc2].
      apply String.eqb_eq in Hc2, Hc3.
      assert (r = row)
        by (apply (NoDup_map_same (fun r => (sr_collectionId r, sr_guildId r)) _ _ _
                                  Hpairs Hr Hin); cbn; congruence).
      subst r; rewrite String.eqb_refl in Hc1; discriminate. }
    rewrite Hun, (Hfk row Hin); reflexivity. }
  assert (Hgone : find (enabled_in guildId) (map upd (servers (db w))) = None).
  { apply find_none_existsb, not_true_is_false; intros Hex.
    apply existsb_exists in Hex as (r' & Hr' & Hen').
    apply in_map_iff in Hr' as (r & <- & Hr).
    unfold upd in Hen'.
    destruct (String.eqb_spec (sr_id r) (sr_id row)) as [Hsame|Hdiff].
    - unfold enabled_in, Server.updated_row, this' in Hen'; cbn in Hen'.
      rewrite andb_false_r in Hen'; discriminate.
    - apply Hdiff; f_equal.
      apply (length_le_1_same (filter (enabled_in guildId) (servers (db w)))).
      + apply Hsingle.
      + apply filter_In; auto.
      + apply filter_In; auto. }
  eexists _, _; split; [exact Hrun|].
  split; [reflexivity|split; [|split]].
  - cbn [with_db db servers]; rewrite map_map; apply map_ext.
    intros r; unfold upd; now destruct (String.eqb (sr_id r) (sr_id row)).
  - apply Server_getByGuildId_none; exact Hgone.
  - intros addedBy channel sync enabled.
    rewrite Server_add_run; cbv zeta.
    destruct (existsb _ _); [eexists; reflexivity|].
    assert (Hdup : existsb (fun r => String.eqb (sr_collectionId r) (sr_collectionId row)
                                     && String.eqb (sr_guildId r) guildId)
                           (map upd (servers (db w))) = true).
    { apply existsb_exists; exists (upd row); split; [now apply in_map|].
      unfold upd; rewrite String.eqb_refl; cbn.
      now rewrite Hg, !String.eqb_refl. }
    cbn [with_db db servers added_row sr_collectionId sr_guildId Server.collectionId
         Server.guildId Server.applyRow Server._collectionId].
    rewrite Hdup; eexists; reflexivity.
Qed.

Lemma soft_removed_server_cannot_rejoin_witness :
  exists s' w1,
    Server.remove (Server.applyRow (Scenario.member "s-2" Scenario.S2 2000 None true))
                  Scenario.w_one_left = (Normal s', w1)
    /\ Server._enabled s' = false
    /\ exists msg, Server.getByGuildId Scenario.S2 w1 = (Thrown (RecordNotFoundError msg), w1).
Proof.
  destruct (@soft_removed_server_cannot_rejoin
              Scenario.S2 (Server.applyRow (Scenario.member "s-2" Scenario.S2 2000 None true))
              Scenario.w_one_left) as (s' & w1 & H1 & H2 & _ & H4 & _).
  - repeat split.
    + simpl; repeat constructor; simpl; intuition discriminate.
    + simpl; repeat constructor; simpl; intuition discriminate.
    + intros r [<-|[<-|[]]]; reflexivity.
    + apply single_membership_of_NoDup; simpl; repeat constructor; simpl; tauto.
  - reflexivity.
  - exists s', w1; auto.
Defined.

(* ------------------------------------------------------------------ *)
(** ** Inviting a server *)

Lemma Invite_create_run (input : Invite.InviteCreateInput) (w : World) :
  let row := invited_row input w in
  Invite.create input w =
    if existsb (fun r => String.eqb (ir_id r) (ir_id row)) (invites (db w))
    then (Thrown (SqliteError "SQLITE_CONSTRAINT_PRIMARYKEY"), after_draw w)
    else if negb (has_collection (db w) (ir_collectionId row))
    then (Thrown (SqliteError "SQLITE_CONSTRAINT_FOREIGNKEY"), after_draw w)
    else (Normal (Invite.applyRow row), with_db (with_invite row (db w)) (after_draw w)).
Proof.
  cbv zeta.
  unfold Invite.create, Invite.insert_row, bind, newId, nowIso, getDb;
    cbn [db clock uuids drawn client trace ir_id ir_collectionId invited_row].
  destruct (existsb _ _) eqn:Hpk; [reflexivity|].
  destruct (negb _); [reflexivity|].
  unfold putDb, Invite.getById, bind, getDb; cbn [db clock uuids drawn client trace invites].
  rewrite (find_snoc_fresh (fun r => String.eqb (ir_id r) (uuids w (drawn w))) _ _ Hpk)
    by apply String.eqb_refl.
  reflexivity.
Qed.

(** X17. An invite that [Invite.create] returns is pending and expires 48
    hours after its creation: at every instant before that,
    [Invite.hasPendingInvite] answers yes for its group and server and
    [Invite.getPendingForGuild] finds an invite for the server. *)
Theorem created_invite_is_pending_for_48_hours
        (input : Invite.InviteCreateInput) (w w' : World) (i : Invite.t) :
  Invite.create input w = (Normal i, w') ->
  Invite._status i = pending
  /\ Invite._expiresAt i = clock w + 172800000
  /\ forall t, t < Invite._expiresAt i ->
       Invite.hasPendingInvite (Invite.collectionId input) (Invite.targetGuildId input)
                               (at_time t w')
       = (Normal true, at_time t w')
       /\ exists found, Invite.getPendingForGuild (Invite.targetGuildId input) (at_time t w')
                        = (Normal (Some found), at_time t w').
Proof.
  rewrite Invite_create_run; cbv zeta.
  destruct (existsb _ _); [discriminate|].
  destruct (negb _); [discriminate|].
  intros E; injection E as <- <-.
  split; [reflexivity|split; [reflexivity|]].
  cbn [Invite._expiresAt Invite.applyRow invited_row ir_expiresAt].
  intros t Ht.
  assert (Hin : In (invited_row input w)
                   (invites (db (at_time t (with_db (with_invite (invited_row input w) (db w))
                                                    (after_draw w))))))
    by (cbn; apply in_or_app; right; now left).
  split.
  - apply Invite_hasPendingInvite_true with (row := invited_row input w); auto.
  - unfold Invite.getPendingForGuild, bind, nowIso, getDb, ret.
    destruct (order_by_desc _ _) as [|row rest] eqn:Ho.
    + exfalso.
      assert (Hx : In (invited_row input w) (@nil InviteRow)); [|exact Hx].
      rewrite <- Ho; apply order_by_desc_In, filter_In; split; [exact Hin|].
      apply open_invite_filter; repeat split; exact Ht.
    + eexists; reflexivity.
Qed.

Lemma created_invite_is_pending_for_48_hours_witness :
  exists i w',
    Invite.create (Invite.mkInput "c-alpha" Scenario.S3 Scenario.owner) Cases.w_inviting
    = (Normal i, w')
    /\ Invite._status i = pending
    /\ Invite._expiresAt i = 172805000.
Proof.
  set (input := Invite.mkInput "c-alpha" Scenario.S3 Scenario.owner).
  exists (Invite.applyRow (invited_row input Cases.w_inviting)).
  exists (with_db (with_invite (invited_row input Cases.w_inviting) (db Cases.w_inviting))
                  (after_draw Cases.w_inviting)).
  assert (E : Invite.create input Cases.w_inviting
              = (Normal (Invite.applyRow (invited_row input Cases.w_inviting)),
                 with_db (with_invite (invited_row input Cases.w_inviting) (db Cases.w_inviting))
                         (after_draw Cases.w_inviting)))
    by (vm_compute; reflexivity).
  destruct (created_invite_is_pending_for_48_hours _ _ E) as (H1 & H2 & _).
  split; [exact E|split; [exact H1|exact H2]].
Defined.

Lemma owned_group_run (guildId : string) (w : World) :
  try_catch (c <- Collection.getByMainGuildId guildId ;; ret (Some c))
            (fun error => match error with
                          | RecordNotFoundError _ => ret None
                          | _ => throw error
                          end) w
  = (Normal (owned_group guildId (db w)), w).
Proof.
  unfold try_catch, Collection.getByMainGuildId, Collection.getById, bind, getDb, owned_group.
  destruct (find _ _) as [row|]; [|reflexivity].
  destruct (find _ _); reflexivity.
Qed.

Lemma emit_audit_frame e : preserves audit_frame (emit e).
Proof.
  apply preserves_weaken with (R := only_trace); [apply only_trace_audit|apply emit_only_trace].
Qed.

(** The owner of the target server is looked up and told, if possible. *)
Lemma owner_lookup_run (targetGuild : Guild) (w : World) :
  try_catch (o <- fetchOwner targetGuild ;; ret (Some o)) (fun _ => ret None) w
  = (Normal (g_owner targetGuild), w).
Proof.
  unfold try_catch, bind, fetchOwner, ret, throw.
  destruct (g_owner targetGuild); reflexivity.
Qed.

Lemma owner_notice_run (targetOwner : option Member) (w : World) :
  exists w',
    match targetOwner with
    | Some o => try_catch (member_send o) (fun _ => ret tt)
    | None => ret tt
    end w = (Normal tt, w')
    /\ only_trace w w'.
Proof.
  destruct targetOwner as [o|]; [|exists w; split; [reflexivity|apply frame_refl]].
  cbv [try_catch member_send bind emit ret throw].
  destruct (me_dm_ok o); eexists; split; try reflexivity; repeat split.
Qed.

Lemma target_guild_run (targetGuildId : string) (w : World) :
  try_catch (g <- guilds_fetch_ targetGuildId ;; ret (Some g)) (fun _ => ret None) w
  = (Normal (guilds_fetch (client w) targetGuildId), w).
Proof.
  unfold try_catch, guilds_fetch_, bind, getClient.
  destruct (guilds_fetch (client w) targetGuildId); reflexivity.
Qed.

Lemma target_membership_check_run (targetGuildId : string) (w : World) :
  try_catch (Server.getByGuildId targetGuildId ;;; ret tt)
            (fun error => match error with
                          | RecordNotFoundError _ => ret tt
                          | _ => throw error
                          end) w
  = (Normal tt, w).
Proof.
  destruct (find (enabled_in targetGuildId) (servers (db w))) as [row|] eqn:Hf.
  - destruct (Server_getByGuildId_found targetGuildId w Hf) as (s & Hs).
    apply try_catch_normal; now rewrite (bind_normal _ _ _ Hs).
  - destruct (Server_getByGuildId_none w targetGuildId Hf) as (msg & Hs).
    erewrite try_catch_thrown by (erewrite bind_thrown by exact Hs; reflexivity).
    reflexivity.
Qed.

(** Once an invite of the group for the server is pending, with its expiry
    ahead, the same request is refused as a duplicate. *)
Lemma reinvite_refused (interaction : Interaction)
      (platform : Responder CollectionInviteCommand.Reply) (targetGuildId guildId : string)
      (c : Collection.t) (row : InviteRow) (w : World) :
  i_guildId interaction = Some guildId ->
  negb (String.eqb (i_guildOwnerId interaction) (i_userId interaction))
  && negb (i_administrator interaction) = false ->
  owned_group guildId (db w) = Some c ->
  CollectionInviteCommand.isSnowflake targetGuildId = true ->
  targetGuildId <> guildId ->
  In row (invites (db w)) ->
  ir_collectionId row = Collection._id c ->
  ir_targetGuildId row = targetGuildId ->
  ir_status row = pending ->
  clock w < ir_expiresAt row ->
  CollectionInviteCommand.chatInputRun interaction platform targetGuildId w
  = (Normal CollectionInviteCommand.DuplicatePending, w).
Proof.
  intros Hg Hauth Hown Hs Hother Hin Hc Ht Hst He.
  unfold CollectionInviteCommand.chatInputRun; rewrite Hg, Hauth.
  rewrite (bind_normal _ _ _ (owned_group_run guildId w)), Hown, Hs; cbn [negb].
  destruct (String.eqb_spec targetGuildId guildId) as [Hself|_]; [contradiction|].
  assert (Hp : Invite.hasPendingInvite (Collection._id c) targetGuildId w = (Normal true, w))
    by (apply Invite_hasPendingInvite_true with (row := row); auto).
  rewrite (bind_normal _ _ _ Hp); reflexivity.
Qed.

(** X18. Before its last answer [/collection-invite] throws only when the
    platform rejects the deferral, with nothing written.  It answers
    "invite sent" only to
    the owner or an administrator of a server that owns a group, for a
    well-formed id of another server the bot can reach; the invite is then
    the one new row of the invite table, pending for the target.  The
    answer "error creating invite" is given when the invite could not be
    written, and then the database is as it was, but also when the invite
    was written and the platform rejected the answer "invite sent": the
    invite then stands, without an audit entry.  Whenever the invite was
    written, asking again at once is refused as a duplicate.  No other
    answer changes the world. *)
Theorem invite_command_outcome (interaction : Interaction)
        (platform : Responder CollectionInviteCommand.Reply)
        (targetGuildId : string) (w : World) :
  exists r w',
    CollectionInviteCommand.chatInputRun interaction platform targetGuildId w = (r, w')
    /\ match r with
       | Thrown _ => acknowledges platform = false /\ w' = w
       | Normal (CollectionInviteCommand.InviteSent invite) =>
           String.eqb (i_guildOwnerId interaction) (i_userId interaction)
           || i_administrator interaction = true
           /\ CollectionInviteCommand.isSnowflake targetGuildId = true
           /\ i_guildId interaction <> Some targetGuildId
           /\ (exists guildId c,
                  i_guildId interaction = Some guildId
                  /\ owned_group guildId (db w) = Some c
                  /\ Invite._collectionId invite = Collection._id c)
           /\ guilds_fetch (client w) targetGuildId <> None
           /\ Invite._targetGuildId invite = targetGuildId
           /\ Invite._status invite = pending
           /\ (exists row, invites (db w') = invites (db w) ++ [row]
                           /\ invite = Invite.applyRow row)
           /\ delivers platform (CollectionInviteCommand.InviteSent invite) = true
           /\ CollectionInviteCommand.chatInputRun interaction platform targetGuildId w'
              = (Normal CollectionInviteCommand.DuplicatePending, w')
       | Normal CollectionInviteCommand.ErrorCreatingInvite =>
           db w' = db w
           \/ exists row,
               db w' = with_invite row (db w)
               /\ ir_targetGuildId row = targetGuildId
               /\ ir_status row = pending
               /\ delivers platform
                    (CollectionInviteCommand.InviteSent (Invite.applyRow row)) = false
               /\ CollectionInviteCommand.chatInputRun interaction platform targetGuildId w'
                  = (Normal CollectionInviteCommand.DuplicatePending, w')
       | Normal _ => w' = w
       end.
Proof.
  unfold CollectionInviteCommand.chatInputRun at 1.
  destruct (i_guildId interaction) as [guildId|] eqn:Hg;
    [|eexists _, _; split; [reflexivity|reflexivity]].
  destruct (negb _ && negb _) eqn:Hauth;
    [eexists _, _; split; [reflexivity|reflexivity]|].
  rewrite (bind_normal _ _ _ (owned_group_run guildId w)).
  destruct (owned_group guildId (db w)) as [c|] eqn:Hown;
    [|eexists _, _; split; [reflexivity|reflexivity]].
  destruct (CollectionInviteCommand.isSnowflake targetGuildId) eqn:Hs; cbn [negb];
    [|eexists _, _; split; [reflexivity|reflexivity]].
  destruct (String.eqb_spec targetGuildId guildId) as [Hself|Hother];
    [eexists _, _; split; [reflexivity|reflexivity]|].
  unfold Invite.hasPendingInvite at 1.
  unfold bind at 1; unfold bind at 1; unfold bind at 1.
  unfold nowIso at 1, getDb at 1, ret at 1.
  destruct (0 <? length _)%nat eqn:Hdup;
    [eexists _, _; split; [reflexivity|reflexivity]|].
  rewrite (bind_normal _ _ _ (target_guild_run targetGuildId w)).
  destruct (guilds_fetch (client w) targetGuildId) as [targetGuild|] eqn:Hfetch;
    [|eexists _, _; split; [reflexivity|reflexivity]].
  rewrite (bind_normal _ _ _ (target_membership_check_run targetGuildId w)).
  unfold defer at 1.
  destruct (acknowledges platform) eqn:Hack;
    [|eexists _, _; split; [reflexivity|split; reflexivity]].
  rewrite (bind_normal _ _ _ (eq_refl : ret tt w = (Normal tt, w))).
  unfold try_catch at 1; unfold bind at 1; rewrite Invite_create_run; cbv zeta.
  set (row := invited_row _ w).
  destruct (existsb _ _) eqn:Hpk;
    [eexists _, _; split; [reflexivity|left; reflexivity]|].
  destruct (negb (has_collection _ _)) eqn:Hfk;
    [eexists _, _; split; [reflexivity|left; reflexivity]|].
  set (w0 := with_db (with_invite row (db w)) (after_draw w)).
  rewrite (bind_normal _ _ _ (owner_lookup_run targetGuild w0)).
  destruct (owner_notice_run (g_owner targetGuild) w0) as (w1 & E1 & Hdb1 & Hck1 & _).
  rewrite (bind_normal _ _ _ E1).
  assert (Hagain : forall w2,
             collections (db w2) = collections (db w) ->
             invites (db w2) = invites (db w) ++ [row] ->
             clock w2 = clock w ->
             CollectionInviteCommand.chatInputRun interaction platform targetGuildId w2
             = (Normal CollectionInviteCommand.DuplicatePending, w2)).
  { intros w2 Hcols Hinv Hclock.
    apply reinvite_refused with (guildId := guildId) (c := c) (row := row); auto.
    - unfold owned_group; rewrite Hcols; exact Hown.
    - rewrite Hinv; apply in_or_app; right; now left.
    - rewrite Hclock; unfold row; cbn; lia. }
  unfold respond at 1.
  destruct (delivers platform (CollectionInviteCommand.InviteSent (Invite.applyRow row)))
    eqn:Hd.
  - rewrite (bind_normal _ _ _ (eq_refl : ret (CollectionInviteCommand.InviteSent
                                                (Invite.applyRow row)) w1 = (Normal _, w1))).
    match goal with |- context [logAction ?p] =>
      destruct (logAction_run p w1) as (w2 & E2 & Hdb2 & Hck2 & _)
    end.
    rewrite (bind_normal _ _ _ E2).
    exists (Normal (CollectionInviteCommand.InviteSent (Invite.applyRow row))), w2.
    split; [reflexivity|].
    assert (Hcols : collections (db w2) = collections (db w))
      by (rewrite Hdb2, Hdb1; now destruct (loggable _ _)).
    assert (Hinv : invites (db w2) = invites (db w) ++ [row])
      by (rewrite Hdb2, Hdb1; now destruct (loggable _ _)).
    split; [|split; [reflexivity|split; [|split; [|split; [|split; [|split; [|split;
      [|split]]]]]]]].
    + apply andb_false_iff in Hauth as [H|H]; apply negb_false_iff in H; rewrite H;
        [reflexivity|apply orb_true_r].
    + intros H; injection H as ->; now apply Hother.
    + exists guildId, c; repeat split; assumption.
    + discriminate.
    + reflexivity.
    + reflexivity.
    + exists row; split; [exact Hinv|reflexivity].
    + exact Hd.
    + apply Hagain; [exact Hcols|exact Hinv|now rewrite Hck2, Hck1].
  - exists (Normal CollectionInviteCommand.ErrorCreatingInvite), w1.
    split; [reflexivity|].
    right; exists row; split; [exact Hdb1|].
    split; [reflexivity|split; [reflexivity|split; [exact Hd|]]].
    apply Hagain; [now rewrite Hdb1|now rewrite Hdb1|exact Hck1].
Qed.

(* ------------------------------------------------------------------ *)
(** ** The fallback to direct messages *)






(* ------------------------------------------------------------------ *)
(** ** [/shareban]: who gets the configuration menu *)

Lemma bind_assoc {A B C} (m : M A) (k : A -> M B) (k' : B -> M C) (w : World) :
  bind (bind m k) k' w = bind m (fun a => bind (k a) k') w.
Proof. unfold bind; destruct (m w) as [[a|e] w1]; reflexivity. Qed.

Lemma attempt_owned_run (guildId : string) (w : World) :
  ShareBanCommand.attempt (Collection.getByMainGuildId guildId) w
  = (Normal (owned_group guildId (db w)), w).
Proof.
  unfold ShareBanCommand.attempt, try_catch, Collection.getByMainGuildId, Collection.getById,
    bind, getDb, owned_group.
  destruct (find _ _) as [row|]; [|reflexivity].
  destruct (find _ _); reflexivity.
Qed.

Lemma attempt_member_run (guildId : string) (w : World) :
  ShareBanCommand.attempt (Server.getByGuildId guildId) w
  = (Normal (enabled_member guildId (db w)), w).
Proof.
  unfold ShareBanCommand.attempt, try_catch, Server.getByGuildId, Server.getById,
    bind, getDb, enabled_member.
  change (fun row => String.eqb (sr_guildId row) guildId && (sr_enabled row =? 1))
    with (enabled_in guildId).
  destruct (find _ _) as [row|]; [|reflexivity].
  destruct (find _ _); reflexivity.
Qed.

Lemma attempt_group_run (id : string) (w : World) :
  ShareBanCommand.attempt (Collection.getById id) w
  = (Normal (option_map Collection.applyRow
               (find (fun r => String.eqb (cr_id r) id) (collections (db w)))), w).
Proof.
  unfold ShareBanCommand.attempt, try_catch, Collection.getById, bind, getDb.
  destruct (find _ _); reflexivity.
Qed.

Lemma owned_group_In (guildId : string) (d : Db) (c : Collection.t) :
  owned_group guildId d = Some c ->
  exists row, In row (collections d) /\ c = Collection.applyRow row.
Proof.
  unfold owned_group.
  destruct (find _ _) as [row|]; [|discriminate].
  destruct (find _ _) as [row'|] eqn:E; [|discriminate].
  intros H; injection H as <-; apply find_some in E as [Hin _]; eauto.
Qed.

Lemma isUserModerator_run (interaction : Interaction) (collectionId : string) (w : World) :
  exists b,
    ShareBanCommand.isUserModerator interaction collectionId w = (Normal b, w)
    /\ (b = true -> exists m, In m (moderators (db w)) /\ mr_collectionId m = collectionId
                              /\ grant_covers interaction m).
Proof.
  unfold ShareBanCommand.isUserModerator, Moderator.listByCollection, bind, getDb, ret.
  eexists; split; [reflexivity|].
  intros H; apply existsb_exists in H as (mod_ & Hin & Hm).
  apply in_map_iff in Hin as (m & <- & Hin).
  apply limit_In in Hin; rewrite order_by_desc_In, filter_In in Hin; destruct Hin as [Hin Hc].
  apply String.eqb_eq in Hc.
  exists m; repeat split; auto.
  unfold grant_covers; cbn in Hm; destruct (mr_type m).
  - now apply String.eqb_eq in Hm.
  - now apply existsb_eqb_In in Hm.
Qed.

Lemma buildServerInfoList_ids (row : CollectionRow) (w : World) :
  exists allServers,
    ShareBanCommand.buildServerInfoList (Collection.applyRow row) w = (Normal allServers, w)
    /\ (length allServers =? 0)%nat = false
    /\ In (cr_mainGuildId row) (map ShareBanCommand.si_guildId allServers)
    /\ forall g, In g (map ShareBanCommand.si_guildId allServers) ->
                 g = cr_mainGuildId row
                 \/ exists s, In s (servers (db w)) /\ sr_guildId s = g
                              /\ sr_collectionId s = cr_id row /\ sr_enabled s = 1.
Proof.
  unfold ShareBanCommand.buildServerInfoList.
  rewrite (bind_normal _ _ _ (Server_listByCollection_run w _)).
  cbn [Collection._id Collection._mainGuildId Collection.applyRow].
  set (linked := filter Server._enabled _).
  assert (Hlinked : forall s, In s linked ->
                              exists r, In r (servers (db w)) /\ sr_guildId r = Server._guildId s
                                        /\ sr_collectionId r = cr_id row /\ sr_enabled r = 1).
  { intros s Hs; apply filter_In in Hs as [Hs Hen].
    apply in_map_iff in Hs as (r & <- & Hr).
    rewrite order_by_desc_In, filter_In in Hr; destruct Hr as [Hr Hc].
    apply String.eqb_eq in Hc; apply Z.eqb_eq in Hen.
    exists r; auto. }
  eexists; split; [reflexivity|].
  destruct (existsb _ linked) eqn:Hmain; cbn [negb app].
  - apply existsb_exists in Hmain as (s & Hs & Hg); apply String.eqb_eq in Hg.
    split; [destruct linked; [contradiction|reflexivity]|].
    split.
    + rewrite map_map; apply in_map_iff; exists s; auto.
    + intros g Hin; rewrite map_map in Hin; apply in_map_iff in Hin as (s' & <- & Hs').
      right; destruct (Hlinked s' Hs') as (r & Hr); exists r; exact Hr.
  - split; [reflexivity|].
    split; [now left|].
    intros g [<-|Hin]; [now left|].
    rewrite map_map in Hin; apply in_map_iff in Hin as (s' & <- & Hs').
    right; destruct (Hlinked s' Hs') as (r & Hr); exists r; exact Hr.
Qed.

Lemma active_ban_listed (collectionId targetUserId : string) (w : World) (b : Ban.t) :
  find (fun b => String.eqb (Ban._userId b) targetUserId)
       (map Ban.applyRow
            (limit 1000
               (order_by_desc br_timestamp
                  (filter (fun r => String.eqb (br_collectionId r) collectionId
                                    && (br_active r =? 1)) (bans (db w)))))) = Some b ->
  exists row, In row (bans (db w)) /\ br_id row = Ban._id b
              /\ br_userId row = targetUserId /\ br_active row = 1.
Proof.
  intros H; apply find_some in H as [Hin Hu]; apply String.eqb_eq in Hu.
  apply in_map_iff in Hin as (row & <- & Hin).
  apply limit_In in Hin; rewrite order_by_desc_In, filter_In in Hin; destruct Hin as [Hin Hc].
  apply andb_prop in Hc as [_ Ha]; apply Z.eqb_eq in Ha.
  exists row; auto.
Qed.

(** The part of [/shareban] that follows the resolution of the group. *)
Lemma shareban_menu_run (interaction : Interaction) (targetUserId guildId : string)
      (row : CollectionRow) (w : World) :
  i_guildId interaction = Some guildId ->
  In row (collections (db w)) ->
  let collection := Collection.applyRow row in
  let menu :=
    isMod <- ShareBanCommand.isUserModerator interaction (Collection._id collection) ;;
    let isOwner := String.eqb (Collection._mainGuildId collection) guildId
                   && String.eqb (i_guildOwnerId interaction) (i_userId interaction) in
    if negb isMod && negb isOwner then ret ShareBanCommand.NotModeratorOrOwner
    else
      allServers <- ShareBanCommand.buildServerInfoList collection ;;
      if (length allServers =? 0)%nat then ret ShareBanCommand.NoEnabledServers
      else
        existingBans <- Ban.listByCollection (Collection._id collection) true ;;
        match find (fun b => String.eqb (Ban._userId b) targetUserId) existingBans with
        | Some existingBan => ret (ShareBanCommand.AlreadyBanned (Ban._id existingBan))
        | None =>
            let allServerGuildIds := map ShareBanCommand.si_guildId allServers in
            ret (ShareBanCommand.ConfigurationMenu allServers
                   (ShareBanCommand.mkConfig targetUserId (Collection._id collection)
                                             (unique [] allServerGuildIds)
                                             "" "" true [] [] true))
        end in
  exists reply, menu w = (Normal reply, w) /\ shareban_reply_ok interaction targetUserId w reply.
Proof.
  intros Hg Hrow collection menu; unfold menu, collection.
  destruct (isUserModerator_run interaction (cr_id row) w) as (isMod & Emod & Hmod).
  cbn [Collection._id Collection._mainGuildId Collection.applyRow].
  rewrite (bind_normal _ _ _ Emod); cbv zeta.
  destruct (negb isMod && negb _) eqn:Hauth; [eexists; split; [reflexivity|exact I]|].
  destruct (buildServerInfoList_ids row w) as (allServers & Eall & Hlen & Hmain & Hids).
  rewrite (bind_normal _ _ _ Eall), Hlen.
  unfold Ban.listByCollection at 1; unfold bind at 1; unfold bind at 1.
  unfold getDb at 1, ret at 1.
  destruct (find _ _) as [existing|] eqn:Hfind.
  - eexists; split; [reflexivity|].
    destruct (active_ban_listed _ _ _ Hfind) as (r & Hr); exists r; exact Hr.
  - eexists; split; [reflexivity|].
    exists guildId, row; cbn [ShareBanCommand.collectionId ShareBanCommand.targetUser
                               ShareBanCommand.selectedServerGuildIds].
    split; [exact Hg|split; [exact Hrow|split; [|split; [reflexivity|split; [reflexivity|]]]]].
    + apply andb_false_iff in Hauth as [H|H]; apply negb_false_iff in H.
      * right; now apply Hmod.
      * left; apply andb_prop in H as [H1 H2].
        split; now apply String.eqb_eq.
    + split; [apply unique_NoDup|split].
      * apply unique_In; split; [exact Hmain|tauto].
      * intros g Hin; apply unique_In in Hin as [Hin _]; now apply Hids.
Qed.

(** X20. [/shareban] always answers, never throws and writes nothing.  The
    configuration menu is shown only to a caller who owns the server that
    owns the group or holds a moderator grant of the group, personally or
    through a role; the servers preselected in it are distinct, include the
    owning server, and are otherwise enabled members of the group.  The
    answer "already banned" names an active ban of the target. *)
Theorem shareban_menu_requires_authorization
        (interaction : Interaction) (targetUserId : string) (w : World) :
  exists reply,
    ShareBanCommand.chatInputRun interaction targetUserId w = (Normal reply, w)
    /\ shareban_reply_ok interaction targetUserId w reply.
Proof.
  unfold ShareBanCommand.chatInputRun.
  destruct (i_guildId interaction) as [guildId|] eqn:Hg;
    [|eexists; split; [reflexivity|exact I]].
  cbv zeta.
  rewrite (bind_normal _ _ _ (attempt_owned_run guildId w)).
  destruct (owned_group guildId (db w)) as [c|] eqn:Hown.
  - apply owned_group_In in Hown as (row & Hrow & ->).
    rewrite (bind_normal _ _ _ (eq_refl : ret _ w = (Normal _, w))).
    apply (@shareban_menu_run interaction targetUserId guildId row w Hg Hrow).
  - rewrite bind_assoc, (bind_normal _ _ _ (attempt_member_run guildId w)).
    destruct (enabled_member guildId (db w)) as [server|].
    + destruct (negb (Server._enabled server)).
      * rewrite (bind_normal _ _ _ (eq_refl : ret _ w = (Normal _, w))).
        eexists; split; [reflexivity|exact I].
      * rewrite bind_assoc,
          (bind_normal _ _ _ (attempt_group_run (Server._collectionId server) w)).
        destruct (find _ (collections (db w))) as [row|] eqn:Hrow; cbn [option_map].
        -- apply find_some in Hrow as [Hrow _].
           rewrite (bind_normal _ _ _ (eq_refl : ret _ w = (Normal _, w))).
           apply (@shareban_menu_run interaction targetUserId guildId row w Hg Hrow).
        -- rewrite (bind_normal _ _ _ (eq_refl : ret _ w = (Normal _, w))).
           eexists; split; [reflexivity|exact I].
    + rewrite (bind_normal _ _ _ (eq_refl : ret _ w = (Normal _, w))).
      eexists; split; [reflexivity|exact I].
Qed.

(* ------------------------------------------------------------------ *)
(** ** [/unshareban]: which bans are offered *)

Lemma Ban_listByCollection_run (collectionId : string) (onlyActive : bool) (w : World) :
  exists l,
    Ban.listByCollection collectionId onlyActive w = (Normal l, w)
    /\ Forall (fun b => exists row, In row (bans (db w)) /\ b = Ban.applyRow row
                                    /\ Ban._collectionId b = collectionId
                                    /\ (onlyActive = true -> Ban._active b = true)) l.
Proof.
  unfold Ban.listByCollection, bind, getDb, ret.
  destruct onlyActive; (eexists; split; [reflexivity|]);
    rewrite Forall_forall; intros b Hb;
    apply in_map_iff in Hb as (row & <- & Hrow);
    apply limit_In in Hrow; rewrite order_by_desc_In, filter_In in Hrow;
    destruct Hrow as [Hin Hf].
  - apply andb_prop in Hf as [Hc Ha]; apply String.eqb_eq in Hc.
    exists row; repeat split; auto.
  - apply String.eqb_eq in Hf.
    exists row; repeat split; auto; discriminate.
Qed.


Lemma owned_group_reachable (guildId : string) (d : Db) (c : Collection.t) :
  owned_group guildId d = Some c ->
  group_reachable_from guildId d (Collection._id c).
Proof.
  unfold owned_group.
  destruct (find _ _) as [row|] eqn:Hrow; [|discriminate].
  destruct (find (fun r => String.eqb (cr_id r) (cr_id row)) _) as [row'|] eqn:Hrow';
    [|discriminate].
  intros H; cbn in H; injection H as <-.
  apply find_some in Hrow as [Hin Hg]; apply String.eqb_eq in Hg.
  apply find_some in Hrow' as [_ Hid]; apply String.eqb_eq in Hid.
  left; exists row; auto.
Qed.

Lemma enabled_member_reachable (guildId : string) (d : Db) (s : Server.t) :
  NoDup (map sr_id (servers d)) ->
  enabled_member guildId d = Some s ->
  group_reachable_from guildId d (Server._collectionId s).
Proof.
  unfold enabled_member; intros Hnd.
  destruct (find _ _) as [row|] eqn:Hrow; [|discriminate].
  destruct (find (fun r => String.eqb (sr_id r) (sr_id row)) _) as [row'|] eqn:Hrow';
    [|discriminate].
  intros H; cbn in H; injection H as <-.
  apply find_some in Hrow as [Hin Hen]; apply andb_prop in Hen as [Hg Hon].
  apply String.eqb_eq in Hg; apply Z.eqb_eq in Hon.
  apply find_some in Hrow' as [Hin' Hid]; apply String.eqb_eq in Hid.
  assert (row' = row) by (apply (NoDup_map_same sr_id _ _ _ Hnd Hin' Hin Hid)).
  subst row'; right; exists row; auto.
Qed.

Lemma accessibleCollectionIds_run (guildId : string) (w : World) :
  NoDup (map sr_id (servers (db w))) ->
  exists ids,
    UnsharebanCommand.accessibleCollectionIds guildId w = (Normal ids, w)
    /\ forall id, In id ids -> group_reachable_from guildId (db w) id.
Proof.
  intros Hnd; unfold UnsharebanCommand.accessibleCollectionIds.
  assert (Eowned : try_catch (c <- Collection.getByMainGuildId guildId ;;
                              ret [Collection._id c]) (fun _ => ret []) w
                   = (Normal (match owned_group guildId (db w) with
                              | Some c => [Collection._id c]
                              | None => []
                              end), w)).
  { unfold try_catch, Collection.getByMainGuildId, Collection.getById, bind, getDb, owned_group.
    destruct (find _ _) as [row|]; [|reflexivity].
    destruct (find _ _); reflexivity. }
  rewrite (bind_normal _ _ _ Eowned).
  set (owned := match owned_group guildId (db w) with
                | Some c => [Collection._id c]
                | None => []
                end).
  assert (Howned : forall id, In id owned -> group_reachable_from guildId (db w) id).
  { unfold owned; destruct (owned_group guildId (db w)) as [c|] eqn:Hc; [|contradiction].
    intros id [<-|[]]; now apply owned_group_reachable. }
  assert (Emember : forall k : Server.t -> M (list string),
             try_catch (server <- Server.getByGuildId guildId ;; k server)
                       (fun _ => ret owned) w
             = match enabled_member guildId (db w) with
               | Some s => try_catch (k s) (fun _ => ret owned) w
               | None => (Normal owned, w)
               end).
  { intros k.
    unfold try_catch, Server.getByGuildId, Server.getById, bind, getDb, enabled_member.
    change (fun row => String.eqb (sr_guildId row) guildId && (sr_enabled row =? 1))
      with (enabled_in guildId).
    destruct (find _ _) as [row|]; [|reflexivity].
    destruct (find _ _); reflexivity. }
  rewrite Emember.
  destruct (enabled_member guildId (db w)) as [s|] eqn:Hs; [|eauto].
  destruct (Server._enabled s && _); (eexists; split; [reflexivity|]); [|exact Howned].
  intros id Hin; apply in_app_or in Hin as [Hin|[<-|[]]]; [auto|].
  now apply enabled_member_reachable.
Qed.

Lemma bans_of_group_run (guildId executorUserId : string) (acc : list Ban.t)
      (collectionId : string) (w : World) :
  exists more,
    UnsharebanCommand.bans_of_group guildId executorUserId acc collectionId w
    = (Normal (acc ++ more), w)
    /\ Forall (fun b => Ban._active b = true
                        /\ Ban._collectionId b = collectionId
                        /\ (exists row, In row (bans (db w)) /\ b = Ban.applyRow row)
                        /\ may_lift guildId executorUserId (db w) collectionId) more.
Proof.
  unfold UnsharebanCommand.bans_of_group, try_catch.
  unfold Collection.getById at 1; unfold bind at 1; unfold bind at 1; unfold getDb at 1.
  destruct (find _ (collections (db w))) as [c|] eqn:Hc;
    [|exists []; rewrite app_nil_r; split; [reflexivity|constructor]].
  unfold ret at 1; cbv zeta.
  unfold Moderator.listByCollection at 1; unfold bind at 1; unfold bind at 1.
  unfold getDb at 1, ret at 1.
  destruct (_ || _) eqn:Hauth;
    [|exists []; rewrite app_nil_r; split; [reflexivity|constructor]].
  destruct (Ban_listByCollection_run collectionId true w) as (l & El & Hl).
  rewrite (bind_normal _ _ _ El).
  exists l; split; [reflexivity|].
  assert (Hmay : may_lift guildId executorUserId (db w) collectionId).
  { apply find_some in Hc as [Hin Hid]; apply String.eqb_eq in Hid.
    apply orb_prop in Hauth as [Ho|Hm].
    - left; exists c; apply String.eqb_eq in Ho; auto.
    - right; apply existsb_exists in Hm as (mod_ & Hmod & Hm).
      apply in_map_iff in Hmod as (m & <- & Hmod).
      apply limit_In in Hmod; rewrite order_by_desc_In, filter_In in Hmod.
      destruct Hmod as [Hmod Hmc]; apply String.eqb_eq in Hmc.
      apply andb_prop in Hm as [Hty Hval]; apply String.eqb_eq in Hval.
      exists m; repeat split; auto.
      cbn in Hty; destruct (mr_type m); [reflexivity|discriminate]. }
  rewrite Forall_forall in *; intros b Hb; destruct (Hl b Hb) as (row & Hin & -> & Hcol & Hact).
  repeat split; eauto.
Qed.

(** X21. [getAccessibleActiveBans] never throws and writes nothing.  Every
    ban it offers is an active ban of a group that the server owns or is an
    enabled member of, and that the caller may act on: the caller sits in
    the server that owns the group, or holds a personal moderator grant of
    it (a grant through a role does not count here). *)
Theorem accessible_bans_are_active_and_authorized
        (guildId executorUserId : string) (w : World) :
  NoDup (map sr_id (servers (db w))) ->
  exists l,
    UnsharebanCommand.getAccessibleActiveBans guildId executorUserId w = (Normal l, w)
    /\ Forall (fun b => Ban._active b = true
                        /\ (exists row, In row (bans (db w)) /\ b = Ban.applyRow row)
                        /\ group_reachable_from guildId (db w) (Ban._collectionId b)
                        /\ may_lift guildId executorUserId (db w) (Ban._collectionId b)) l.
Proof.
  intros Hnd; unfold UnsharebanCommand.getAccessibleActiveBans.
  destruct (accessibleCollectionIds_run guildId w Hnd) as (ids & Eids & Hids).
  rewrite (bind_normal _ _ _ Eids).
  destruct (length ids =? 0)%nat; [exists []; split; [reflexivity|constructor]|].
  assert (Hfold : forall ids acc,
             (forall id, In id ids -> group_reachable_from guildId (db w) id) ->
             Forall (fun b => Ban._active b = true
                              /\ (exists row, In row (bans (db w)) /\ b = Ban.applyRow row)
                              /\ group_reachable_from guildId (db w) (Ban._collectionId b)
                              /\ may_lift guildId executorUserId (db w) (Ban._collectionId b))
                    acc ->
             exists l,
               fold_each ids (UnsharebanCommand.bans_of_group guildId executorUserId) acc w
               = (Normal l, w)
               /\ Forall (fun b => Ban._active b = true
                                   /\ (exists row, In row (bans (db w)) /\ b = Ban.applyRow row)
                                   /\ group_reachable_from guildId (db w) (Ban._collectionId b)
                                   /\ may_lift guildId executorUserId (db w)
                                               (Ban._collectionId b)) l).
  { clear ids Eids Hids; induction ids as [|id ids IH]; intros acc Hreach Hacc;
      cbn [fold_each]; [exists acc; split; [reflexivity|exact Hacc]|].
    destruct (bans_of_group_run guildId executorUserId acc id w) as (more & E & Hmore).
    rewrite (bind_normal _ _ _ E).
    apply IH; [intros id' Hin; apply Hreach; now right|].
    apply Forall_app; split; [exact Hacc|].
    rewrite Forall_forall in *; intros b Hb.
    destruct (Hmore b Hb) as (Hact & Hcol & Hrow & Hmay).
    rewrite Hcol; repeat split; auto.
    apply Hreach; now left. }
  apply Hfold; [exact Hids|constructor].
Qed.

Lemma accessible_bans_are_active_and_authorized_witness :
  exists l,
    UnsharebanCommand.getAccessibleActiveBans Scenario.S2 Scenario.owner Scenario.w_invited
    = (Normal l, Scenario.w_invited)
    /\ Forall (fun b => Ban._active b = true) l.
Proof.
  destruct (@accessible_bans_are_active_and_authorized
              Scenario.S2 Scenario.owner Scenario.w_invited) as (l & E & Hl).
  - simpl; repeat constructor; simpl; tauto.
  - exists l; split; [exact E|].
    rewrite Forall_forall in *; intros b Hb; apply (Hl b Hb).
Defined.

(* ------------------------------------------------------------------ *)
(** ** [/unshareban]: which bans are written *)

Section ListedBans.

Variable ids : list string.

Lemma kept_refl (l : list BanRow) :
  Forall2 (fun row row' => br_id row' = br_id row /\ (~ In (br_id row) ids -> row' = row)) l l.
Proof. induction l; constructor; auto. Qed.

Lemma kept_trans (l1 l2 l3 : list BanRow) :
  Forall2 (fun row row' => br_id row' = br_id row /\ (~ In (br_id row) ids -> row' = row)) l1 l2 ->
  Forall2 (fun row row' => br_id row' = br_id row /\ (~ In (br_id row) ids -> row' = row)) l2 l3 ->
  Forall2 (fun row row' => br_id row' = br_id row /\ (~ In (br_id row) ids -> row' = row)) l1 l3.
Proof.
  intros H12; revert l3; induction H12 as [|a b l1 l2 [Hid Hsame] _ IH]; intros l3 H23;
    inversion H23 as [|? c ? l3' [Hid' Hsame'] H23']; subst; constructor; auto.
  split; [congruence|].
  intros Hn; rewrite Hsame', Hsame; auto.
  rewrite Hsame by exact Hn; exact Hn.
Qed.

#[export] Instance only_listed_bans_frame : Frame (only_listed_bans ids).
Proof.
  split; unfold only_listed_bans.
  - intros w; repeat split; apply kept_refl.
  - intros w1 w2 w3 (?&?&?&?&H12) (?&?&?&?&H23).
    repeat split; try congruence.
    eapply kept_trans; eauto.
Qed.

Lemma audit_frame_listed (w w' : World) : audit_frame w w' -> only_listed_bans ids w w'.
Proof.
  unfold audit_frame, only_listed_bans.
  intros (?&?&Hb&?&?&?&?&?); rewrite Hb; repeat split; auto; apply kept_refl.
Qed.

Lemma emit_listed e : preserves (only_listed_bans ids) (emit e).
Proof.
  apply preserves_weaken with (R := audit_frame); [apply audit_frame_listed|].
  apply emit_audit_frame.
Qed.

Lemma logAction_listed p : preserves (only_listed_bans ids) (logAction p).
Proof.
  apply preserves_weaken with (R := audit_frame); [apply audit_frame_listed|].
  apply logAction_audit_frame.
Qed.

Lemma Ban_save_listed (ban : Ban.t) :
  In (Ban._id ban) ids -> preserves (only_listed_bans ids) (Ban.save ban).
Proof.
  intros Hin w r w'.
  unfold Ban.save, bind, getDb, putDb, throw.
  destruct (_ =? 0)%nat; [intros E; inversion E; subst; apply frame_refl|].
  destruct (negb _); intros E; inversion E; subst; clear E; [apply frame_refl|].
  unfold only_listed_bans; cbn [db collections servers moderators invites bans].
  repeat split.
  induction (bans (db w)) as [|row l IH]; cbn [map]; constructor; [|exact IH].
  destruct (String.eqb_spec (br_id row) (Ban._id ban)) as [Hid|Hid].
  - split; [reflexivity|]; intros Hn; exfalso; apply Hn; congruence.
  - split; reflexivity.
Qed.

Lemma unban_all_listed targetUserId guildIds :
  preserves (only_listed_bans ids) (UnsharebanCommand.unban_all targetUserId guildIds).
Proof.
  intros w r w' E.
  destruct (unban_all_run targetUserId guildIds w) as (rs & w1 & E1 & _ & Ht).
  rewrite E1 in E; inversion E; subst.
  now apply audit_frame_listed, only_trace_audit.
Qed.

Lemma process_ban_listed targetUserId executorId acc (ban : Ban.t) :
  In (Ban._id ban) ids ->
  preserves (only_listed_bans ids)
            (UnsharebanCommand.process_ban targetUserId executorId acc ban).
Proof.
  intros Hin.
  pose proof (Ban_save_listed (Ban.set_active ban false) Hin) as Hsave.
  pose proof logAction_listed as Hlog.
  pose proof unban_all_listed as Hunban.
  pose proof only_listed_bans_frame as Hframe.
  unfold UnsharebanCommand.process_ban; frames.
Qed.

End ListedBans.

(** X22. [executeUnban] always returns and writes only to the bans it was
    given: the tables of groups, members, moderators and invites are
    untouched, no ban row is added, removed or moved, and every ban whose
    id is not in the list keeps all its columns. *)
Theorem executeUnban_touches_only_listed_bans
        (targetUserId : string) (targetUser : option string) (bans : list Ban.t)
        (executorId : string) (w : World) :
  exists r w',
    UnsharebanCommand.executeUnban targetUserId targetUser bans executorId w = (Normal r, w')
    /\ only_listed_bans (map Ban._id bans) w w'.
Proof.
  unfold UnsharebanCommand.executeUnban.
  assert (Hfold : forall l acc w0,
             (forall b, In b l -> In (Ban._id b) (map Ban._id bans)) ->
             exists acc' w1,
               fold_each l (UnsharebanCommand.process_ban targetUserId executorId) acc w0
               = (Normal acc', w1)
               /\ only_listed_bans (map Ban._id bans) w0 w1).
  { induction l as [|b l IH]; intros acc w0 Hl; cbn [fold_each].
    - exists acc, w0; split; [reflexivity|apply frame_refl].
    - destruct (process_ban_returns targetUserId executorId acc b w0) as (acc1 & w1 & E1).
      assert (F1 : only_listed_bans (map Ban._id bans) w0 w1).
      { eapply process_ban_listed; [|exact E1]. apply Hl; now left. }
      destruct (IH acc1 w1) as (acc2 & w2 & E2 & F2); [intros b' Hb'; apply Hl; now right|].
      exists acc2, w2; split; [|eapply frame_trans; eauto].
      rewrite (bind_normal _ _ _ E1); exact E2. }
  destruct (Hfold bans (UnsharebanCommand.mkTotals [] 0 0) w) as (totals & w1 & E1 & F1);
    [intros b Hb; now apply in_map|].
  destruct (dm_step_run targetUser w1) as (dmSent & w2 & E2 & F2).
  exists (UnsharebanCommand.mkUnbanned totals dmSent), w2.
  split.
  - rewrite (bind_normal _ _ _ E1), (bind_normal _ _ _ E2); reflexivity.
  - eapply frame_trans; [exact F1|].
    now apply audit_frame_listed, only_trace_audit.
Qed.

(* ------------------------------------------------------------------ *)
(** ** [/shareban]: a group that disappeared *)





(* ------------------------------------------------------------------ *)
(** ** [/edit-shareban] *)

Lemma Ban_save_missing (this : Ban.t) (w : World) :
  existsb (fun row => String.eqb (br_id row) (Ban._id this)) (bans (db w))
  && has_collection (db w) (Ban._collectionId this) = false ->
  exists e, Ban.save this w = (Thrown e, w).
Proof.
  intros Hno; unfold Ban.save, bind, getDb, throw.
  destruct (Nat.eqb_spec (length (filter (fun r => String.eqb (br_id r) (Ban._id this))
                                         (bans (db w)))) 0) as [_|Hn]; [eauto|].
  destruct (has_collection (db w) (Ban._collectionId this)); cbn [negb]; [|eauto].
  rewrite andb_true_r in Hno.
  exfalso; apply Hn.
  destruct (filter _ (bans (db w))) as [|row rest] eqn:Ef; [reflexivity|].
  assert (Hin : In row (filter (fun r => String.eqb (br_id r) (Ban._id this)) (bans (db w))))
    by (rewrite Ef; now left).
  apply filter_In in Hin as [Hin Hid].
  assert (existsb (fun r => String.eqb (br_id r) (Ban._id this)) (bans (db w)) = true)
    by (apply existsb_exists; eauto).
  congruence.
Qed.

(** X24. Confirming an edit throws when the platform rejects the loading
    notice, and with more than five evidence entries, in both cases before
    anything is saved.  Otherwise it ends with an answer, and the row of
    the edited ban is written exactly when the ban and its group exist: with the new
    reason and evidence but also with the [active] flag that the edited
    object carried when the menu was opened, whatever the row held since.
    The answer is "updated" when the row was written and the platform
    accepts that answer; it is "failed" when nothing could be written, but
    also when the row was written and the platform rejected the answer.  No
    other ban and no other table but the audit log is touched. *)
Theorem edit_confirm_outcome
        (originalInteraction : Interaction)
        (platform : Responder EditShareBanCommand.Reply)
        (config : EditShareBanCommand.EditBanConfiguration) (w : World) :
  let id := Ban._id (EditShareBanCommand.ban config) in
  let saves :=
    existsb (fun row => String.eqb (br_id row) id) (bans (db w))
    && has_collection (db w) (Ban._collectionId (EditShareBanCommand.ban config)) in
  if negb (delivers platform EditShareBanCommand.UpdatingRecord)
  then EditShareBanCommand.handleConfirmEdit originalInteraction platform config w
       = (Thrown (Error "Unknown interaction"), w)
  else if (5 <? length (EditShareBanCommand.evidence config))%nat
  then EditShareBanCommand.handleConfirmEdit originalInteraction platform config w
       = (Thrown (Error "evidence max 5 entries"), w)
  else
    exists reply w',
      EditShareBanCommand.handleConfirmEdit originalInteraction platform config w
      = (Normal reply, w')
      /\ only_listed_bans [id] w w'
      /\ (if saves
          then forall row, In row (bans (db w')) ->
                           br_id row = id ->
                           br_reason row = Some (EditShareBanCommand.reason config)
                           /\ br_evidenceJson row = EditShareBanCommand.evidence config
                           /\ br_active row
                              = toDbBool (Ban._active (EditShareBanCommand.ban config))
          else db w' = db w)
      /\ match reply with
         | EditShareBanCommand.BanUpdated b =>
             saves = true
             /\ delivers platform (EditShareBanCommand.BanUpdated b) = true
             /\ Ban._id b = id
             /\ Ban._reason b = Some (EditShareBanCommand.reason config)
             /\ Ban._evidence b = EditShareBanCommand.evidence config
         | EditShareBanCommand.UpdateFailed =>
             saves = true ->
             exists b, Ban._id b = id
                       /\ Ban._reason b = Some (EditShareBanCommand.reason config)
                       /\ Ban._evidence b = EditShareBanCommand.evidence config
                       /\ delivers platform (EditShareBanCommand.BanUpdated b) = false
         | EditShareBanCommand.UpdatingRecord => False
         end.
Proof.
  cbv zeta; unfold EditShareBanCommand.handleConfirmEdit; cbv zeta.
  destruct (delivers platform EditShareBanCommand.UpdatingRecord) eqn:Hload; cbn [negb];
    [|unfold bind, respond; rewrite Hload; reflexivity].
  assert (Hresp : respond platform EditShareBanCommand.UpdatingRecord w
                  = (Normal EditShareBanCommand.UpdatingRecord, w))
    by (unfold respond; rewrite Hload; reflexivity).
  destruct (5 <? length (EditShareBanCommand.evidence config))%nat eqn:Hev.
  { rewrite (bind_normal _ _ _ Hresp).
    unfold bind, Ban.set_evidence; rewrite Hev; reflexivity. }
  rewrite (bind_normal _ _ _ Hresp).
  match goal with |- context [Ban.set_evidence ?b0 ?ev] =>
    assert (Eset : exists b, Ban.set_evidence b0 ev w = (Normal b, w)
                             /\ Ban._id b = Ban._id (EditShareBanCommand.ban config)
                             /\ Ban._collectionId b
                                = Ban._collectionId (EditShareBanCommand.ban config)
                             /\ Ban._reason b = Some (EditShareBanCommand.reason config)
                             /\ Ban._evidence b = ev
                             /\ Ban._active b = Ban._active (EditShareBanCommand.ban config))
      by (unfold Ban.set_evidence; rewrite Hev; eexists; split; [reflexivity|];
          repeat split)
  end.
  destruct Eset as (b & Eset & Hid & Hcid & Hreason & Hevidence & Hactive).
  rewrite (bind_normal _ _ _ Eset).
  rewrite <- Hid, <- Hcid.
  destruct (existsb (fun row => String.eqb (br_id row) (Ban._id b)) (bans (db w))
            && has_collection (db w) (Ban._collectionId b)) eqn:Hsaves.
  - apply andb_prop in Hsaves as [Hrow Hcol].
    destruct (Ban_save_run b w Hrow Hcol) as (w1 & Esave & Hb1).
    unfold try_catch.
    rewrite (bind_normal _ _ _ Esave).
    match goal with |- context [logAction ?p] =>
      destruct (logAction_run p w1) as (w2 & Elog & Hdb2 & _)
    end.
    rewrite (bind_normal _ _ _ Elog).
    assert (F : only_listed_bans [Ban._id b] w w2).
    { eapply frame_trans.
      - eapply Ban_save_listed; [|exact Esave]. now left.
      - apply audit_frame_listed.
        match type of Elog with logAction ?p _ = _ => exact (logAction_audit_frame p _ Elog) end. }
    assert (Hwritten : forall row, In row (bans (db w2)) ->
                                   br_id row = Ban._id b ->
                                   br_reason row = Some (EditShareBanCommand.reason config)
                                   /\ br_evidenceJson row = EditShareBanCommand.evidence config
                                   /\ br_active row
                                      = toDbBool (Ban._active (EditShareBanCommand.ban config))).
    { assert (Hbans : bans (db w2) = bans (db w1))
        by (rewrite Hdb2; now destruct (loggable _ _)).
      rewrite Hbans, Hb1.
      intros row Hin Hrw.
      apply in_map_iff in Hin as (old & <- & Hold).
      destruct (String.eqb_spec (br_id old) (Ban._id b)) as [_|Hne]; [|contradiction].
      cbn [Ban.updated_row br_reason br_evidenceJson br_active].
      rewrite Hreason, Hevidence, Hactive; repeat split. }
    unfold respond.
    destruct (delivers platform (EditShareBanCommand.BanUpdated b)) eqn:Hd.
    + eexists _, _; split; [reflexivity|].
      split; [exact F|split; [exact Hwritten|]].
      repeat split; auto.
    + eexists _, _; split; [reflexivity|].
      split; [exact F|split; [exact Hwritten|]].
      intros _; exists b; repeat split; auto.
  - destruct (Ban_save_missing b w Hsaves) as (e & Esave).
    unfold try_catch.
    rewrite (bind_thrown _ _ _ Esave).
    eexists _, _; split; [reflexivity|].
    split; [apply frame_refl|split; [reflexivity|discriminate]].
Qed.

(* ------------------------------------------------------------------ *)
(** ** [/collection-create] *)

Lemma member_lookup_run (guildId : string) (w : World) :
  try_catch (s <- Server.getByGuildId guildId ;; ret (Some s))
            (fun error => match error with
                          | RecordNotFoundError _ => ret None
                          | _ => throw error
                          end) w
  = (Normal (enabled_member guildId (db w)), w).
Proof.
  unfold try_catch, Server.getByGuildId, Server.getById, bind, getDb, enabled_member.
  change (fun row => String.eqb (sr_guildId row) guildId && (sr_enabled row =? 1))
    with (enabled_in guildId).
  destruct (find _ _) as [row|]; [|reflexivity].
  destruct (find _ _); reflexivity.
Qed.

(** X25. [/collection-create] always answers and writes nothing.  The
    draft menu is offered only to the owner or an administrator of a server
    that neither owns a group nor is an enabled member of one; otherwise the
    answer names the group the server owns, or the group it belongs to. *)
Theorem create_menu_requires_unattached_server (interaction : Interaction) (w : World) :
  exists reply,
    CollectionCreateCommand.chatInputRun interaction w = (Normal reply, w)
    /\ match reply with
       | CollectionCreateCommand.DraftMenu draft =>
           exists guildId,
             i_guildId interaction = Some guildId
             /\ String.eqb (i_guildOwnerId interaction) (i_userId interaction)
                || i_administrator interaction = true
             /\ (forall c, In c (collections (db w)) -> cr_mainGuildId c <> guildId)
             /\ (forall s, In s (servers (db w)) -> sr_guildId s = guildId -> sr_enabled s <> 1)
             /\ draft = CollectionCreateCommand.mkDraft None None
       | CollectionCreateCommand.AlreadyOwns c =>
           exists guildId, i_guildId interaction = Some guildId
                           /\ owned_group guildId (db w) = Some c
       | CollectionCreateCommand.AlreadyMember collectionId =>
           exists guildId s, i_guildId interaction = Some guildId
                             /\ enabled_member guildId (db w) = Some s
                             /\ Server._collectionId s = collectionId
       | _ => True
       end.
Proof.
  unfold CollectionCreateCommand.chatInputRun.
  destruct (i_guildId interaction) as [guildId|] eqn:Hg;
    [|eexists; split; [reflexivity|exact I]].
  destruct (negb _ && negb _) eqn:Hauth; [eexists; split; [reflexivity|exact I]|].
  rewrite (bind_normal _ _ _ (owned_group_run guildId w)).
  destruct (owned_group guildId (db w)) as [c|] eqn:Hown;
    [eexists; split; [reflexivity|]; exists guildId; auto|].
  rewrite (bind_normal _ _ _ (member_lookup_run guildId w)).
  destruct (enabled_member guildId (db w)) as [s|] eqn:Hmem;
    [eexists; split; [reflexivity|]; exists guildId, s; auto|].
  eexists; split; [reflexivity|].
  exists guildId; split; [reflexivity|split; [|split; [|split; [|reflexivity]]]].
  - apply andb_false_iff in Hauth as [H|H]; apply negb_false_iff in H; rewrite H;
      [reflexivity|apply orb_true_r].
  - intros c Hin Hmain.
    unfold owned_group in Hown.
    destruct (find_first (fun row => String.eqb (cr_mainGuildId row) guildId) _ c Hin)
      as (row & Hrow & _); [now apply String.eqb_eq|].
    rewrite Hrow in Hown.
    apply find_some in Hrow as [Hrow _].
    destruct (find_first (fun r => String.eqb (cr_id r) (cr_id row)) _ row Hrow
                         (String.eqb_refl _)) as (row' & Hrow' & _).
    rewrite Hrow' in Hown; discriminate.
  - intros s Hin Hguild Hen.
    unfold enabled_member in Hmem.
    destruct (find_first (enabled_in guildId) _ s Hin) as (row & Hrow & _).
    { unfold enabled_in; rewrite Hguild, Hen, String.eqb_refl; reflexivity. }
    rewrite Hrow in Hmem.
    apply find_some in Hrow as [Hrow _].
    destruct (find_first (fun r => String.eqb (sr_id r) (sr_id row)) _ row Hrow
                         (String.eqb_refl _)) as (row' & Hrow' & _).
    rewrite Hrow' in Hmem; discriminate.
Qed.


(* ------------------------------------------------------------------ *)
(** ** Moderator grants *)

Lemma filter_negb_fresh {A} (f : A -> bool) (l : list A) :
  existsb f l = false -> filter (fun x => negb (f x)) l = l.
Proof.
  induction l as [|x l IH]; simpl; [reflexivity|].
  destruct (f x); simpl; [discriminate|intros H; now rewrite IH].
Qed.

(** X27. [Moderator.grant] either throws and leaves the database as it
    was, or appends one grant and returns it.  The grant is then found by
    its group, type and value; no grant of that triple existed before;
    granting the same once more is rejected by the database; and
    [Moderator.remove] on it restores the table of grants as it was. *)
Theorem Moderator_grant_outcome (input : Moderator.ModeratorGrantInput) (w : World) :
  let '(r, w') := Moderator.grant input w in
  match r with
  | Thrown e => db w' = db w
  | Normal m =>
      (exists row, moderators (db w') = moderators (db w) ++ [row]
                   /\ m = Moderator.applyRow row)
      /\ Moderator.getByCollectionTypeValue (Moderator.collectionId input)
                                            (Moderator.type input)
                                            (Moderator.value input) w'
         = (Normal m, w')
      /\ (forall old, In old (moderators (db w)) ->
                      ~ (mr_collectionId old = Moderator.collectionId input
                         /\ mr_type old = Moderator.type input
                         /\ mr_value old = Moderator.value input))
      /\ (exists code, Moderator.grant input w' = (Thrown (SqliteError code), after_draw w'))
      /\ (exists w'', Moderator.remove m w' = (Normal tt, w'')
                      /\ moderators (db w'') = moderators (db w))
  end.
Proof.
  unfold Moderator.grant at 1, Moderator.insert_row, bind, newId, nowIso, getDb;
    cbn [db clock uuids drawn client trace mr_id mr_collectionId mr_type mr_value].
  destruct (existsb _ _) eqn:Hpk; [reflexivity|].
  destruct (existsb (fun r => _ && _ && _) _) eqn:Hun; [reflexivity|].
  destruct (negb _) eqn:Hfk; [reflexivity|].
  unfold putDb, Moderator.getById, bind, getDb;
    cbn [db clock uuids drawn client trace moderators].
  rewrite (find_snoc_fresh (fun r => String.eqb (mr_id r) (uuids w (drawn w))) _ _ Hpk)
    by apply String.eqb_refl.
  cbn [ret].
  set (row := mkModeratorRow _ _ _ _ _ _).
  assert (Htriple : String.eqb (mr_collectionId row) (Moderator.collectionId input)
                    && Moderator.type_eqb (mr_type row) (Moderator.type input)
                    && String.eqb (mr_value row) (Moderator.value input) = true).
  { cbn; rewrite !String.eqb_refl; now destruct (Moderator.type input). }
  split; [exists row; split; reflexivity|split; [|split; [|split]]].
  - unfold Moderator.getByCollectionTypeValue, Moderator.getById, bind, getDb;
      cbn [db moderators].
    rewrite (find_snoc_fresh _ _ _ Hun Htriple).
    cbv beta iota; cbn [db moderators].
    rewrite (find_snoc_fresh (fun r => String.eqb (mr_id r) (mr_id row)) _ _ Hpk)
      by apply String.eqb_refl.
    reflexivity.
  - intros old Hin (Hc & Ht & Hv).
    assert (existsb (fun r => String.eqb (mr_collectionId r) (Moderator.collectionId input)
                              && Moderator.type_eqb (mr_type r) (Moderator.type input)
                              && String.eqb (mr_value r) (Moderator.value input))
                    (moderators (db w)) = true).
    { apply existsb_exists; exists old; split; [exact Hin|].
      rewrite Hc, Ht, Hv, !String.eqb_refl; now destruct (Moderator.type input). }
    congruence.
  - unfold Moderator.grant, Moderator.insert_row, bind, newId, nowIso, getDb, throw;
      cbn [db clock uuids drawn client trace moderators mr_id mr_collectionId mr_type
           mr_value].
    destruct (existsb (fun r => String.eqb (mr_id r) (uuids w (S (drawn w))))
                      (moderators (db w) ++ [row])); [eexists; reflexivity|].
    rewrite existsb_app; cbn [existsb]; rewrite Htriple, orb_true_r.
    eexists; reflexivity.
  - unfold Moderator.remove, bind, getDb, putDb;
      cbn [db clock uuids drawn client trace moderators Moderator._id Moderator.applyRow].
    rewrite !filter_app; cbn [filter length]; rewrite String.eqb_refl; cbn [negb].
    rewrite length_app; cbn [length].
    destruct (Nat.eqb_spec (length (filter (fun r => String.eqb (mr_id r) (mr_id row))
                                           (moderators (db w))) + 1) 0) as [Hz|_]; [lia|].
    eexists; split; [reflexivity|]; cbn [db moderators].
    rewrite app_nil_r.
    apply (filter_negb_fresh (fun r => String.eqb (mr_id r) (mr_id row))); exact Hpk.
Qed.

(* ------------------------------------------------------------------ *)
(** ** What a notification can do *)

Section MessageFrames.

#[export] Instance only_messages_frame : Frame only_messages.
Proof.
  split; unfold only_messages.
  - intros w; split; [apply frame_refl|].
    exists []; now rewrite app_nil_r.
  - intros w1 w2 w3 (F12 & evs1 & Ht1 & Hm1) (F23 & evs2 & Ht2 & Hm2).
    split; [eapply frame_trans; eauto|].
    exists (evs1 ++ evs2); split; [rewrite Ht2, Ht1, app_assoc; reflexivity|].
    rewrite forallb_app, Hm1, Hm2; reflexivity.
Qed.

Lemma emit_message (e : Event) :
  is_message e = true -> preserves only_messages (emit e).
Proof.
  intros He w r w' E; unfold emit in E; injection E as _ <-.
  split; [repeat split|].
  exists [e]; split; [reflexivity|]; cbn; now rewrite He.
Qed.

Lemma channel_send_messages g c : preserves only_messages (channel_send g c).
Proof.
  pose proof only_messages_frame.
  pose proof (@emit_message (EvChannelSend (g_id g) (ch_id c) (ch_send_ok c)) eq_refl).
  unfold channel_send; frames.
Qed.

Lemma member_send_messages m : preserves only_messages (member_send m).
Proof.
  pose proof only_messages_frame.
  pose proof (@emit_message (EvDm (me_id m) (me_dm_ok m)) eq_refl).
  unfold member_send; frames.
Qed.

Lemma guilds_fetch_messages g : preserves only_messages (guilds_fetch_ g).
Proof. pose proof only_messages_frame; unfold guilds_fetch_; frames. Qed.

Lemma channels_fetch_messages g c : preserves only_messages (channels_fetch g c).
Proof. pose proof only_messages_frame; unfold channels_fetch; frames. Qed.

Lemma fetchOwner_messages g : preserves only_messages (fetchOwner g).
Proof. pose proof only_messages_frame; unfold fetchOwner; frames. Qed.

Lemma dm_members_messages ms : forall n, preserves only_messages (dm_members ms n).
Proof.
  pose proof only_messages_frame; pose proof member_send_messages.
  induction ms as [|m ms IH]; intros n; cbn [dm_members]; frames.
Qed.

Lemma dm_roles_messages ms rs : forall n, preserves only_messages (dm_roles ms rs n).
Proof.
  pose proof only_messages_frame; pose proof dm_members_messages.
  induction rs as [|r rs IH]; intros n; cbn [dm_roles]; frames.
Qed.

Lemma dmCollectionAdmins_messages g : preserves only_messages (dmCollectionAdmins g).
Proof.
  pose proof only_messages_frame; pose proof member_send_messages.
  pose proof fetchOwner_messages; pose proof dm_roles_messages.
  unfold dmCollectionAdmins; frames.
Qed.

Lemma sendToMainCollectionLog_messages c : preserves only_messages (sendToMainCollectionLog c).
Proof.
  pose proof only_messages_frame; pose proof guilds_fetch_messages.
  pose proof channel_send_messages; pose proof dmCollectionAdmins_messages.
  unfold sendToMainCollectionLog; frames.
Qed.

Lemma notify_server_messages b s : preserves only_messages (notify_server b s).
Proof.
  pose proof only_messages_frame; pose proof guilds_fetch_messages.
  pose proof channels_fetch_messages; pose proof channel_send_messages.
  unfold notify_server; frames.
Qed.

Lemma sendAuditLogNotifications_messages a :
  preserves only_messages (sendAuditLogNotifications a).
Proof.
  pose proof only_messages_frame; pose proof notify_server_messages.
  pose proof sendToMainCollectionLog_messages.
  unfold sendAuditLogNotifications; frames.
Qed.

End MessageFrames.

Lemma notified_group_run (id : string) (w : World) :
  try_catch (collection <- Collection.getById id ;; ret (Some collection))
            (fun error => match error with
                          | RecordNotFoundError _ => ret None
                          | _ => throw error
                          end) w
  = (Normal (option_map Collection.applyRow
               (find (fun r => String.eqb (cr_id r) id) (collections (db w)))), w).
Proof.
  unfold try_catch, Collection.getById, bind, getDb.
  destruct (find _ _); reflexivity.
Qed.

(** X28. The notification of an audit entry never throws, never writes to
    the database and never bans or unbans anyone: all it adds to the record
    of platform calls are messages to channels and to users.  It does
    nothing at all when the client is not ready, when the group of the entry
    does not exist, or when the group has logging switched off. *)
Theorem notifications_only_send_messages (auditLog : AuditLog.t) (w : World) :
  exists w',
    sendAuditLogNotifications auditLog w = (Normal tt, w')
    /\ only_messages w w'
    /\ (isReady (client w) = false
        \/ (forall row,
               find (fun r => String.eqb (cr_id r) (AuditLog._collectionId auditLog))
                    (collections (db w)) = Some row ->
               fromDbBool (cr_loggingEnabledAtCollectionLevel row) = false) ->
        w' = w).
Proof.
  destruct (sendAuditLogNotifications auditLog w) as [r w'] eqn:E.
  pose proof (sendAuditLogNotifications_messages auditLog _ E) as Hframe.
  exists w'.
  unfold sendAuditLogNotifications in E.
  unfold bind at 1 in E; unfold getClient at 1 in E.
  destruct (isReady (client w)) eqn:Hready; cbn [negb] in E.
  - rewrite (bind_normal _ _ _ (notified_group_run (AuditLog._collectionId auditLog) w)) in E.
    destruct (find _ (collections (db w))) as [row|] eqn:Hrow; cbn [option_map] in E;
      [|injection E as <- <-; split; [reflexivity|split; [exact Hframe|intros _; reflexivity]]].
    cbn [Collection._loggingEnabledAtCollectionLevel Collection._id Collection.applyRow] in E.
    destruct (fromDbBool (cr_loggingEnabledAtCollectionLevel row)) eqn:Hlog; cbn [negb] in E;
      [|injection E as <- <-; split; [reflexivity|split; [exact Hframe|intros _; reflexivity]]].
    rewrite (bind_normal _ _ _ (Server_listByCollection_run w _)) in E.
    match type of E with context [fold_each ?l notify_server false] =>
      destruct (notify_all_run l false w) as (w1 & E1 & _ & _)
    end.
    rewrite (bind_normal _ _ _ E1) in E.
    assert (Hr : r = Normal tt).
    { destruct (negb _).
      - destruct (sendToMainCollectionLog_run (Collection.applyRow row) w1) as (w2 & E2 & _).
        rewrite E2 in E; now injection E as <- _.
      - now injection E as <- _. }
    subst r; split; [reflexivity|split; [exact Hframe|]].
    intros [Hoff|Hoff]; [discriminate|].
    specialize (Hoff row eq_refl); congruence.
  - injection E as <- <-; split; [reflexivity|split; [exact Hframe|intros _; reflexivity]].
Qed.

(* ------------------------------------------------------------------ *)
(** ** Editing a group *)

Lemma db_eta (d : Db) :
  mkDb (collections d) (servers d) (bans d) (moderators d) (auditLogs d) (invites d) = d.
Proof. now destruct d. Qed.

Lemma Collection_save_run (this : Collection.t) (w : World) (row : CollectionRow) :
  NoDup (map cr_id (collections (db w))) ->
  NoDup (map cr_mainGuildId (collections (db w))) ->
  In row (collections (db w)) ->
  Collection._id this = cr_id row ->
  Collection._mainGuildId this = cr_mainGuildId row ->
  0 < Collection._maxLinkedServers this ->
  Collection.save this w
  = (Normal tt,
     with_db (mkDb (map (fun r => if String.eqb (cr_id r) (cr_id row)
                                  then Collection.updated_row this row else r)
                        (collections (db w)))
                   (servers (db w)) (bans (db w)) (moderators (db w))
                   (auditLogs (db w)) (invites (db w))) w).
Proof.
  intros Hids Hmains Hin Hid Hmain Hpos.
  unfold Collection.save, bind, getDb, putDb; cbv zeta; rewrite Hid, Hmain.
  pose proof (filter_nonempty (fun r => String.eqb (cr_id r) (cr_id row)) _ _ Hin
                              (String.eqb_refl _)) as Hn.
  destruct (Nat.eqb_spec (length (filter (fun r => String.eqb (cr_id r) (cr_id row))
                                         (collections (db w)))) 0) as [Hz|_]; [lia|].
  destruct (Z.leb_spec (Collection._maxLinkedServers this) 0) as [Hle|_]; [lia|].
  assert (Hun : existsb (fun r => negb (String.eqb (cr_id r) (cr_id row))
                                  && String.eqb (cr_mainGuildId r) (cr_mainGuildId row))
                        (collections (db w)) = false).
  { apply not_true_is_false; intros Hex.
    apply existsb_exists in Hex as (r & Hr & Hc).
    apply andb_prop in Hc as [Hc1 Hc2]; apply String.eqb_eq in Hc2.
    assert (r = row) by (apply (NoDup_map_same cr_mainGuildId _ _ _ Hmains Hr Hin Hc2)).
    subst r; rewrite String.eqb_refl in Hc1; discriminate. }
  rewrite Hun; unfold with_db; do 3 f_equal.
  apply map_ext_in; intros r Hr.
  destruct (String.eqb_spec (cr_id r) (cr_id row)) as [Hsame|]; [|reflexivity].
  assert (r = row) by (apply (NoDup_map_same cr_id _ _ _ Hids Hr Hin Hsame)).
  now subst r.
Qed.

(** X29. A group that was just loaded can be saved back without changing
    anything.  Setting its capacity rejects a value that is not a number or
    not positive; for a positive value, saving the group changes the
    capacity of that one row and nothing else, and the group is read back
    with the new capacity. *)
Theorem Collection_capacity_edit (id : string) (c : Collection.t) (w : World) :
  groups_wellformed (db w) ->
  group_flags_wellformed (db w) ->
  Collection.getById id w = (Normal c, w) ->
  Collection.save c w = (Normal tt, w)
  /\ forall value,
       match value with
       | Num z =>
           if z <=? 0
           then Collection.set_maxLinkedServers c value w
                = (Thrown (Error "maxLinkedServers must be a positive number"), w)
           else
             exists c' w',
               Collection.set_maxLinkedServers c value w = (Normal c', w)
               /\ Collection.save c' w = (Normal tt, w')
               /\ w' = with_db (mkDb (map (fun r => if String.eqb (cr_id r) id
                                                    then with_capacity z r else r)
                                          (collections (db w)))
                                     (servers (db w)) (bans (db w)) (moderators (db w))
                                     (auditLogs (db w)) (invites (db w))) w
               /\ Collection.getById id w' = (Normal c', w')
               /\ Collection._maxLinkedServers c' = z
       | NaN =>
           Collection.set_maxLinkedServers c value w
           = (Thrown (Error "maxLinkedServers must be a positive number"), w)
       end.
Proof.
  intros (Hids & Hmains & Hcaps) Hflags Hget.
  unfold Collection.getById, bind, getDb, ret in Hget.
  destruct (find _ _) as [row|] eqn:Hrow; [|discriminate].
  injection Hget as <-.
  apply find_some in Hrow as [Hin Hid]; apply String.eqb_eq in Hid; subst id.
  destruct (Hflags row Hin) as (Hb1 & Hb2 & Hb3).
  assert (Hback : forall z,
             Collection.updated_row
               (Collection.mk (cr_id row) (cr_mainGuildId row) (cr_name row)
                              (cr_description row) (cr_createdAt row) (cr_createdBy row)
                              (fromDbBool (cr_loggingEnabledAtCollectionLevel row))
                              (cr_onServerRemove row) (fromDbBool (cr_dmOnBan row))
                              (fromDbBool (cr_analyticsEnabled row)) z) row
             = with_capacity z row).
  { intros z; unfold Collection.updated_row, with_capacity; cbn.
    now rewrite !toDbBool_fromDbBool. }
  split.
  - rewrite (@Collection_save_run (Collection.applyRow row) w row Hids Hmains Hin
               eq_refl eq_refl).
    + assert (Hmap : map (fun r => if String.eqb (cr_id r) (cr_id row)
                                   then Collection.updated_row (Collection.applyRow row) row
                                   else r) (collections (db w))
                     = collections (db w)).
      { rewrite <- (map_id (collections (db w))) at 2; apply map_ext_in; intros r Hr.
        destruct (String.eqb_spec (cr_id r) (cr_id row)) as [Hsame|]; [|reflexivity].
        assert (r = row) by (apply (NoDup_map_same cr_id _ _ _ Hids Hr Hin Hsame)).
        subst r; unfold Collection.applyRow; rewrite Hback.
        now destruct row. }
      rewrite Hmap, db_eta, with_db_same; reflexivity.
    + rewrite Forall_forall in Hcaps; now apply Hcaps.
  - intros [z|]; [|reflexivity].
    unfold Collection.set_maxLinkedServers; cbn [isFinite lessEqZero negb orb].
    destruct (Z.leb_spec z 0) as [Hle|Hpos]; [reflexivity|].
    eexists _, _; split; [reflexivity|].
    cbn [Collection.applyRow Collection._id Collection._mainGuildId Collection._name
         Collection._description Collection._createdAt Collection._createdBy
         Collection._loggingEnabledAtCollectionLevel Collection._onServerRemove
         Collection._dmOnBan Collection._analyticsEnabled].
    match goal with |- Collection.save ?c' w = _ /\ _ =>
      split; [apply (@Collection_save_run c' w row Hids Hmains Hin eq_refl eq_refl Hpos)|]
    end.
    rewrite Hback.
    split; [|split; [|reflexivity]].
    + assert (Hmap : map (fun r => if String.eqb (cr_id r) (cr_id row)
                                   then with_capacity z row else r) (collections (db w))
                     = map (fun r => if String.eqb (cr_id r) (cr_id row)
                                     then with_capacity z r else r) (collections (db w))).
      { apply map_ext_in; intros r Hr.
        destruct (String.eqb_spec (cr_id r) (cr_id row)) as [Hsame|]; [|reflexivity].
        assert (r = row) by (apply (NoDup_map_same cr_id _ _ _ Hids Hr Hin Hsame)).
        now subst r. }
      rewrite Hmap; reflexivity.
    + unfold Collection.getById, bind, getDb; cbn [with_db db collections].
      rewrite find_map_preserving
        by (intros x; destruct (String.eqb (cr_id x) (cr_id row)) eqn:Hx;
            [apply String.eqb_refl|exact Hx]).
      destruct (find_first (fun r => String.eqb (cr_id r) (cr_id row)) _ row Hin
                           (String.eqb_refl _)) as (row' & Hrow' & Hid').
      rewrite Hrow'; cbn [option_map].
      apply find_some in Hrow' as [Hin' _]; apply String.eqb_eq in Hid'.
      assert (row' = row) by (apply (NoDup_map_same cr_id _ _ _ Hids Hin' Hin Hid')).
      subst row'; rewrite String.eqb_refl.
      unfold ret, Collection.applyRow, with_capacity; cbn.
      reflexivity.
Qed.

Lemma Collection_capacity_edit_witness :
  Collection.save (Collection.applyRow Scenario.alpha) Scenario.w_invited
  = (Normal tt, Scenario.w_invited).
Proof.
  apply (proj1 (@Collection_capacity_edit "c-alpha" (Collection.applyRow Scenario.alpha)
                  Scenario.w_invited
                  ltac:(repeat split; simpl; repeat constructor; simpl; tauto || lia)
                  ltac:(intros row [<-|[]]; repeat split; (now left) || (now right))
                  eq_refl)).
Defined.

(* ------------------------------------------------------------------ *)
(** ** [/collection-delete]: the prompt *)

Section FilterCounts.

Context {A : Type}.
Variables (key : A -> Z) (p : A -> bool).

Lemma filter_insert_desc_length (x : A) (l : list A) :
  length (filter p (insert_desc key x l)) = length (filter p (x :: l)).
Proof.
  induction l as [|y l IH]; [reflexivity|]; cbn [insert_desc].
  destruct (key y <=? key x); [reflexivity|].
  cbn [filter] in *; destruct (p y), (p x); cbn [length] in *; lia.
Qed.

Lemma filter_order_by_desc_length (l : list A) :
  length (filter p (order_by_desc key l)) = length (filter p l).
Proof.
  induction l as [|x l IH]; [reflexivity|].
  cbn [order_by_desc fold_right]; unfold order_by_desc in *.
  rewrite filter_insert_desc_length; cbn [filter]; destruct (p x); cbn [length]; lia.
Qed.

End FilterCounts.

Lemma filter_map_length {A B} (f : A -> B) (p : B -> bool) (l : list A) :
  length (filter p (map f l)) = length (filter (fun a => p (f a)) l).
Proof.
  induction l as [|x l IH]; [reflexivity|]; cbn [map filter].
  destruct (p (f x)); cbn [length]; lia.
Qed.

(** X30. [/collection-delete] always answers and writes nothing before the
    confirmation.  The prompt is shown only to the owner or an
    administrator of the server that owns the group, and the impact it
    states is the number of enabled members of that group. *)
Theorem delete_prompt_requires_owning_server (interaction : Interaction) (w : World) :
  exists reply,
    CollectionDeleteCommand.chatInputRun interaction w = (Normal reply, w)
    /\ match reply with
       | CollectionDeleteCommand.ConfirmPrompt c serverCount =>
           exists guildId,
             i_guildId interaction = Some guildId
             /\ String.eqb (i_guildOwnerId interaction) (i_userId interaction)
                || i_administrator interaction = true
             /\ owned_group guildId (db w) = Some c
             /\ serverCount
                = length (filter (fun r => String.eqb (sr_collectionId r) (Collection._id c)
                                           && (sr_enabled r =? 1))
                                 (servers (db w)))
       | CollectionDeleteCommand.NoCollectionOwned =>
           exists guildId, i_guildId interaction = Some guildId
                           /\ owned_group guildId (db w) = None
       | _ => True
       end.
Proof.
  unfold CollectionDeleteCommand.chatInputRun.
  destruct (i_guildId interaction) as [guildId|] eqn:Hg;
    [|eexists; split; [reflexivity|exact I]].
  destruct (negb _ && negb _) eqn:Hauth; [eexists; split; [reflexivity|exact I]|].
  rewrite (bind_normal _ _ _ (owned_group_run guildId w)).
  destruct (owned_group guildId (db w)) as [c|] eqn:Hown;
    [|eexists; split; [reflexivity|]; exists guildId; auto].
  rewrite (bind_normal _ _ _ (Server_listByCollection_run w _)).
  eexists; split; [reflexivity|].
  exists guildId; split; [reflexivity|split; [|split; [exact Hown|]]].
  - apply andb_false_iff in Hauth as [H|H]; apply negb_false_iff in H; rewrite H;
      [reflexivity|apply orb_true_r].
  - rewrite filter_map_length, filter_order_by_desc_length.
    clear; induction (servers (db w)) as [|r l IH]; [reflexivity|]; cbn [filter].
    destruct (String.eqb (sr_collectionId r) (Collection._id c)); cbn [andb filter];
      [|exact IH].
    cbn [Server._enabled Server.applyRow] in *; unfold fromDbBool in *.
    destruct (sr_enabled r =? 1); cbn [length]; [now rewrite IH|exact IH].
Qed.

(* ------------------------------------------------------------------ *)
(** ** Revoking a ban: where the unban is attempted *)

Lemma unban_calls_app (evs1 evs2 : list Event) :
  unban_calls (evs1 ++ evs2) = unban_calls evs1 ++ unban_calls evs2.
Proof. apply flat_map_app. Qed.

Lemma unban_calls_messages (events : list Event) :
  forallb is_message events = true -> unban_calls events = [].
Proof.
  induction events as [|e evs IH]; [reflexivity|].
  cbn [forallb]; intros H; apply andb_prop in H as [He Hevs].
  cbn [unban_calls flat_map]; fold (unban_calls evs); rewrite (IH Hevs).
  destruct e; try discriminate; reflexivity.
Qed.

Lemma client_of_fetch_by_id (guilds : list Guild) : fetch_by_id (Scenario.client_of guilds).
Proof.
  intros id g; cbn [Scenario.client_of guilds_fetch]; intros E.
  apply find_some in E as [_ E]; now apply String.eqb_eq in E.
Qed.

Lemma unban_calls_of_events (c : Client) (userId : string) (guildIds : list string) :
  fetch_by_id c ->
  unban_calls (flat_map (unban_events c userId) guildIds)
  = map (fun g => (g, userId)) (filter (reachable c) guildIds).
Proof.
  intros Hc; induction guildIds as [|g rest IH]; [reflexivity|].
  cbn [flat_map filter]; rewrite unban_calls_app, IH.
  unfold unban_events, reachable.
  destruct (guilds_fetch c g) as [guild|] eqn:Eg; [|reflexivity].
  cbn [unban_calls flat_map app map]; now rewrite (Hc _ _ Eg).
Qed.

Section NoUnban.

#[export] Instance no_unban_frame : Frame no_unban.
Proof.
  split; unfold no_unban.
  - intros w; split; reflexivity.
  - intros w1 w2 w3 [Hc1 Ht1] [Hc2 Ht2]; split; congruence.
Qed.

Lemma only_messages_no_unban (w w' : World) : only_messages w w' -> no_unban w w'.
Proof.
  intros ((_ & _ & _ & _ & Hc) & events & Ht & Hm); split; [exact Hc|].
  now rewrite Ht, unban_calls_app, (unban_calls_messages _ Hm), app_nil_r.
Qed.

Lemma AuditLog_create_no_unban p : preserves no_unban (AuditLog.create p).
Proof.
  intros w r w'; rewrite AuditLog_create_run.
  destruct (existsb _ _); [|destruct (negb _)];
    intros E; injection E as _ <-; split; reflexivity.
Qed.

Lemma logAction_no_unban p : preserves no_unban (logAction p).
Proof.
  pose proof no_unban_frame; pose proof AuditLog_create_no_unban.
  assert (forall a, preserves no_unban (sendAuditLogNotifications a))
    by (intros a; apply preserves_weaken with (R := only_messages);
        [apply only_messages_no_unban|apply sendAuditLogNotifications_messages]).
  unfold logAction, detached; frames.
Qed.

Lemma Ban_save_no_unban (ban : Ban.t) : preserves no_unban (Ban.save ban).
Proof.
  intros w r w'; unfold Ban.save, bind, getDb, putDb, throw.
  destruct (_ =? 0)%nat; [|destruct (negb _)];
    intros E; injection E as _ <-; split; reflexivity.
Qed.

Lemma user_send_no_unban user : preserves no_unban (user_send user).
Proof.
  apply preserves_weaken with (R := only_messages); [apply only_messages_no_unban|].
  pose proof only_messages_frame.
  intros w r w'; unfold user_send, bind, getClient.
  pose proof (@emit_message (EvDm user (user_dm_ok (client w) user)) eq_refl) as He.
  destruct (emit (EvDm user (user_dm_ok (client w) user)) w) as [r0 w0] eqn:E0.
  specialize (He _ _ _ E0).
  unfold emit in E0; injection E0 as <- <-.
  destruct (user_dm_ok (client w) user); intros E; injection E as _ <-; exact He.
Qed.

End NoUnban.

Section UnbanEvents.

Variable targetUserId : string.

(** One round of the loop: the result it records and the call it makes. *)
Lemma unban_in_events (guildId : string) (w : World) :
  exists r w',
    UnsharebanCommand.unban_in targetUserId guildId w = (Normal r, w')
    /\ UnsharebanCommand.sr_guild r = guildId
    /\ UnsharebanCommand.success r = negb (unban_rejected (client w) targetUserId guildId)
    /\ only_trace w w'
    /\ trace w' = trace w ++ unban_events (client w) targetUserId guildId.
Proof.
  unfold unban_events, unban_rejected.
  cbv [UnsharebanCommand.unban_in try_catch bind guilds_fetch_ getClient members_unban
       emit ret throw].
  destruct (guilds_fetch (client w) guildId) as [g|] eqn:Eg; cbn [client trace].
  - destruct (g_unban g targetUserId) as [msg|]; cbn [client trace];
      eexists _, _; (split; [reflexivity|]); repeat split.
  - eexists _, _; split; [reflexivity|]; repeat split.
    cbn [trace]; now rewrite app_nil_r.
Qed.

Lemma unban_all_events (guildIds : list string) :
  forall w, exists rs w',
      UnsharebanCommand.unban_all targetUserId guildIds w = (Normal rs, w')
      /\ map UnsharebanCommand.sr_guild rs = guildIds
      /\ (forall s, In s rs ->
                    UnsharebanCommand.success s
                    = negb (unban_rejected (client w) targetUserId
                                           (UnsharebanCommand.sr_guild s)))
      /\ only_trace w w'
      /\ trace w' = trace w ++ flat_map (unban_events (client w) targetUserId) guildIds.
Proof.
  induction guildIds as [|g rest IH]; intros w; cbn [UnsharebanCommand.unban_all flat_map].
  - exists [], w; rewrite app_nil_r; repeat split; intros s [].
  - destruct (unban_in_events g w) as (r & w1 & E1 & Hg & Hs & F1 & Ht1).
    destruct (IH w1) as (rs & w2 & E2 & Hrs & Hss & F2 & Ht2).
    assert (Hc : client w1 = client w) by apply F1.
    exists (r :: rs), w2; split; [|split; [|split; [|split]]].
    + rewrite (bind_normal _ _ _ E1), (bind_normal _ _ _ E2); reflexivity.
    + cbn [map]; congruence.
    + intros s [<-|Hin]; [now rewrite Hg|].
      rewrite <- Hc; now apply Hss.
    + eapply frame_trans; eauto.
    + rewrite Ht2, Ht1, Hc, app_assoc; reflexivity.
Qed.

End UnbanEvents.

(** The revocation of one ban whose row and group exist: the servers it
    goes through, the results it records and the unban calls it makes. *)
Lemma process_ban_calls (targetUserId executorId : string)
      (acc : UnsharebanCommand.Totals) (ban : Ban.t) (w : World) (c : CollectionRow) :
  existsb (fun row => String.eqb (br_id row) (Ban._id ban)) (bans (db w)) = true ->
  find (fun r => String.eqb (cr_id r) (Ban._collectionId ban)) (collections (db w)) = Some c ->
  exists serverResults acc' w',
    UnsharebanCommand.process_ban targetUserId executorId acc ban w = (Normal acc', w')
    /\ map UnsharebanCommand.sr_guild serverResults
       = UnsharebanCommand.uniqueGuildIds
           (Collection.applyRow c)
           (map Server.applyRow
                (order_by_desc sr_addedAt
                   (filter (fun r => String.eqb (sr_collectionId r) (cr_id c))
                           (servers (db w)))))
    /\ UnsharebanCommand.results acc'
       = UnsharebanCommand.results acc
         ++ [UnsharebanCommand.mkCollectionResult (cr_name c) serverResults]
    /\ (forall s, In s serverResults ->
                  UnsharebanCommand.success s
                  = negb (unban_rejected (client w) targetUserId
                                         (UnsharebanCommand.sr_guild s)))
    /\ client w' = client w
    /\ unban_calls (trace w')
       = unban_calls (trace w)
         ++ unban_calls (flat_map (unban_events (client w) targetUserId)
                                  (map UnsharebanCommand.sr_guild serverResults)).
Proof.
  intros Hrow Hcol.
  destruct (unban_all_events targetUserId
              (UnsharebanCommand.uniqueGuildIds
                 (Collection.applyRow c)
                 (map Server.applyRow
                      (order_by_desc sr_addedAt
                         (filter (fun r => String.eqb (sr_collectionId r) (cr_id c))
                                 (servers (db w)))))) w)
    as (srs & w1 & E1 & Hmap & Hsucc & Ht1 & Htrace).
  destruct Ht1 as (Hdb & _ & _ & _ & Hcl1).
  destruct (@Ban_save_run (Ban.set_active ban false) w1) as (w2 & E2 & Hb2).
  { rewrite Hdb; exact Hrow. }
  { rewrite Hdb; unfold has_collection; simpl.
    apply existsb_exists; exists c; split; now apply find_some in Hcol. }
  destruct (Ban_save_no_unban _ _ E2) as (Hcl2 & Hu2).
  exists srs.
  destruct (UnsharebanCommand.process_ban targetUserId executorId acc ban w) as [r w'] eqn:E.
  unfold UnsharebanCommand.process_ban in E.
  erewrite try_catch_bind_normal in E by (apply Collection_getById_run; exact Hcol).
  erewrite try_catch_bind_normal in E by apply Server_listByCollection_run.
  cbn [Collection._id Collection.applyRow] in E.
  erewrite try_catch_bind_normal in E by exact E1.
  cbv zeta in E.
  match type of E with
  | context [logAction ?p1 ;;; (if ?cond then logAction ?p2 ;;; ret tt else ret tt)
             ;;; ret ?x] =>
      destruct (audit_tail_returns p1 p2 cond x w2) as (w3 & E3 & _);
      assert (F3 : no_unban w2 w3)
        by (revert E3; pose proof no_unban_frame; pose proof logAction_no_unban;
            generalize w2 (Normal (A := UnsharebanCommand.Totals) x) w3;
            change (preserves no_unban
                      (logAction p1 ;;; (if cond then logAction p2 ;;; ret tt else ret tt)
                       ;;; ret x));
            frames)
  end.
  erewrite try_catch_normal in E; cycle 1.
  { apply try_catch_normal. erewrite bind_normal by exact E2. exact E3. }
  inversion E; subst; clear E.
  eexists _, _; split; [reflexivity|]; split; [exact Hmap|]; split; [reflexivity|].
  destruct F3 as (Hcl3 & Hu3).
  split; [exact Hsucc|]; split; [congruence|].
  now rewrite Hu3, Hu2, Htrace, unban_calls_app, Hmap.
Qed.

(** C4, as the code has it.  Revoking a ban whose row and group exist goes
    through the owning server of the group and every server that has a row
    in the group, enabled or soft-disabled, each once; the servers the ban
    was applied to at creation play no part.  [members.unban] is called in
    exactly those of them whose guild the bot can fetch, once each and in
    that order, and nowhere else; where the guild cannot be fetched no call
    is made and the result recorded for the server is a failure. *)
Theorem revoke_attempts_unban_in_every_member_row
        (targetUserId executorId : string) (targetUser : option string)
        (ban : Ban.t) (w : World) (c : CollectionRow) :
  existsb (fun row => String.eqb (br_id row) (Ban._id ban)) (bans (db w)) = true ->
  find (fun r => String.eqb (cr_id r) (Ban._collectionId ban)) (collections (db w)) = Some c ->
  fetch_by_id (client w) ->
  exists serverResults r w',
    UnsharebanCommand.executeUnban targetUserId targetUser [ban] executorId w = (Normal r, w')
    /\ UnsharebanCommand.results (UnsharebanCommand.totals r)
       = [UnsharebanCommand.mkCollectionResult (cr_name c) serverResults]
    /\ NoDup (map UnsharebanCommand.sr_guild serverResults)
    /\ (forall g,
           In g (map UnsharebanCommand.sr_guild serverResults)
           <-> g = cr_mainGuildId c
               \/ exists row, In row (servers (db w))
                              /\ sr_collectionId row = cr_id c /\ sr_guildId row = g)
    /\ unban_calls (trace w')
       = unban_calls (trace w)
         ++ map (fun g => (g, targetUserId))
                (filter (reachable (client w))
                        (map UnsharebanCommand.sr_guild serverResults))
    /\ (forall s, In s serverResults ->
                  UnsharebanCommand.success s
                  = negb (unban_rejected (client w) targetUserId
                                         (UnsharebanCommand.sr_guild s))).
Proof.
  intros Hrow Hcol Hfetch.
  destruct (@process_ban_calls targetUserId executorId (UnsharebanCommand.mkTotals [] 0 0)
                               ban w c Hrow Hcol)
    as (srs & acc & w1 & E1 & Hmap & Hres & Hsucc & Hcl1 & Hcalls).
  destruct (dm_step_run targetUser w1) as (dmSent & w2 & E2 & _).
  assert (F2 : no_unban w1 w2).
  { revert E2; pose proof no_unban_frame; pose proof user_send_no_unban.
    generalize w1 (Normal dmSent) w2.
    change (preserves no_unban
              match targetUser with
              | Some user => try_catch (user_send user ;;; ret true) (fun _ => ret false)
              | None => ret false
              end).
    frames. }
  exists srs, (UnsharebanCommand.mkUnbanned acc dmSent), w2.
  split; [|split; [exact Hres|split; [|split; [|split; [|exact Hsucc]]]]].
  - unfold UnsharebanCommand.executeUnban; simpl fold_each.
    erewrite bind_normal; cycle 1.
    { erewrite bind_normal by exact E1. reflexivity. }
    erewrite bind_normal by exact E2. reflexivity.
  - rewrite Hmap; apply unique_NoDup.
  - intros g; rewrite Hmap; unfold UnsharebanCommand.uniqueGuildIds.
    rewrite unique_In; cbn [Collection._mainGuildId Collection.applyRow In].
    rewrite map_map, in_map_iff.
    split.
    + intros [[Hm|(row & Hg & Hin)] _]; [left; congruence|right].
      apply order_by_desc_In, filter_In in Hin as [Hin Hc].
      apply String.eqb_eq in Hc.
      exists row; repeat split; auto.
    + intros [->|(row & Hin & Hc & Hg)]; (split; [|tauto]); [left; reflexivity|right].
      exists row; split; [exact Hg|].
      apply order_by_desc_In, filter_In; split; [exact Hin|].
      rewrite Hc; apply String.eqb_refl.
  - destruct F2 as (_ & Hu2).
    now rewrite Hu2, Hcalls, (unban_calls_of_events _ _ Hfetch).
Qed.

(** S3 has left Alpha and the bot is no longer in S2: the revocation goes
    through S1, S3 and S2 and calls [members.unban] in S1 and S3. *)
Lemma revoke_attempts_unban_in_every_member_row_witness :
  exists serverResults r w',
    UnsharebanCommand.executeUnban Scenario.U1 None [Scenario.ban_U1] Scenario.owner
                                   Edge.w_S2_lost
    = (Normal r, w')
    /\ UnsharebanCommand.results (UnsharebanCommand.totals r)
       = [UnsharebanCommand.mkCollectionResult "Alpha" serverResults]
    /\ NoDup (map UnsharebanCommand.sr_guild serverResults)
    /\ (forall g,
           In g (map UnsharebanCommand.sr_guild serverResults)
           <-> g = Scenario.S1
               \/ exists row, In row (servers (db Edge.w_S2_lost))
                              /\ sr_collectionId row = "c-alpha"%string /\ sr_guildId row = g)
    /\ unban_calls (trace w')
       = unban_calls (trace Edge.w_S2_lost)
         ++ map (fun g => (g, Scenario.U1))
                (filter (reachable (client Edge.w_S2_lost))
                        (map UnsharebanCommand.sr_guild serverResults))
    /\ (forall s, In s serverResults ->
                  UnsharebanCommand.success s
                  = negb (unban_rejected (client Edge.w_S2_lost) Scenario.U1
                                         (UnsharebanCommand.sr_guild s))).
Proof.
  apply (@revoke_attempts_unban_in_every_member_row
           Scenario.U1 Scenario.owner None Scenario.ban_U1 Edge.w_S2_lost Scenario.alpha).
  - reflexivity.
  - reflexivity.
  - apply client_of_fetch_by_id.
Defined.

(* ------------------------------------------------------------------ *)
(** ** Answers the platform rejects *)

(** The owner of S1 invites S4 for the first time; the bot sits in S4, and
    the platform rejects the answer "invite sent".  The invite is written,
    the answer is the error, and no audit entry records the invite. *)
Example invite_written_but_error_answered :
  let w := Scenario.world Scenario.d_fresh 5000
                          (Scenario.client_of [Scenario.guild Scenario.S4 []]) in
  let sent := fun r => match r with
                       | CollectionInviteCommand.InviteSent _ => true
                       | _ => false
                       end in
  exists w',
    CollectionInviteCommand.chatInputRun Scenario.owner_interaction (refusing sent)
                                         Scenario.S4 w
    = (Normal CollectionInviteCommand.ErrorCreatingInvite, w')
    /\ invites (db w') = [Scenario.invite_row "uuid-0" Scenario.S4 5000 pending]
    /\ auditLogs (db w') = [].
Proof. cbv zeta; eexists; split; [vm_compute; reflexivity|split; reflexivity]. Qed.

(** The owner confirms the deletion of Alpha, which no invite refers to;
    the platform rejects the confirmation.  The answer is "failed" and
    Alpha is gone with its ban. *)
Example group_deleted_but_failure_answered :
  let deleted := fun r => match r with
                          | CollectionDeleteCommand.Deleted _ _ => true
                          | _ => false
                          end in
  exists w',
    CollectionDeleteCommand.confirm Scenario.owner_interaction (refusing deleted)
                                    (Collection.applyRow Scenario.alpha) 0 Edge.w_documented
    = (Normal CollectionDeleteCommand.FailedToDelete, w')
    /\ db w' = mkDb [] [] [] [] [] [].
Proof. cbv zeta; eexists; split; [vm_compute; reflexivity|reflexivity]. Qed.

(** The owner of S1 saves the draft "Beta" in a world without groups; the
    platform rejects the answer "created".  The answer is "failed" and S1
    owns the group. *)
Example group_created_but_failure_answered :
  let created := fun r => match r with
                          | CollectionCreateCommand.Created _ => true
                          | _ => false
                          end in
  exists w' c,
    CollectionCreateCommand.save Scenario.owner_interaction (refusing created) Scenario.S1
                                 (CollectionCreateCommand.mkDraft (Some "Beta"%string) None)
                                 Scenario.w_empty
    = (Normal CollectionCreateCommand.FailedToCreate, w')
    /\ Collection.getByMainGuildId Scenario.S1 w' = (Normal c, w')
    /\ Collection._name c = "Beta"%string.
Proof. cbv zeta; eexists _, _; split; [vm_compute; reflexivity|split; reflexivity]. Qed.

(** A moderator edits the reason of ban b-1; the platform rejects the
    answer "updated".  The answer is "failed" and the row carries the new
    reason. *)
Example ban_updated_but_failure_answered :
  let updated := fun r => match r with
                          | EditShareBanCommand.BanUpdated _ => true
                          | _ => false
                          end in
  let config := EditShareBanCommand.mkConfig (Ban.applyRow Edge.documented_row)
                                             "raid" true [] [Edge.screenshot] in
  exists w',
    EditShareBanCommand.handleConfirmEdit Scenario.owner_interaction (refusing updated) config
                                          Edge.w_documented
    = (Normal EditShareBanCommand.UpdateFailed, w')
    /\ map br_reason (bans (db w')) = [Some "raid"%string].
Proof. cbv zeta; eexists; split; [vm_compute; reflexivity|reflexivity]. Qed.
